(** * A shallow embedding of the Telegram cryptocurrency bot (worker.js)

    The worker receives webhook updates, classifies the text of the message,
    calls the market-data providers, formats a MarkdownV2 reply and posts it
    to the chat platform.  The development follows the file bottom-up:
    JavaScript values and the few built-in operations the code applies to
    them, the escaper, the pulse formatter, the network monad, the handlers
    and the dispatcher.

    Conventions.
    - A JavaScript string is a [string] holding its UTF-8 encoding.  Every
      literal the code compares against or splits on is ASCII, and an ASCII
      byte never occurs inside the encoding of another character, so
      [===], [startsWith], [split(' ')] and the escaping regular expression
      act on the encoding exactly as they act on the code units.
    - A JavaScript number is a binary64 [float].
    - Built-ins whose result depends on Unicode tables, on the locale or on
      number printing are fields of [Host]; the theorems hold for every
      host, the examples run on the reference host defined below. *)

From Stdlib Require Import String Ascii List ZArith Lia Bool Arith.
From Stdlib Require Import Floats.PrimFloat Floats.FloatOps Floats.SpecFloat.
From Stdlib Require Import DecimalString.
Import ListNotations.
Local Open Scope list_scope.
Local Open Scope string_scope.

Set Implicit Arguments.
Set Warnings "-register-all,-inexact-float".

(** ** Strings *)

Definition nl : string := String "010"%char EmptyString.
Definition bs : string := "\".

(** [`${n}`] for a non-negative integer [n]. *)
Definition string_of_nat (n : nat) : string :=
  NilZero.string_of_uint (Nat.to_uint n).

(** [s.startsWith(p)] *)
Definition startsWith (s p : string) : bool := String.prefix p s.

(** [s.split(sep)] for a one-character separator: the pieces between the
    occurrences of [sep]; always at least one piece. *)
Fixpoint split_on (sep : ascii) (s : string) : list string :=
  match s with
  | EmptyString => [EmptyString]
  | String c r =>
      if Ascii.eqb c sep then EmptyString :: split_on sep r
      else match split_on sep r with
           | [] => [String c EmptyString]
           | h :: t => String c h :: t
           end
  end.

(** ** Values, errors and results *)

Inductive value : Type :=
| JUndefined
| JNull
| JBool (b : bool)
| JNum (x : float)
| JStr (s : string)
| JArr (items : list value)
| JObj (fields : list (string * value)).

Inductive error : Type :=
| TypeError
| SyntaxError
| URIError
| RangeError
| NetworkError
| ApiError (status : Z).

Inductive result (A : Type) : Type :=
| Ok (a : A)
| Throw (e : error).
Arguments Ok {A} a.
Arguments Throw {A} e.

Definition rbind {A B} (r : result A) (k : A -> result B) : result B :=
  match r with
  | Ok a => k a
  | Throw e => Throw e
  end.

Declare Scope result_scope.
Delimit Scope result_scope with res.
Notation "x <- r ;; k" := (rbind r (fun x => k))
  (at level 61, r at next level, right associativity) : result_scope.

(** Built-ins of the runtime that the worker calls and that are not
    determined by the program text. *)
Record Host : Type := {
  toLowerCase : string -> string;           (* String.prototype.toLowerCase *)
  toUpperCase : string -> string;           (* String.prototype.toUpperCase *)
  numberToString : float -> string;         (* Number.prototype.toString *)
  numberToLocaleString : float -> string;   (* Number.prototype.toLocaleString *)
  numberToFixed : nat -> float -> string;   (* Number.prototype.toFixed, digits <= 100 *)
  encodeURIComponent : string -> option string  (* None: URIError *)
}.

(** *** Truthiness and property access *)

Definition num_falsy (x : float) : bool :=
  PrimFloat.eqb x 0 || negb (PrimFloat.eqb x x).

Definition truthy (v : value) : bool :=
  match v with
  | JUndefined | JNull => false
  | JBool b => b
  | JNum x => negb (num_falsy x)
  | JStr s => negb (String.eqb s EmptyString)
  | JArr _ | JObj _ => true
  end.

(** [a || b] *)
Definition js_or (a b : value) : value := if truthy a then a else b.

Fixpoint assoc (k : string) (fields : list (string * value)) : option value :=
  match fields with
  | [] => None
  | (k', v) :: r => if String.eqb k k' then Some v else assoc k r
  end.

Definition has_key (k : string) (fields : list (string * value)) : bool :=
  match assoc k fields with Some _ => true | None => false end.

(** [v.k] for a key [k] that no prototype defines (every key the worker
    reads is of that kind): a [TypeError] on [undefined] and [null], the own
    property of a record, [undefined] otherwise. *)
Definition getProp (v : value) (k : string) : result value :=
  match v with
  | JUndefined | JNull => Throw TypeError
  | JObj fields => Ok (match assoc k fields with Some x => x | None => JUndefined end)
  | _ => Ok JUndefined
  end.

(** [Array.isArray(v)] *)
Definition isArray (v : value) : bool :=
  match v with JArr _ => true | _ => false end.

(** [v.length === 0] for a truthy [v]. *)
Definition length_is_zero (v : value) : bool :=
  match v with
  | JArr items => match items with [] => true | _ => false end
  | JStr s => String.eqb s EmptyString
  | JObj fields =>
      match assoc "length" fields with
      | Some (JNum x) => PrimFloat.eqb x 0
      | _ => false
      end
  | _ => false
  end.

(** [v[0]] for a truthy [v].  Of a string it is the first character, here
    its first byte; the worker only reads the [id] of the result, which no
    string has. *)
Definition index0 (v : value) : value :=
  match v with
  | JArr items => match items with x :: _ => x | [] => JUndefined end
  | JStr s => match s with String c _ => JStr (String c EmptyString) | EmptyString => JUndefined end
  | JObj fields => match assoc "0" fields with Some x => x | None => JUndefined end
  | _ => JUndefined
  end.

Section WithHost.

Context (host : Host).

Local Open Scope result_scope.
Local Open Scope float_scope.

(** *** Conversions to string *)

(** The abstract operation ToString, as a template literal applies it.  A
    record parsed from JSON holds no function, so one with an own
    [toString] property has no callable [toString] and no primitive
    [valueOf]: the conversion throws. *)
Fixpoint toStringOp (v : value) : result string :=
  match v with
  | JUndefined => Ok "undefined"
  | JNull => Ok "null"
  | JBool true => Ok "true"
  | JBool false => Ok "false"
  | JNum x => Ok (numberToString host x)
  | JStr s => Ok s
  | JArr items =>
      (fix join (l : list value) : result string :=
         match l with
         | [] => Ok EmptyString
         | x :: r =>
             sx <- match x with
                   | JUndefined | JNull => Ok EmptyString
                   | _ => toStringOp x
                   end ;;
             match r with
             | [] => Ok sx
             | _ => sr <- join r ;; Ok (sx ++ "," ++ sr)
             end
         end) items
  | JObj fields =>
      if has_key "toString" fields then Throw TypeError else Ok "[object Object]"
  end.

(** The method call [v.toString()]. *)
Definition toStringMethod (v : value) : result string :=
  match v with
  | JUndefined | JNull => Throw TypeError
  | _ => toStringOp v
  end.

(** The method call [v.toLocaleString()]. *)
Fixpoint toLocaleStringMethod (v : value) : result string :=
  match v with
  | JUndefined | JNull => Throw TypeError
  | JBool true => Ok "true"
  | JBool false => Ok "false"
  | JNum x => Ok (numberToLocaleString host x)
  | JStr s => Ok s
  | JArr items =>
      (fix join (l : list value) : result string :=
         match l with
         | [] => Ok EmptyString
         | x :: r =>
             sx <- match x with
                   | JUndefined | JNull => Ok EmptyString
                   | _ => toLocaleStringMethod x
                   end ;;
             match r with
             | [] => Ok sx
             | _ => sr <- join r ;; Ok (sx ++ "," ++ sr)
             end
         end) items
  | JObj fields =>
      if has_key "toLocaleString" fields then Throw TypeError
      else if has_key "toString" fields then Throw TypeError
      else Ok "[object Object]"
  end.

(** The method call [v.toFixed(d)]: only numbers have the method. *)
Definition toFixedMethod (d : nat) (v : value) : result string :=
  match v with
  | JNum x => Ok (numberToFixed host d x)
  | _ => Throw TypeError
  end.

(** The method call [v.toUpperCase()]: only strings have the method. *)
Definition toUpperCaseMethod (v : value) : result string :=
  match v with
  | JStr s => Ok (toUpperCase host s)
  | _ => Throw TypeError
  end.

(** ** Markup escaper *)

(** The character class of the regular expression
    [/([_*[\]()~`>#+\-=|{}.!])/g]. *)
Definition escape_class : list ascii :=
  ["_"; "*"; "["; "]"; "("; ")"; "~"; "`"; ">"; "#"; "+"; "-"; "="; "|";
   "{"; "}"; "."; "!"]%char.

Definition in_class (cls : list ascii) (c : ascii) : bool :=
  existsb (Ascii.eqb c) cls.

(** [s.replace(/([cls])/g, f($1))]: a global replacement of every
    one-character match of the class. *)
Fixpoint replace_class (cls : list ascii) (f : string -> string) (s : string) : string :=
  match s with
  | EmptyString => EmptyString
  | String c r =>
      if in_class cls c then f (String c EmptyString) ++ replace_class cls f r
      else String c (replace_class cls f r)
  end.

Definition escapeMarkdown (text : value) : result string :=
  match text with
  | JUndefined | JNull => Ok EmptyString
  | _ =>
      s <- toStringMethod text ;;
      Ok (replace_class escape_class (fun m => bs ++ m) s)
  end.

(** ** Pulse listing formatter *)

(** [x >= 0] for a number. *)
Definition ge_zero (x : float) : bool := PrimFloat.leb 0 x.

(** [if (v) info += label + escapeMarkdown(render(v)) + suffix] *)
Definition append_if_truthy (info : string) (v : value) (label : string)
    (render : value -> result string) (suffix : string) : result string :=
  if truthy v then
    shown <- render v ;;
    esc <- escapeMarkdown (JStr shown) ;;
    Ok (info ++ label ++ esc ++ suffix)
  else Ok info.

(** [formatCoinInfo(coin, index)].  When [coin.change24h] is truthy and not
    a number the comparison of line 489 yields some glyph and line 490 then
    fails for want of a [toFixed] method; the two lines are one match
    here. *)
Definition formatCoinInfo (coin : value) (index : nat) : result string :=
  change24h <- getProp coin "change24h" ;;
  priceChangeIcon <-
    match js_or change24h (JNum 0) with
    | JNum x => Ok (if ge_zero x then "🟢" else "🔴")
    | _ => Throw TypeError
    end ;;
  priceChange <-
    (if truthy change24h then toFixedMethod 2 change24h else Ok "0.00") ;;
  name <- getProp coin "name" ;;
  escName <- escapeMarkdown (js_or name (JStr "Unknown")) ;;
  symbol <- getProp coin "symbol" ;;
  upper <- toUpperCaseMethod (js_or symbol (JStr "N/A")) ;;
  escSymbol <- escapeMarkdown (JStr upper) ;;
  let info := string_of_nat index ++ "\. " ++ escName ++ " \(" ++ escSymbol ++ "\)" ++ nl in
  price <- getProp coin "price" ;;
  info <- append_if_truthy info price "💰 Price: $" toLocaleStringMethod nl ;;
  escChange <- escapeMarkdown (JStr priceChange) ;;
  let info := info ++ priceChangeIcon ++ " 24h: " ++ escChange ++ "\%" ++ nl in
  marketCap <- getProp coin "marketCap" ;;
  info <- append_if_truthy info marketCap "💎 Market Cap: $" toLocaleStringMethod nl ;;
  volume24h <- getProp coin "volume24h" ;;
  info <- append_if_truthy info volume24h "📊 Volume: $" toLocaleStringMethod nl ;;
  holders <- getProp coin "holders" ;;
  info <- append_if_truthy info holders "👥 Holders: " toLocaleStringMethod nl ;;
  age <- getProp coin "age" ;;
  info <- append_if_truthy info age "⏰ Age: " toStringMethod nl ;;
  progress <- getProp coin "progress" ;;
  info <- append_if_truthy info progress "📈 Progress: " toStringMethod ("\%" ++ nl) ;;
  migrationTime <- getProp coin "migrationTime" ;;
  info <- append_if_truthy info migrationTime "🚀 Migrated: " toStringMethod nl ;;
  Ok (info ++ nl).

(** ** Pulse sections and their fallback fixtures *)

Inductive section : Type := NewPairs | FinalStretch | Migrated.

Definition section_name (s : section) : string :=
  match s with
  | NewPairs => "new-pairs"
  | FinalStretch => "final-stretch"
  | Migrated => "migrated"
  end.

Definition AXIOM_API : string := "https://api.axiom.trade/v1".
Definition COINGECKO_API : string := "https://api.coingecko.com/api/v3".
Definition WEBHOOK_ENDPOINT : string := "/webhook".

(** [endpoints[section]] *)
Definition endpoints (s : section) : string :=
  AXIOM_API ++ "/pulse/" ++ section_name s.

(** [getMockPulseData(section)]; the callers pass one of the three section
    names, for which [mockData[section]] is defined. *)
Definition getMockPulseData (s : section) : list value :=
  match s with
  | NewPairs =>
      [ JObj [ ("name", JStr "PEPE2.0"); ("symbol", JStr "PEPE2");
               ("price", JNum 0.000001234); ("marketCap", JNum 1250000);
               ("volume24h", JNum 450000); ("holders", JNum 1250);
               ("age", JStr "15m"); ("change24h", JNum 45.67) ];
        JObj [ ("name", JStr "DogeCoin Classic"); ("symbol", JStr "DOGEC");
               ("price", JNum 0.00234); ("marketCap", JNum 890000);
               ("volume24h", JNum 320000); ("holders", JNum 890);
               ("age", JStr "8m"); ("change24h", JNum (-12.34)) ] ]
  | FinalStretch =>
      [ JObj [ ("name", JStr "MoonShot Token"); ("symbol", JStr "MOON");
               ("price", JNum 0.0456); ("marketCap", JNum 2340000);
               ("volume24h", JNum 890000); ("holders", JNum 2100);
               ("age", JStr "2h"); ("change24h", JNum 123.45);
               ("progress", JNum 85) ] ]
  | Migrated =>
      [ JObj [ ("name", JStr "Successful Meme"); ("symbol", JStr "SMEME");
               ("price", JNum 0.234); ("marketCap", JNum 15600000);
               ("volume24h", JNum 3400000); ("holders", JNum 8900);
               ("age", JStr "1d"); ("change24h", JNum 234.56);
               ("migrationTime", JStr "2h ago") ] ]
  end.

(** ** The network

    Every effect of the worker is a call of the global [fetch].  The
    network answers a call as a function of the calls issued before it and
    of the call itself; a world is a network together with the calls issued
    so far. *)

Inductive request : Type :=
| HttpGet (url : string)
| HttpPost (url : string) (chat_id : value) (text : string) (parse_mode : string).

Inductive outcome : Type :=
| Unreachable                                   (* [fetch] rejects *)
| Response (status : Z) (json : option value).  (* None: the body is not JSON *)

Record response : Type := {
  status : Z;
  json_body : option value
}.

Definition Network : Type := list request -> request -> outcome.

Record World : Type := {
  network : Network;
  calls : list request
}.

Definition M (A : Type) : Type := World -> result A * World.

Definition ret {A} (a : A) : M A := fun w => (Ok a, w).

Definition throw {A} (e : error) : M A := fun w => (Throw e, w).

Definition bind {A B} (m : M A) (k : A -> M B) : M B :=
  fun w =>
    match m w with
    | (Ok a, w') => k a w'
    | (Throw e, w') => (Throw e, w')
    end.

(** [try { body } catch (error) { handler(error) }] *)
Definition try_catch {A} (body : M A) (handler : error -> M A) : M A :=
  fun w =>
    match body w with
    | (Ok a, w') => (Ok a, w')
    | (Throw e, w') => handler e w'
    end.

Definition lift {A} (r : result A) : M A := fun w => (r, w).

Declare Scope net_scope.
Delimit Scope net_scope with net.
Notation "x <- m ;; k" := (bind m (fun x => k))
  (at level 61, m at next level, right associativity) : net_scope.
Notation "m ;; k" := (bind m (fun _ => k))
  (at level 61, right associativity) : net_scope.

Local Open Scope net_scope.

(** [await fetch(...)] *)
Definition fetch (rq : request) : M response :=
  fun w =>
    let w' := {| network := network w; calls := (calls w ++ [rq])%list |} in
    match network w (calls w) rq with
    | Unreachable => (Throw NetworkError, w')
    | Response st body => (Ok {| status := st; json_body := body |}, w')
    end.

(** [response.ok] *)
Definition ok (r : response) : bool :=
  ((200 <=? status r) && (status r <=? 299))%Z.

(** [await response.json()] *)
Definition json (r : response) : M value :=
  match json_body r with
  | Some v => ret v
  | None => throw SyntaxError
  end.

(** ** Outbound sender *)

Record Env : Type := {
  TELEGRAM_BOT_TOKEN : option string
}.

Definition token_text (env : Env) : string :=
  match TELEGRAM_BOT_TOKEN env with
  | Some t => t
  | None => "undefined"
  end.

Definition sendMessage (chatId : value) (text : string) (env : Env) : M value :=
  try_catch
    (let url := "https://api.telegram.org/bot" ++ token_text env ++ "/sendMessage" in
     response <- fetch (HttpPost url chatId text "MarkdownV2") ;;
     responseData <- json response ;;
     if negb (ok response) then throw (ApiError (status response))
     else ret responseData)
    (fun error => throw error).

(** ** Upstream data client for the pulse sections *)

(** [fetchAxiomPulseData(section)].  A test [x && Array.isArray(x)] holds
    exactly of the arrays, so each of the three tests is a match on the
    value; [data.data] and [data.tokens] throw when [data] is [null]. *)
Definition fetchAxiomPulseData (s : section) : M (list value) :=
  try_catch
    (response <- fetch (HttpGet (endpoints s)) ;;
     if negb (ok response) then ret (getMockPulseData s)
     else
       data <- json response ;;
       match data with
       | JArr items => ret items
       | _ =>
           inner <- lift (getProp data "data") ;;
           match inner with
           | JArr items => ret items
           | _ =>
               tokens <- lift (getProp data "tokens") ;;
               match tokens with
               | JArr items => ret items
               | _ => ret []
               end
           end
       end)
    (fun _ => ret (getMockPulseData s)).

(** ** Command handlers

    Each handler builds its message inside its [try] block; the pure part
    of a block is a function into [result], lifted into the monad. *)

(** [v.k1.k2...] *)
Fixpoint path (v : value) (keys : list string) : result value :=
  match keys with
  | [] => Ok v
  | k :: r => (x <- getProp v k ;; path x r)%res
  end.

(** [escapeMarkdown(v.toLocaleString())] *)
Definition escLocale (v : value) : result string :=
  (s <- toLocaleStringMethod v ;; escapeMarkdown (JStr s))%res.

(** [escapeMarkdown(v.toFixed(d))] *)
Definition escFixed (d : nat) (v : value) : result string :=
  (s <- toFixedMethod d v ;; escapeMarkdown (JStr s))%res.

(** [escapeMarkdown(v.toString())] *)
Definition escToString (v : value) : result string :=
  (s <- toStringMethod v ;; escapeMarkdown (JStr s))%res.

(** [escapeMarkdown(v.toUpperCase())] *)
Definition escUpper (v : value) : result string :=
  (s <- toUpperCaseMethod v ;; escapeMarkdown (JStr s))%res.

Definition help_footer : string := "/help \- Show commands".

(** *** /global *)

Definition globalMessage (data : value) : result string :=
  (stats <- getProp data "data" ;;
   cap <- path stats ["total_market_cap"; "usd"] ;;
   capText <- escLocale cap ;;
   vol <- path stats ["total_volume"; "usd"] ;;
   volText <- escLocale vol ;;
   btc <- path stats ["market_cap_percentage"; "btc"] ;;
   btcText <- escFixed 2 btc ;;
   active <- getProp stats "active_cryptocurrencies" ;;
   activeText <- escToString active ;;
   markets <- getProp stats "markets" ;;
   marketsText <- escToString markets ;;
   Ok ("🌍 *Global Crypto Market Stats*" ++ nl ++ nl ++
       "Total Market Cap: $" ++ capText ++ nl ++
       "24h Volume: $" ++ volText ++ nl ++
       "BTC Dominance: " ++ btcText ++ "\%" ++ nl ++
       "Active Cryptocurrencies: " ++ activeText ++ nl ++
       "Markets: " ++ marketsText ++ nl ++ nl ++
       help_footer))%res.

Definition global_failed : string :=
  "❌ Failed to fetch global market stats\. Please try again later\.".

Definition handleGlobalCommand (chatId : value) (env : Env) : M unit :=
  try_catch
    (response <- fetch (HttpGet (COINGECKO_API ++ "/global")) ;;
     if negb (ok response) then throw (ApiError (status response))
     else
       data <- json response ;;
       message <- lift (globalMessage data) ;;
       sendMessage chatId message env ;;
       ret tt)
    (fun _ => sendMessage chatId global_failed env ;; ret tt).

(** *** /pulse *)

Inductive settled (A : Type) : Type :=
| Fulfilled (v : A)
| Rejected (reason : error).
Arguments Fulfilled {A} v.
Arguments Rejected {A} reason.

(** One promise of [Promise.allSettled]. *)
Definition settle {A} (m : M A) : M (settled A) :=
  fun w =>
    match m w with
    | (Ok a, w') => (Ok (Fulfilled a), w')
    | (Throw e, w') => (Ok (Rejected e), w')
    end.

(** [coins.forEach((coin, index) => { message += formatCoinInfo(coin, index + 1) })],
    started at position [index]. *)
Fixpoint appendCoins (message : string) (coins : list value) (index : nat) : result string :=
  match coins with
  | [] => Ok message
  | coin :: rest =>
      (info <- formatCoinInfo coin (index + 1) ;;
       appendCoins (message ++ info) rest (S index))%res
  end.

(** One of the three [if (x.status === 'fulfilled' && x.value.length > 0)]
    blocks. *)
Definition appendSection (message : string) (heading : string)
    (x : settled (list value)) : result string :=
  match x with
  | Fulfilled v =>
      if (0 <? length v)%nat then
        (m <- appendCoins (message ++ heading ++ nl) (firstn 5 v) 0 ;;
         Ok (m ++ nl))%res
      else Ok message
  | Rejected _ => Ok message
  end.

Definition is_rejected {A} (x : settled A) : bool :=
  match x with Rejected _ => true | Fulfilled _ => false end.

Definition is_fulfilled_empty (x : settled (list value)) : bool :=
  match x with
  | Fulfilled v => (length v =? 0)%nat
  | Rejected _ => false
  end.

Definition pulse_unable : string :=
  "❌ Unable to fetch pulse data from Axiom Trade\. Please try again later\." ++ nl ++ nl.

Definition pulse_none : string :=
  "📭 No new coins found in pulse sections at the moment\." ++ nl ++ nl.

Definition pulseMessage (newPairs finalStretch migrated : settled (list value)) : result string :=
  (let message := "🚀 *Axiom Trade Pulse \- New Coins*" ++ nl ++ nl in
   message <- appendSection message "🆕 *New Pairs*" newPairs ;;
   message <- appendSection message "🏁 *Final Stretch*" finalStretch ;;
   message <- appendSection message "✅ *Migrated to Raydium*" migrated ;;
   let message :=
     if is_rejected newPairs && is_rejected finalStretch && is_rejected migrated
     then message ++ pulse_unable
     else if is_fulfilled_empty newPairs && is_fulfilled_empty finalStretch
             && is_fulfilled_empty migrated
     then message ++ pulse_none
     else message in
   Ok (message ++ help_footer))%res.

Definition pulse_fetching : string :=
  "🔄 Fetching new coins from Axiom Trade pulse\.\.\.".

Definition pulse_failed : string :=
  "❌ Failed to fetch pulse data from Axiom Trade\. Please try again later\.".

(** [handlePulseCommand].  The three section fetches issue their requests
    in the order of the array passed to [Promise.allSettled]; each promise
    settles on its own, so the three are run one after the other and each
    outcome is kept as a [settled] value. *)
Definition handlePulseCommand (chatId : value) (env : Env) : M unit :=
  try_catch
    (sendMessage chatId pulse_fetching env ;;
     newPairs <- settle (fetchAxiomPulseData NewPairs) ;;
     finalStretch <- settle (fetchAxiomPulseData FinalStretch) ;;
     migrated <- settle (fetchAxiomPulseData Migrated) ;;
     message <- lift (pulseMessage newPairs finalStretch migrated) ;;
     sendMessage chatId message env ;;
     ret tt)
    (fun _ => sendMessage chatId pulse_failed env ;; ret tt).

(** *** /trending *)

(** The callback of [data.coins.forEach]; [coin.market_cap_rank] is
    interpolated as it is, by the conversion of the template literal. *)
Definition trendingItem (message : string) (item : value) (index : nat) : result string :=
  (coin <- getProp item "item" ;;
   name <- getProp coin "name" ;;
   escName <- escapeMarkdown name ;;
   symbol <- getProp coin "symbol" ;;
   escSymbol <- escUpper symbol ;;
   rank <- getProp coin "market_cap_rank" ;;
   rankText <- toStringOp rank ;;
   price <- getProp coin "price_btc" ;;
   priceText <- escFixed 8 price ;;
   Ok (message ++ string_of_nat (index + 1) ++ "\. " ++ escName ++ " \(" ++ escSymbol ++ "\)" ++ nl ++
       "Market Cap Rank: \#" ++ rankText ++ nl ++
       "Price BTC: " ++ priceText ++ nl ++ nl))%res.

Fixpoint forEachIndexed (f : string -> value -> nat -> result string)
    (message : string) (items : list value) (index : nat) : result string :=
  match items with
  | [] => Ok message
  | x :: rest => (m <- f message x index ;; forEachIndexed f m rest (S index))%res
  end.

(** [v.forEach(...)]: only arrays have the method. *)
Definition forEachMethod (f : string -> value -> nat -> result string)
    (message : string) (v : value) : result string :=
  match v with
  | JArr items => forEachIndexed f message items 0
  | _ => Throw TypeError
  end.

Definition trendingMessage (data : value) : result string :=
  (coins <- getProp data "coins" ;;
   message <- forEachMethod trendingItem ("🔥 *Trending Cryptocurrencies*" ++ nl ++ nl) coins ;;
   Ok (message ++ nl ++ help_footer))%res.

Definition trending_failed : string :=
  "❌ Failed to fetch trending coins\. Please try again later\.".

Definition handleTrendingCommand (chatId : value) (env : Env) : M unit :=
  try_catch
    (response <- fetch (HttpGet (COINGECKO_API ++ "/search/trending")) ;;
     if negb (ok response) then throw (ApiError (status response))
     else
       data <- json response ;;
       message <- lift (trendingMessage data) ;;
       sendMessage chatId message env ;;
       ret tt)
    (fun _ => sendMessage chatId trending_failed env ;; ret tt).

(** *** /top10 *)

(** [priceChange >= 0 ? '🟢' : '🔴'] followed by [priceChange.toFixed(2)]:
    for a value that is not a number the second fails whatever the first
    gave. *)
Definition changeGlyph (priceChange : value) : result string :=
  match priceChange with
  | JNum x => Ok (if ge_zero x then "🟢" else "🔴")
  | _ => Throw TypeError
  end.

Definition top10Item (message : string) (coin : value) (index : nat) : result string :=
  (change <- getProp coin "price_change_percentage_24h" ;;
   let priceChange := js_or change (JNum 0) in
   priceChangeIcon <- changeGlyph priceChange ;;
   name <- getProp coin "name" ;;
   escName <- escapeMarkdown name ;;
   symbol <- getProp coin "symbol" ;;
   escSymbol <- escUpper symbol ;;
   price <- getProp coin "current_price" ;;
   priceText <- escLocale price ;;
   changeText <- escFixed 2 priceChange ;;
   cap <- getProp coin "market_cap" ;;
   capText <- escLocale cap ;;
   volume <- getProp coin "total_volume" ;;
   volumeText <- escLocale volume ;;
   Ok (message ++
       string_of_nat (index + 1) ++ "\. " ++ escName ++ " \(" ++ escSymbol ++ "\)" ++ nl ++
       "💵 Price: $" ++ priceText ++ nl ++
       priceChangeIcon ++ " 24h: " ++ changeText ++ "\%" ++ nl ++
       "💎 Market Cap: $" ++ capText ++ nl ++
       "📊 Volume: $" ++ volumeText ++ nl ++ nl))%res.

Definition top10Message (data : value) : result string :=
  (message <- forEachMethod top10Item ("📊 *Top 10 Cryptocurrencies*" ++ nl ++ nl) data ;;
   Ok (message ++ nl ++ help_footer))%res.

Definition top10_failed : string :=
  "❌ Failed to fetch top 10 cryptocurrencies\. Please try again later\.".

Definition handleTop10Command (chatId : value) (env : Env) : M unit :=
  try_catch
    (response <- fetch (HttpGet (COINGECKO_API ++
        "/coins/markets?vs_currency=usd&order=market_cap_desc&per_page=10&page=1&sparkline=false")) ;;
     if negb (ok response) then throw (ApiError (status response))
     else
       data <- json response ;;
       message <- lift (top10Message data) ;;
       sendMessage chatId message env ;;
       ret tt)
    (fun _ => sendMessage chatId top10_failed env ;; ret tt).

(** *** /price *)

(** [encodeURIComponent(v)] *)
Definition encodeURIComponentOf (v : value) : result string :=
  (s <- toStringOp v ;;
   match encodeURIComponent host s with
   | Some q => Ok q
   | None => Throw URIError
   end)%res.

Definition priceMessage (data : value) : result string :=
  (change <- path data ["market_data"; "price_change_percentage_24h"] ;;
   let priceChange := js_or change (JNum 0) in
   priceChangeIcon <- changeGlyph priceChange ;;
   name <- getProp data "name" ;;
   escName <- escapeMarkdown name ;;
   symbol <- getProp data "symbol" ;;
   escSymbol <- escUpper symbol ;;
   current <- path data ["market_data"; "current_price"; "usd"] ;;
   currentText <- escLocale current ;;
   changeText <- escFixed 2 priceChange ;;
   high <- path data ["market_data"; "high_24h"; "usd"] ;;
   highText <- escLocale high ;;
   low <- path data ["market_data"; "low_24h"; "usd"] ;;
   lowText <- escLocale low ;;
   cap <- path data ["market_data"; "market_cap"; "usd"] ;;
   capText <- escLocale cap ;;
   rank <- getProp data "market_cap_rank" ;;
   rankText <- toStringOp rank ;;
   volume <- path data ["market_data"; "total_volume"; "usd"] ;;
   volumeText <- escLocale volume ;;
   Ok ("💰 " ++ escName ++ " \(" ++ escSymbol ++ "\)" ++ nl ++ nl ++
       "Current Price: $" ++ currentText ++ nl ++
       priceChangeIcon ++ " 24h Change: " ++ changeText ++ "\%" ++ nl ++
       "📈 24h High: $" ++ highText ++ nl ++
       "📉 24h Low: $" ++ lowText ++ nl ++
       "💎 Market Cap: $" ++ capText ++ nl ++
       "📊 Market Cap Rank: \#" ++ rankText ++ nl ++
       "💫 Volume: $" ++ volumeText ++ nl ++
       help_footer))%res.

Definition price_not_found (coin : value) : result string :=
  (e <- escapeMarkdown coin ;; Ok ("❌ Could not find cryptocurrency: " ++ e))%res.

Definition price_failed (coin : value) : result string :=
  (e <- escapeMarkdown coin ;;
   Ok ("❌ Failed to fetch price for " ++ e ++ "\. Please try again later\."))%res.

Definition coin_detail_query : string :=
  "?localization=false&tickers=false&market_data=true&community_data=false&developer_data=false".

Definition handlePriceCommand (chatId : value) (coin : value) (env : Env) : M unit :=
  try_catch
    (query <- lift (encodeURIComponentOf coin) ;;
     searchResponse <- fetch (HttpGet (COINGECKO_API ++ "/search?query=" ++ query)) ;;
     if negb (ok searchResponse) then throw (ApiError (status searchResponse))
     else
       searchData <- json searchResponse ;;
       coins <- lift (getProp searchData "coins") ;;
       if negb (truthy coins) || length_is_zero coins then
         message <- lift (price_not_found coin) ;;
         sendMessage chatId message env ;;
         ret tt
       else
         coinId <- lift (getProp (index0 coins) "id") ;;
         idText <- lift (toStringOp coinId) ;;
         response <- fetch (HttpGet (COINGECKO_API ++ "/coins/" ++ idText ++ coin_detail_query)) ;;
         if negb (ok response) then throw (ApiError (status response))
         else
           data <- json response ;;
           message <- lift (priceMessage data) ;;
           sendMessage chatId message env ;;
           ret tt)
    (fun _ =>
       message <- lift (price_failed coin) ;;
       sendMessage chatId message env ;;
       ret tt).

(** ** Command dispatcher *)

Definition help_text : string :=
  "Welcome to the Crypto Price Bot\! 🚀" ++ nl ++ nl ++
  "Available commands:" ++ nl ++
  "/price \<coin\> \- Get price for a specific coin \(e\.g\., /price bitcoin\)" ++ nl ++
  "/top10 \- Get top 10 cryptocurrencies by market cap" ++ nl ++
  "/trending \- Show trending coins" ++ nl ++
  "/pulse \- Show new coins from Axiom Trade \(New Pairs, Final Stretch, Migrated\)" ++ nl ++
  "/global \- Show global market stats" ++ nl ++
  "/help \- Show this help message".

Definition dispatch_failed : string :=
  "❌ Sorry, an error occurred\. Please try again later\.".

(** [v.toLowerCase()]: only strings have the method. *)
Definition toLowerCaseMethod (v : value) : result string :=
  match v with
  | JStr s => Ok (toLowerCase host s)
  | _ => Throw TypeError
  end.

(** [text.split(' ')[1]] *)
Definition second_piece (text : string) : value :=
  match nth_error (split_on " " text) 1 with
  | Some s => JStr s
  | None => JUndefined
  end.

(** The body of the dispatcher's [try] block. *)
Definition route (chatId : value) (text : string) (env : Env) : M unit :=
  if String.eqb text "/start" || String.eqb text "/help" then
    sendMessage chatId help_text env ;; ret tt
  else if String.eqb text "/top10" then handleTop10Command chatId env
  else if String.eqb text "/trending" then handleTrendingCommand chatId env
  else if String.eqb text "/pulse" then handlePulseCommand chatId env
  else if String.eqb text "/global" then handleGlobalCommand chatId env
  else if startsWith text "/price " then
    handlePriceCommand chatId (second_piece text) env
  else ret tt.

Definition handleTelegramUpdate (update : value) (env : Env) : M unit :=
  message <- lift (getProp update "message") ;;
  if negb (truthy message) then ret tt
  else
    rawText <- lift (getProp message "text") ;;
    if negb (truthy rawText) then ret tt
    else
      chatId <- lift (path message ["chat"; "id"]) ;;
      text <- lift (toLowerCaseMethod rawText) ;;
      try_catch
        (route chatId text env)
        (fun _ => sendMessage chatId dispatch_failed env ;; ret tt).

(** ** The worker's entry point *)

Record Request : Type := {
  method : string;
  protocol : string;      (* [url.protocol], with its colon *)
  host_port : string;     (* [url.host] *)
  pathname : string;      (* [url.pathname] *)
  body : option value     (* what [request.json()] parses; None: not JSON *)
}.

Record HttpResponse : Type := {
  resp_body : string;
  resp_status : Z
}.

Definition token_configured (env : Env) : bool :=
  match TELEGRAM_BOT_TOKEN env with
  | Some t => negb (String.eqb t EmptyString)
  | None => false
  end.

(** [ctx.waitUntil(promise)]: the work runs to its end, its result is not
    observed. *)
Definition waitUntil {A} (m : M A) : M unit :=
  fun w => (Ok tt, snd (m w)).

(** [new Response(text, { status })] with a text for body: a status outside
    200..599 is a [RangeError], and a status that allows no body a
    [TypeError]. *)
Definition newResponse (text : string) (st : Z) : M HttpResponse :=
  if negb ((200 <=? st) && (st <=? 599))%Z then throw RangeError
  else if existsb (Z.eqb st) [204; 205; 304]%Z then throw TypeError
  else ret {| resp_body := text; resp_status := st |}.

Definition setWebhook (url : string) (env : Env) : M HttpResponse :=
  try_catch
    (let webhookUrl :=
       "https://api.telegram.org/bot" ++ token_text env ++ "/setWebhook?url=" ++ url in
     response <- fetch (HttpGet webhookUrl) ;;
     result <- json response ;;
     if ok response then
       ret {| resp_body := "Webhook set successfully!"; resp_status := 200 |}
     else
       description <- lift (d <- getProp result "description" ;; toStringOp d)%res ;;
       newResponse ("Failed to set webhook: " ++ description) (status response))
    (fun _ => ret {| resp_body := "Failed to set webhook"; resp_status := 500 |}).

Definition worker_fetch (request : Request) (env : Env) : M HttpResponse :=
  if negb (token_configured env) then
    ret {| resp_body := "TELEGRAM_BOT_TOKEN not configured"; resp_status := 500 |}
  else
    try_catch
      (let workerUrl := protocol request ++ "//" ++ host_port request in
       if String.eqb (method request) "POST"
          && String.eqb (pathname request) WEBHOOK_ENDPOINT then
         update <- match body request with
                   | Some v => ret v
                   | None => throw SyntaxError
                   end ;;
         waitUntil (handleTelegramUpdate update env) ;;
         ret {| resp_body := "OK"; resp_status := 200 |}
       else if String.eqb (method request) "GET"
               && String.eqb (pathname request) "/setwebhook" then
         url <- lift (encodeURIComponentOf (JStr (workerUrl ++ WEBHOOK_ENDPOINT))) ;;
         setWebhook url env
       else ret {| resp_body := "Not Found"; resp_status := 404 |})
      (fun _ => ret {| resp_body := "Internal Server Error"; resp_status := 500 |}).

End WithHost.

Arguments Fulfilled {A} v.
Arguments Rejected {A} reason.

(** ** A reference host

    Used to run the model on examples.  It agrees with the runtime on ASCII
    text: case mapping of the ASCII letters, percent-encoding of every byte
    outside the unreserved set.  On finite numbers below 10^21 [toFixed] is
    the exact rounding of the binary value, ties away from zero, as the
    language defines it.  [toLocaleString] prints as the [en-US] locale
    does (at most three fraction digits, digits grouped by three) for the
    numbers whose shortest decimal form has at most three fraction digits;
    for the others it rounds the binary value, ties away from zero, where
    the runtime rounds the shortest decimal form, and the two differ when
    that form ends with a 5 in the fourth place.  [toString] is given for
    the whole numbers up to 2^53 only. *)

Module Reference.

Definition map_string (f : ascii -> ascii) : string -> string :=
  fix go (s : string) : string :=
    match s with
    | EmptyString => EmptyString
    | String c r => String (f c) (go r)
    end.

Definition between (lo hi : nat) (c : ascii) : bool :=
  ((lo <=? nat_of_ascii c) && (nat_of_ascii c <=? hi))%nat.

Definition lower (c : ascii) : ascii :=
  if between 65 90 c then ascii_of_nat (nat_of_ascii c + 32) else c.

Definition upper (c : ascii) : ascii :=
  if between 97 122 c then ascii_of_nat (nat_of_ascii c - 32) else c.

(** The sign of a finite [x] and [|x| * 10^k] rounded to a whole number,
    ties away from zero. *)
Definition scaled (k : nat) (x : float) : option (bool * Z) :=
  match Prim2SF x with
  | S754_zero neg => Some (neg, 0%Z)
  | S754_finite neg m e =>
      let num := (Z.pos m * 10 ^ Z.of_nat k)%Z in
      if (0 <=? e)%Z then Some (neg, (num * 2 ^ e)%Z)
      else
        let den := (2 ^ (- e))%Z in
        let q := (num / den)%Z in
        let r := (num mod den)%Z in
        let up :=
          match (2 * r ?= den)%Z with
          | Gt => true
          | Lt => false
          | Eq => true
          end in
        Some (neg, if up then (q + 1)%Z else q)
  | _ => None
  end.

Definition decimal (z : Z) : string := NilZero.string_of_int (Z.to_int z).

(** Digits grouped by three from the right. *)
Fixpoint group3 (rev_digits : list ascii) (acc : string) (n : nat) : string :=
  match rev_digits with
  | [] => acc
  | d :: r =>
      match n with
      | 3%nat => group3 r (String d (String "," acc)) 1
      | _ => group3 r (String d acc) (S n)
      end
  end.

Definition grouped (digits : string) : string :=
  group3 (rev (list_ascii_of_string digits)) EmptyString 0.

Fixpoint zeros (d : nat) : string :=
  match d with
  | O => EmptyString
  | S d' => String "0" (zeros d')
  end.

(** The digits of [n] with at least [k + 1] places, cut [k] places from
    the right. *)
Definition cut (k : nat) (n : Z) : string * string :=
  let digits := decimal n in
  let padded := zeros (S k - String.length digits) ++ digits in
  let whole := (String.length padded - k)%nat in
  (substring 0 whole padded, substring whole k padded).

Fixpoint strip_zeros (rev_fraction : list ascii) : list ascii :=
  match rev_fraction with
  | "0"%char :: r => strip_zeros r
  | _ => rev_fraction
  end.

Definition is_nan (x : float) : bool := negb (PrimFloat.eqb x x).

Definition fixed (d : nat) (x : float) : string :=
  if is_nan x then "NaN"
  else match scaled d x with
       | Some (neg, n) =>
           let (whole, fraction) := cut d n in
           (if PrimFloat.ltb x 0 then "-" else EmptyString) ++ whole ++
           match d with O => EmptyString | _ => "." ++ fraction end
       | None => if PrimFloat.ltb x 0 then "-Infinity" else "Infinity"
       end.

Definition locale (x : float) : string :=
  if is_nan x then "NaN"
  else match scaled 3 x with
       | Some (neg, n) =>
           let (whole, fraction) := cut 3 n in
           let kept := string_of_list_ascii (rev (strip_zeros (rev (list_ascii_of_string fraction)))) in
           (if neg then "-" else EmptyString) ++ grouped whole ++
           (if String.eqb kept EmptyString then EmptyString else "." ++ kept)
       | None => if PrimFloat.ltb x 0 then "-∞" else "∞"
       end.

(** Whole numbers up to 2^53 only; [?] stands for the digits of any other
    finite number. *)
Definition plain (x : float) : string :=
  if is_nan x then "NaN"
  else match Prim2SF x with
       | S754_zero _ => "0"
       | S754_finite neg m e =>
           let whole :=
             if (0 <=? e)%Z then Some (Z.pos m * 2 ^ e)%Z
             else if (Z.pos m mod 2 ^ (- e) =? 0)%Z then Some (Z.pos m / 2 ^ (- e))%Z
             else None in
           match whole with
           | Some n =>
               if (n <=? 2 ^ 53)%Z
               then (if neg then "-" else EmptyString) ++ decimal n
               else "?"
           | None => "?"
           end
       | _ => if PrimFloat.ltb x 0 then "-Infinity" else "Infinity"
       end.

Definition hex_digit (n : nat) : ascii :=
  if (n <? 10)%nat then ascii_of_nat (48 + n) else ascii_of_nat (55 + n).

Definition unreserved (c : ascii) : bool :=
  between 65 90 c || between 97 122 c || between 48 57 c
  || existsb (Ascii.eqb c) ["-"; "_"; "."; "!"; "~"; "*"; "'"; "("; ")"]%char.

Fixpoint percent_encode (s : string) : string :=
  match s with
  | EmptyString => EmptyString
  | String c r =>
      if unreserved c then String c (percent_encode r)
      else
        let n := nat_of_ascii c in
        String "%" (String (hex_digit (n / 16)) (String (hex_digit (n mod 16)) (percent_encode r)))
  end.

Definition host : Host := {|
  toLowerCase := map_string lower;
  toUpperCase := map_string upper;
  numberToString := plain;
  numberToLocaleString := locale;
  numberToFixed := fixed;
  encodeURIComponent := fun s => Some (percent_encode s)
|}.

End Reference.

(** * Notions of the specification *)

(** ** The reserved set and the escaping relation *)

Definition reserved : list ascii :=
  list_ascii_of_string "_*[]()~`>#+-=|{}.!".

(** [escaped s t]: [t] is [s] with a backslash before each reserved
    character and every other character as it is. *)
Inductive escaped : string -> string -> Prop :=
| escaped_nil : escaped EmptyString EmptyString
| escaped_reserved c s t :
    In c reserved -> escaped s t ->
    escaped (String c s) (String "\" (String c t))
| escaped_plain c s t :
    ~ In c reserved -> escaped s t ->
    escaped (String c s) (String c t).

(** ** Shapes of a pulse payload *)

Inductive shape : Type :=
| BareArray (items : list value)
| DataField (items : list value)
| TokensField (items : list value)
| NoValue          (* [null]: reading a field of it fails *)
| OtherShape.

Definition shape_of (data : value) : shape :=
  match data with
  | JArr items => BareArray items
  | JNull | JUndefined => NoValue
  | JObj fields =>
      match assoc "data" fields with
      | Some (JArr items) => DataField items
      | _ =>
          match assoc "tokens" fields with
          | Some (JArr items) => TokensField items
          | _ => OtherShape
          end
      end
  | _ => OtherShape
  end.

(** The listing of a section as a function of the provider's answer. *)
Definition section_listing (s : section) (o : outcome) : list value :=
  match o with
  | Unreachable => getMockPulseData s
  | Response st body =>
      if ((200 <=? st) && (st <=? 299))%Z then
        match body with
        | None => getMockPulseData s
        | Some data =>
            match shape_of data with
            | BareArray items | DataField items | TokensField items => items
            | OtherShape => []
            | NoValue => getMockPulseData s
            end
        end
      else getMockPulseData s
  end.

(** The world after one more call. *)
Definition after_call (w : World) (rq : request) : World :=
  {| network := network w; calls := (calls w ++ [rq])%list |}.

(** ** Calls, sends and the platform's verdict *)

(** The world with further calls issued. *)
Definition extend (w : World) (new : list request) : World :=
  {| network := network w; calls := (calls w ++ new)%list |}.

Definition is_post (rq : request) : bool :=
  match rq with
  | HttpPost _ _ _ _ => true
  | HttpGet _ => false
  end.

(** The number of outbound send calls among some calls. *)
Definition count_posts (l : list request) : nat :=
  length (filter is_post l).

(** The texts of the outbound send calls among some calls, in order. *)
Fixpoint sent_texts (l : list request) : list string :=
  match l with
  | [] => []
  | HttpPost _ _ text _ :: r => text :: sent_texts r
  | HttpGet _ :: r => sent_texts r
  end.

(** The call [sendMessage] issues. *)
Definition send_request (chatId : value) (text : string) (env : Env) : request :=
  HttpPost ("https://api.telegram.org/bot" ++ token_text env ++ "/sendMessage")
           chatId text "MarkdownV2".

Definition ok_status (st : Z) : bool := ((200 <=? st) && (st <=? 299))%Z.

(** What [sendMessage] makes of the platform's answer. *)
Definition send_result (o : outcome) : result value :=
  match o with
  | Unreachable => Throw NetworkError
  | Response st None => Throw SyntaxError
  | Response st (Some data) => if ok_status st then Ok data else Throw (ApiError st)
  end.

(** The platform accepts an outbound send whenever one is made. *)
Definition accepts_sends (net : Network) : Prop :=
  forall history url chatId text mode,
    exists st data,
      net history (HttpPost url chatId text mode) = Response st (Some data)
      /\ ok_status st = true.

(** The platform rejects every outbound send. *)
Definition rejects_sends (net : Network) : Prop :=
  forall history url chatId text mode,
    exists st data,
      net history (HttpPost url chatId text mode) = Response st data
      /\ ok_status st = false.

(** [m] issues at most [n] outbound sends, whatever the network does. *)
Definition at_most {A} (n : nat) (m : M A) : Prop :=
  forall w, exists new,
    snd (m w) = extend w new /\ (count_posts new <= n)%nat.

(** [counts oa ob m]: on a platform that accepts the sends, a run of [m]
    that returns has issued [a] outbound sends where [oa = Some a], and a
    run that throws has issued [b] where [ob = Some b]; [None] says that
    the runs of that kind do not exist. *)
Definition counts {A} (oa ob : option nat) (m : M A) : Prop :=
  forall w, accepts_sends (network w) ->
    exists r new,
      m w = (r, extend w new)
      /\ match r with
         | Ok _ => oa = Some (count_posts new)
         | Throw _ => ob = Some (count_posts new)
         end.

(** ** Commands *)

Inductive Command : Type :=
| Help
| Top10
| Trending
| Pulse
| Global
| Price (argument : string)
| Unrecognized.

(** The commands matched by the whole text. *)
Definition exact_commands : list (string * Command) :=
  [ ("/start", Help); ("/help", Help); ("/top10", Top10);
    ("/trending", Trending); ("/pulse", Pulse); ("/global", Global) ].

(** [s] without its first [n] characters. *)
Fixpoint skip (n : nat) (s : string) : string :=
  match n, s with
  | S n', String _ r => skip n' r
  | _, _ => s
  end.

(** The text up to its first space, or all of it. *)
Fixpoint until_space (s : string) : string :=
  match s with
  | EmptyString => EmptyString
  | String c r => if Ascii.eqb c " " then EmptyString else String c (until_space r)
  end.

(** The command of a lower-cased text, taken as it is. *)
Definition classify (text : string) : Command :=
  match find (fun entry => String.eqb text (fst entry)) exact_commands with
  | Some (_, command) => command
  | None =>
      if String.prefix "/price " text then Price (until_space (skip 7 text))
      else Unrecognized
  end.

Section Dispatch.

Context (host : Host).

(** The flow of a command. *)
Definition execute (chatId : value) (command : Command) (env : Env) : M unit :=
  match command with
  | Help => bind (sendMessage chatId help_text env) (fun _ => ret tt)
  | Top10 => handleTop10Command host chatId env
  | Trending => handleTrendingCommand host chatId env
  | Pulse => handlePulseCommand host chatId env
  | Global => handleGlobalCommand host chatId env
  | Price argument => handlePriceCommand host chatId (JStr argument) env
  | Unrecognized => ret tt
  end.

(** The chat and the command of an update that has a message with a
    non-empty text and a chat; [None] for every other update. *)
Definition routed (update : value) : option (value * Command) :=
  match update with
  | JObj fields =>
      match assoc "message" fields with
      | Some (JObj message) =>
          match assoc "text" message, assoc "chat" message with
          | Some (JStr text), Some chat =>
              if String.eqb text EmptyString then None
              else
                match getProp chat "id" with
                | Ok chatId => Some (chatId, classify (toLowerCase host text))
                | Throw _ => None
                end
          | _, _ => None
          end
      | _ => None
      end
  | _ => None
  end.

End Dispatch.

(** The number of sends a command costs when each is accepted. *)
Definition sends_of (command : Command) : nat :=
  match command with
  | Unrecognized => 0
  | Pulse => 2
  | _ => 1
  end.

(** JavaScript's white space among the ASCII characters, and [trim]. *)
Definition is_space (c : ascii) : bool :=
  existsb (Ascii.eqb c) [" "; "009"; "010"; "011"; "012"; "013"]%char.

Fixpoint trim_start (s : string) : string :=
  match s with
  | String c r => if is_space c then trim_start r else s
  | EmptyString => EmptyString
  end.

Definition reverse (s : string) : string :=
  string_of_list_ascii (rev (list_ascii_of_string s)).

Definition trim (s : string) : string :=
  reverse (trim_start (reverse (trim_start s))).

(** ** Example inputs *)

Definition demo_env : Env := {| TELEGRAM_BOT_TOKEN := Some "TOKEN" |}.

(** An update with the given chat identifier and text. *)
Definition update_with (chatId : value) (text : string) : value :=
  JObj [("update_id", JNum 1);
        ("message", JObj [("message_id", JNum 1);
                          ("chat", JObj [("id", chatId)]);
                          ("text", JStr text)])].

(** The platform accepts every send; the providers are unreachable. *)
Definition net_providers_down : Network :=
  fun _ rq =>
    match rq with
    | HttpPost _ _ _ _ => Response 200 (Some (JObj [("ok", JBool true)]))
    | HttpGet _ => Unreachable
    end.

(** The platform rejects every send; the providers are unreachable. *)
Definition net_all_rejected : Network :=
  fun _ rq =>
    match rq with
    | HttpPost _ _ _ _ => Response 400 (Some (JObj [("ok", JBool false)]))
    | HttpGet _ => Unreachable
    end.

Definition start_of (net : Network) : World := {| network := net; calls := [] |}.

(** The provider answers [null] to every request. *)
Definition net_null_payload : Network :=
  fun _ _ => Response 200 (Some JNull).

(** The provider answers with a record that has both a [data] and a
    [tokens] array. *)
Definition both_fields : value :=
  JObj [("tokens", JArr [JStr "t"]); ("data", JArr [JStr "d"])].

Definition net_both_fields : Network :=
  fun _ _ => Response 200 (Some both_fields).

(** ** The parts of the pulse reply *)

Definition pulse_header : string :=
  "🚀 *Axiom Trade Pulse \- New Coins*" ++ nl ++ nl.

Section PulseParts.

Context (host : Host).

(** The header followed by the sections that have listings. *)
Definition pulse_sections (newPairs finalStretch migrated : settled (list value))
    : result string :=
  (m <- appendSection host pulse_header "🆕 *New Pairs*" newPairs ;;
   m <- appendSection host m "🏁 *Final Stretch*" finalStretch ;;
   appendSection host m "✅ *Migrated to Raydium*" migrated)%res.

(** The text of a listing, empty when the formatter fails. *)
Definition rendered (coin : value) (index : nat) : string :=
  match formatCoinInfo host coin index with
  | Ok text => text
  | Throw _ => EmptyString
  end.

End PulseParts.

Definition all_empty (a b c : list value) : bool :=
  match a, b, c with
  | [], [], [] => true
  | _, _, _ => false
  end.

Section PulseBlocks.

Context (host : Host).

(** The listings of a section one after the other, numbered from [index]. *)
Fixpoint rendered_from (coins : list value) (index : nat) : string :=
  match coins with
  | [] => EmptyString
  | coin :: rest => rendered host coin index ++ rendered_from rest (S index)
  end.

(** The formatter succeeds on [coin] at every position. *)
Definition renders (coin : value) : Prop :=
  forall index, exists text, formatCoinInfo host coin index = Ok text.

End PulseBlocks.

(** Transport failure or non-success status. *)
Definition provider_fails (o : outcome) : bool :=
  match o with
  | Unreachable => true
  | Response st _ => negb (ok_status st)
  end.

(** Every request for a pulse section fails. *)
Definition pulse_down (net : Network) : Prop :=
  forall history s, provider_fails (net history (HttpGet (endpoints s))) = true.

(** The reply built from the three fallback fixtures. *)
Definition fixtures_reply (host : Host) : string :=
  pulse_header ++
  "🆕 *New Pairs*" ++ nl ++ rendered_from host (getMockPulseData NewPairs) 1 ++ nl ++
  "🏁 *Final Stretch*" ++ nl ++ rendered_from host (getMockPulseData FinalStretch) 1 ++ nl ++
  "✅ *Migrated to Raydium*" ++ nl ++ rendered_from host (getMockPulseData Migrated) 1 ++ nl ++
  help_footer.

(** The three requests of the /pulse flow. *)
Definition pulse_gets : list request :=
  [HttpGet (endpoints NewPairs); HttpGet (endpoints FinalStretch);
   HttpGet (endpoints Migrated)].

(** ** The lines of a pulse listing *)

(** The value of a field of a record, [undefined] when it is absent. *)
Definition field (fields : list (string * value)) (key : string) : value :=
  match assoc key fields with
  | Some v => v
  | None => JUndefined
  end.

(** The record without a field. *)
Definition without (key : string) (fields : list (string * value))
    : list (string * value) :=
  filter (fun entry => negb (String.eqb key (fst entry))) fields.

(** The fields of a listing beyond its name and symbol, as the code names
    them. *)
Definition optional_keys : list string :=
  ["price"; "marketCap"; "volume24h"; "holders"; "age"; "change24h";
   "progress"; "migrationTime"].

Section ListingLines.

Context (host : Host).

Local Open Scope result_scope.

(** The line of an optional field: nothing when the value is absent, zero
    or otherwise falsy. *)
Definition optional_line (label : string) (render : value -> result string)
    (suffix : string) (v : value) : result string :=
  if truthy v then
    shown <- render v ;;
    esc <- escapeMarkdown host (JStr shown) ;;
    Ok (label ++ esc ++ suffix)
  else Ok EmptyString.

(** The line of the 24h change: always there. *)
Definition change_line (v : value) : result string :=
  if truthy v then
    match v with
    | JNum x =>
        esc <- escapeMarkdown host (JStr (numberToFixed host 2 x)) ;;
        Ok ((if ge_zero x then "🟢" else "🔴") ++ " 24h: " ++ esc ++ "\%" ++ nl)
    | _ => Throw TypeError
    end
  else Ok ("🟢 24h: 0\.00\%" ++ nl).

Definition title_line (index : nat) (name symbol : value) : result string :=
  escName <- escapeMarkdown host (js_or name (JStr "Unknown")) ;;
  upper <- toUpperCaseMethod host (js_or symbol (JStr "N/A")) ;;
  escSymbol <- escapeMarkdown host (JStr upper) ;;
  Ok (string_of_nat index ++ "\. " ++ escName ++ " \(" ++ escSymbol ++ "\)" ++ nl).

(** A listing as the sequence of its lines. *)
Definition listing (fields : list (string * value)) (index : nat) : result string :=
  change <- change_line (field fields "change24h") ;;
  title <- title_line index (field fields "name") (field fields "symbol") ;;
  price <- optional_line "💰 Price: $" (toLocaleStringMethod host) nl (field fields "price") ;;
  cap <- optional_line "💎 Market Cap: $" (toLocaleStringMethod host) nl
           (field fields "marketCap") ;;
  volume <- optional_line "📊 Volume: $" (toLocaleStringMethod host) nl
              (field fields "volume24h") ;;
  holders <- optional_line "👥 Holders: " (toLocaleStringMethod host) nl
               (field fields "holders") ;;
  age <- optional_line "⏰ Age: " (toStringMethod host) nl (field fields "age") ;;
  progress <- optional_line "📈 Progress: " (toStringMethod host) ("\%" ++ nl)
                (field fields "progress") ;;
  migration <- optional_line "🚀 Migrated: " (toStringMethod host) nl
                 (field fields "migrationTime") ;;
  Ok (title ++ price ++ change ++ cap ++ volume ++ holders ++ age ++ progress
      ++ migration ++ nl).

End ListingLines.

(** The search finds nothing; the platform accepts every send. *)
Definition net_no_hits : Network :=
  fun _ rq =>
    match rq with
    | HttpPost _ _ _ _ => Response 200 (Some (JObj [("ok", JBool true)]))
    | HttpGet _ => Response 200 (Some (JObj [("coins", JArr [])]))
    end.

(** An update whose message has a text and no chat, and one whose chat has
    no identifier. *)
Definition update_without_chat : value :=
  JObj [("update_id", JNum 1);
        ("message", JObj [("message_id", JNum 1); ("text", JStr "/start")])].

Definition update_without_chat_id : value :=
  JObj [("update_id", JNum 1);
        ("message", JObj [("message_id", JNum 1); ("chat", JObj []);
                          ("text", JStr "/start")])].

(** The inbound webhook request carrying an update. *)
Definition webhook_request (scheme authority : string) (update : value) : Request :=
  {| method := "POST"; protocol := scheme; host_port := authority;
     pathname := "/webhook"; body := Some update |}.

(** ** Telling the texts of one dispatch apart *)

(** The first five bytes of a text: the glyph that opens it and what
    follows. *)
Fixpoint take (n : nat) (s : string) : string :=
  match n with
  | O => EmptyString
  | S n' =>
      match s with
      | EmptyString => EmptyString
      | String c r => String c (take n' r)
      end
  end.

Definition tag (text : string) : string := take 5 text.

(** [subsequence l L]: [l] is [L] with some elements left out. *)
Inductive subsequence {A : Type} : list A -> list A -> Prop :=
| subsequence_done : subsequence [] []
| subsequence_drop (x : A) (l L : list A) :
    subsequence l L -> subsequence l (x :: L)
| subsequence_keep (x : A) (l L : list A) :
    subsequence l L -> subsequence (x :: l) (x :: L).

(** The texts [m] sends open, in order, with some of the tags [L]. *)
Definition within {A} (L : list string) (m : M A) : Prop :=
  forall w, exists new,
    snd (m w) = extend w new /\ subsequence (map tag (sent_texts new)) L.

(** Some run of [m] returns [a]. *)
Definition fst_ok {A} (m : M A) (a : A) : Prop :=
  exists w, fst (m w) = Ok a.

(** The tags of every text a dispatch can send, in the order in which one
    dispatch can send them. *)
Definition dispatch_tags : list string :=
  [tag help_text; "📊 "; "🔥 "; tag pulse_fetching; "🚀 "; "🌍 ";
   "❌ C"; "💰 "; "❌ F"; tag dispatch_failed].

(** The platform accepts the first send of a dispatch and rejects the
    others; the providers are unreachable. *)
Definition net_first_send_only : Network :=
  fun history rq =>
    match rq with
    | HttpPost _ _ _ _ =>
        if (count_posts history =? 0)%nat
        then Response 200 (Some (JObj [("ok", JBool true)]))
        else Response 400 (Some (JObj [("ok", JBool false)]))
    | HttpGet _ => Unreachable
    end.

(** ** Payloads, texts within texts *)

(** [v.k], and [undefined] where the access fails. *)
Definition member (v : value) (k : string) : value :=
  match getProp v k with
  | Ok x => x
  | Throw _ => JUndefined
  end.

(** The payload has a message with a text that is not empty. *)
Definition has_text (update : value) : bool :=
  truthy (member update "message")
  && truthy (member (member update "message") "text").

(** [null] and [undefined], of which no property can be read. *)
Definition is_nullish (v : value) : bool :=
  match v with
  | JNull | JUndefined => true
  | _ => false
  end.

(** [needle] occurs in [text]. *)
Fixpoint contains (needle text : string) : bool :=
  String.prefix needle text
  || match text with
     | EmptyString => false
     | String _ rest => contains needle rest
     end.

(** The first section lists one coin named as the failure notice of the
    branch for three rejected results; the platform accepts every send. *)
Definition net_named_as_notice : Network :=
  fun _ rq =>
    match rq with
    | HttpPost _ _ _ _ => Response 200 (Some (JObj [("ok", JBool true)]))
    | HttpGet _ =>
        Response 200
          (Some (JArr [JObj [("name",
                              JStr "❌ Unable to fetch pulse data from Axiom Trade. Please try again later.")]]))
    end.

(** ** Rejected sends and the notices that follow them *)

(** The call [rq], made after [history], is a send on whose answer
    [sendMessage] throws.  A provider request is never one. *)
Definition rejected (net : Network) (history : list request) (rq : request) : bool :=
  match rq with
  | HttpPost _ _ _ _ =>
      match send_result (net history rq) with
      | Ok _ => false
      | Throw _ => true
      end
  | HttpGet _ => false
  end.

(** In every run of [m], a rejected send is the last call and an error
    leaves [m]. *)
Definition raises {A} (m : M A) : Prop :=
  forall w, exists new,
    snd (m w) = extend w new
    /\ forall pre rq post,
         new = (pre ++ rq :: post)%list ->
         rejected (network w) (calls w ++ pre) rq = true ->
         post = [] /\ exists e, fst (m w) = Throw e.

(** In every run of [m], a rejected send is followed by the call [notice]
    and nothing else; or it is the call [notice] itself, nothing follows
    it, and an error leaves [m]. *)
Definition escalates {A} (notice : request) (m : M A) : Prop :=
  forall w, exists new,
    snd (m w) = extend w new
    /\ forall pre rq post,
         new = (pre ++ rq :: post)%list ->
         rejected (network w) (calls w ++ pre) rq = true ->
         post = [notice]
         \/ (post = [] /\ rq = notice /\ exists e, fst (m w) = Throw e).

(** The failure notices of the five flows and of the dispatcher. *)
Inductive failure_notice : string -> Prop :=
| notice_global : failure_notice global_failed
| notice_pulse : failure_notice pulse_failed
| notice_trending : failure_notice trending_failed
| notice_top10 : failure_notice top10_failed
| notice_price (shown : string) :
    failure_notice ("❌ Failed to fetch price for " ++ shown ++ "\. Please try again later\.")
| notice_dispatch : failure_notice dispatch_failed.

(** In every run of [m], a rejected send is followed by the send of a
    failure notice; or it is the send of the dispatcher's notice, nothing
    follows it, and an error leaves [m]. *)
Definition answers_rejections {A} (env : Env) (m : M A) : Prop :=
  forall w, exists new,
    snd (m w) = extend w new
    /\ forall pre rq post,
         new = (pre ++ rq :: post)%list ->
         rejected (network w) (calls w ++ pre) rq = true ->
         (exists chatId text rest,
             post = send_request chatId text env :: rest /\ failure_notice text)
         \/ (post = []
             /\ (exists chatId, rq = send_request chatId dispatch_failed env)
             /\ exists e, fst (m w) = Throw e).

(** * Further notions *)

(** The number of reserved characters of a text. *)
Fixpoint reserved_count (s : string) : nat :=
  match s with
  | EmptyString => 0
  | String c r => (if existsb (Ascii.eqb c) reserved then 1 else 0) + reserved_count r
  end.

(** Each reserved character of [t] stands right after a backslash. *)
Definition reserved_guarded (t : string) : Prop :=
  forall before c after,
    t = before ++ String c after -> In c reserved ->
    exists start, before = start ++ bs.

(** The text a flow with one provider request replies with: the message
    built from a successful JSON answer, the flow's apology otherwise. *)
Definition reply_of (build : value -> result string) (failed : string) (o : outcome)
    : string :=
  match o with
  | Unreachable => failed
  | Response st body =>
      if ok_status st then
        match body with
        | Some data =>
            match build data with
            | Ok message => message
            | Throw _ => failed
            end
        | None => failed
        end
      else failed
  end.

Definition markets_url : string :=
  COINGECKO_API ++
  "/coins/markets?vs_currency=usd&order=market_cap_desc&per_page=10&page=1&sparkline=false".


(** The provider answers every search with two hits and every other
    request with a record that has no market data; the platform accepts
    every send. *)
Definition net_two_hits : Network :=
  fun _ rq =>
    match rq with
    | HttpPost _ _ _ _ => Response 200 (Some (JObj [("ok", JBool true)]))
    | HttpGet url =>
        if String.prefix (COINGECKO_API ++ "/search?query=") url then
          Response 200 (Some (JObj [("coins", JArr [JObj [("id", JStr "bitcoin")];
                                                    JObj [("id", JStr "bitcoin-cash")]])]))
        else Response 200 (Some (JObj [("id", JStr "bitcoin")]))
    end.

(** The provider lists six new pairs, the sixth of which is [null], and
    nothing in the other sections; the platform accepts every send. *)
Definition six_pairs : list value :=
  [JObj [("name", JStr "a")]; JObj [("name", JStr "b")]; JObj [("name", JStr "c")];
   JObj [("name", JStr "d")]; JObj [("name", JStr "e")]; JNull].

(** ** What a dispatch may call *)

(** [m] issues only calls that satisfy [P]. *)
Definition only_calls {A} (P : request -> Prop) (m : M A) : Prop :=
  forall w, exists new, snd (m w) = extend w new /\ Forall P new.

(** A request to one of the two providers, or a send to the chat of the
    update through the bot's [sendMessage] method, as MarkdownV2. *)
Definition permitted (update : value) (env : Env) (rq : request) : Prop :=
  match rq with
  | HttpGet url =>
      (exists rest, url = COINGECKO_API ++ rest)
      \/ (exists rest, url = AXIOM_API ++ rest)
  | HttpPost url chatId _ mode =>
      url = "https://api.telegram.org/bot" ++ token_text env ++ "/sendMessage"
      /\ path update ["message"; "chat"; "id"] = Ok chatId
      /\ mode = "MarkdownV2"
  end.

(** ** The entry point *)

(** The request is the webhook's. *)
Definition is_webhook (request : Request) : bool :=
  String.eqb (method request) "POST" && String.eqb (pathname request) WEBHOOK_ENDPOINT.

(** The request asks for the registration of the webhook. *)
Definition is_setup (request : Request) : bool :=
  String.eqb (method request) "GET" && String.eqb (pathname request) "/setwebhook".

(** The requests the worker acts on: the token is configured and the
    request is the webhook's with a JSON body, or asks for the
    registration. *)
Definition served (request : Request) (env : Env) : bool :=
  token_configured env
  && ((is_webhook request && match body request with Some _ => true | None => false end)
      || (negb (is_webhook request) && is_setup request)).

(** The answer to a request that is not served. *)
Definition refusal (request : Request) (env : Env) : HttpResponse :=
  if negb (token_configured env) then
    {| resp_body := "TELEGRAM_BOT_TOKEN not configured"; resp_status := 500 |}
  else if is_webhook request then
    {| resp_body := "Internal Server Error"; resp_status := 500 |}
  else {| resp_body := "Not Found"; resp_status := 404 |}.

(** The call that registers a webhook address. *)
Definition setup_request (env : Env) (encoded : string) : request :=
  HttpGet ("https://api.telegram.org/bot" ++ token_text env ++ "/setWebhook?url=" ++ encoded).

(** The platform answers the registration as it answers a send. *)
Definition net_setup_accepted : Network :=
  fun _ _ => Response 200 (Some (JObj [("ok", JBool true)])).

(** ** Well-typed listings and rows *)

(** A value that is neither an array nor a record. *)
Definition scalar (v : value) : bool :=
  match v with
  | JArr _ | JObj _ => false
  | _ => true
  end.

(** The fields the pulse formatter reads. *)
Definition listing_keys : list string :=
  ["name"; "symbol"; "price"; "marketCap"; "volume24h"; "holders"; "age";
   "change24h"; "progress"; "migrationTime"].

(** The concatenation of some texts. *)
Definition join_rows (rows : list string) : string :=
  fold_right append EmptyString rows.

(** A successful answer of the markets endpoint with two rows, the second
    of which has no 24h change. *)
Definition two_rows : value :=
  JArr [JObj [("name", JStr "Bitcoin"); ("symbol", JStr "btc");
              ("current_price", JNum 50000); ("price_change_percentage_24h", JNum (-2));
              ("market_cap", JNum 1000000); ("total_volume", JNum 2000)];
        JObj [("name", JStr "Ether"); ("symbol", JStr "eth");
              ("current_price", JNum 3000); ("price_change_percentage_24h", JNull);
              ("market_cap", JNum 500000); ("total_volume", JNum 1000)]].

(** ** Budgets of a dispatch *)

Definition is_get (rq : request) : bool := negb (is_post rq).

(** The number of provider requests among some calls. *)
Definition count_gets (l : list request) : nat := length (filter is_get l).

(** [m] issues at most [n] provider requests, whatever the network does. *)
Definition gets_at_most {A} (n : nat) (m : M A) : Prop :=
  forall w, exists new, snd (m w) = extend w new /\ (count_gets new <= n)%nat.

(** [m] has issued a send whenever it returns. *)
Definition sends_before_return {A} (m : M A) : Prop :=
  forall w, exists new,
    snd (m w) = extend w new
    /\ (forall a, fst (m w) = Ok a -> (1 <= count_posts new)%nat).

(** [m] issues a send, whether it returns or throws. *)
Definition always_sends {A} (m : M A) : Prop :=
  forall w, exists new, snd (m w) = extend w new /\ (1 <= count_posts new)%nat.

(** The provider requests a command may need. *)
Definition provider_budget (c : Command) : nat :=
  match c with
  | Pulse => 3
  | Price _ => 2
  | Top10 | Trending | Global => 1
  | Help | Unrecognized => 0
  end.

(** * Theorems *)

Unset Implicit Arguments.

(** ** Markup escaper *)

Lemma in_class_reserved (c : ascii) :
  in_class escape_class c = true <-> In c reserved.
Proof.
  unfold in_class. rewrite existsb_exists. split.
  - intros [x [Hin Heq]]. apply Ascii.eqb_eq in Heq. subst x. exact Hin.
  - intros Hin. exists c. split; [exact Hin | apply Ascii.eqb_refl].
Qed.

Lemma replace_class_escaped (s : string) :
  escaped s (replace_class escape_class (fun m => bs ++ m) s).
Proof.
  induction s as [| c r IH]; cbn [replace_class].
  - constructor.
  - destruct (in_class escape_class c) eqn:Hc; unfold bs; cbn [append].
    + apply escaped_reserved; [apply in_class_reserved; exact Hc | exact IH].
    + apply escaped_plain; [| exact IH].
      intros Hin. apply in_class_reserved in Hin. congruence.
Qed.

Lemma escaped_functional (s t t' : string) :
  escaped s t -> escaped s t' -> t = t'.
Proof.
  intros H. revert t'.
  induction H as [| c s t Hc _ IH | c s t Hc _ IH]; intros t' H'; inversion H'; subst;
    try reflexivity; try contradiction; f_equal; try f_equal; apply IH; assumption.
Qed.

(** C2: on a string the escaper returns exactly the text in which each
    reserved character is prefixed with a backslash and every other
    character is unchanged (the relation [escaped] has one output per
    input), and [null] and [undefined] give the empty string. *)
Theorem escapeMarkdown_prefixes_reserved (host : Host) :
  (forall s t, escapeMarkdown host (JStr s) = Ok t <-> escaped s t)
  /\ escapeMarkdown host JNull = Ok EmptyString
  /\ escapeMarkdown host JUndefined = Ok EmptyString.
Proof.
  split; [| split; reflexivity].
  intros s t. simpl. split.
  - intros H. injection H as <-. apply replace_class_escaped.
  - intros H. f_equal. eapply escaped_functional; [apply replace_class_escaped | exact H].
Qed.

(** ** Single-section pulse fetch *)

Lemma fetchAxiomPulseData_run (s : section) (w : World) :
  fetchAxiomPulseData s w =
  (Ok (section_listing s (network w (calls w) (HttpGet (endpoints s)))),
   after_call w (HttpGet (endpoints s))).
Proof.
  unfold fetchAxiomPulseData, try_catch, bind, fetch, after_call, section_listing.
  destruct (network w (calls w) (HttpGet (endpoints s))) as [| st body]; [reflexivity |].
  unfold ok; simpl.
  destruct ((200 <=? st)%Z && (st <=? 299)%Z); simpl; [| reflexivity].
  destruct body as [data |]; simpl; [| reflexivity].
  destruct data as [| | b | x | str | items | fields]; simpl; try reflexivity.
  unfold lift, bind, ret; simpl.
  destruct (assoc "data" fields) as [[| | | | | l |] |]; simpl; try reflexivity;
    destruct (assoc "tokens" fields) as [[| | | | | l' |] |]; reflexivity.
Qed.


(** ** Calls and sends *)

Lemma extend_nil (w : World) : extend w [] = w.
Proof. destruct w; unfold extend; simpl. rewrite app_nil_r. reflexivity. Qed.

Lemma extend_extend (w : World) (a b : list request) :
  extend (extend w a) b = extend w (a ++ b).
Proof. unfold extend; simpl. rewrite app_assoc. reflexivity. Qed.

Lemma after_call_extend (w : World) (rq : request) :
  after_call w rq = extend w [rq].
Proof. reflexivity. Qed.

Lemma count_posts_app (a b : list request) :
  count_posts (a ++ b) = (count_posts a + count_posts b)%nat.
Proof. unfold count_posts. rewrite filter_app, length_app. reflexivity. Qed.

Lemma sent_texts_app (a b : list request) :
  sent_texts (a ++ b) = (sent_texts a ++ sent_texts b)%list.
Proof.
  induction a as [| [url | url c t pm] r IH]; simpl; [reflexivity | exact IH |].
  rewrite IH. reflexivity.
Qed.

Lemma sendMessage_run (chatId : value) (text : string) (env : Env) (w : World) :
  sendMessage chatId text env w =
  (send_result (network w (calls w) (send_request chatId text env)),
   extend w [send_request chatId text env]).
Proof.
  unfold sendMessage, try_catch, bind, fetch, send_request, send_result, extend, throw.
  destruct (network w (calls w) _) as [| st [data |]]; simpl; try reflexivity.
  unfold ok, ok_status; simpl.
  destruct ((200 <=? st)%Z && (st <=? 299)%Z); reflexivity.
Qed.

Lemma sendMessage_accepted (chatId : value) (text : string) (env : Env) (w : World) :
  accepts_sends (network w) ->
  exists data,
    sendMessage chatId text env w = (Ok data, extend w [send_request chatId text env]).
Proof.
  intros Hacc. rewrite sendMessage_run.
  destruct (Hacc (calls w) ("https://api.telegram.org/bot" ++ token_text env ++ "/sendMessage")
              chatId text "MarkdownV2") as [st [data [Hnet Hok]]].
  exists data. unfold send_request. rewrite Hnet. simpl. rewrite Hok. reflexivity.
Qed.

(** *** Bounds on the number of sends, by the structure of the code *)

Lemma at_most_ret {A} (a : A) : at_most 0 (ret a).
Proof. intros w. exists []. rewrite extend_nil. split; [reflexivity | unfold count_posts; simpl; lia]. Qed.

Lemma at_most_throw {A} (e : error) : at_most 0 (@throw A e).
Proof. intros w. exists []. rewrite extend_nil. split; [reflexivity | unfold count_posts; simpl; lia]. Qed.

Lemma at_most_lift {A} (r : result A) : at_most 0 (lift r).
Proof. intros w. exists []. rewrite extend_nil. split; [reflexivity | unfold count_posts; simpl; lia]. Qed.

Lemma at_most_weaken {A} (n n' : nat) (m : M A) :
  (n <= n')%nat -> at_most n m -> at_most n' m.
Proof.
  intros Hle H w. destruct (H w) as [new [Hw Hc]]. exists new. split; [exact Hw | lia].
Qed.

Lemma at_most_bind {A B} (n1 n2 : nat) (m : M A) (k : A -> M B) :
  at_most n1 m -> (forall a, at_most n2 (k a)) -> at_most (n1 + n2) (bind m k).
Proof.
  intros Hm Hk w. unfold bind.
  destruct (Hm w) as [new1 [Hw1 Hc1]].
  destruct (m w) as [[a | e] w1]; simpl in *.
  - destruct (Hk a w1) as [new2 [Hw2 Hc2]].
    exists (new1 ++ new2)%list. rewrite Hw2, Hw1, extend_extend, count_posts_app.
    split; [reflexivity | lia].
  - exists new1. split; [exact Hw1 | lia].
Qed.

Lemma at_most_try_catch {A} (n1 n2 : nat) (body : M A) (handler : error -> M A) :
  at_most n1 body -> (forall e, at_most n2 (handler e)) ->
  at_most (n1 + n2) (try_catch body handler).
Proof.
  intros Hm Hk w. unfold try_catch.
  destruct (Hm w) as [new1 [Hw1 Hc1]].
  destruct (body w) as [[a | e] w1]; simpl in *.
  - exists new1. split; [exact Hw1 | lia].
  - destruct (Hk e w1) as [new2 [Hw2 Hc2]].
    exists (new1 ++ new2)%list. rewrite Hw2, Hw1, extend_extend, count_posts_app.
    split; [reflexivity | lia].
Qed.

Lemma at_most_fetch_get (url : string) : at_most 0 (fetch (HttpGet url)).
Proof.
  intros w. exists [HttpGet url]. unfold fetch.
  destruct (network w (calls w) (HttpGet url)); simpl; (split; [reflexivity | unfold count_posts; simpl; lia]).
Qed.

Lemma at_most_json (r : response) : at_most 0 (json r).
Proof. unfold json. destruct (json_body r); [apply at_most_ret | apply at_most_throw]. Qed.

Lemma at_most_sendMessage (chatId : value) (text : string) (env : Env) :
  at_most 1 (sendMessage chatId text env).
Proof.
  intros w. exists [send_request chatId text env]. rewrite sendMessage_run.
  split; [reflexivity | unfold count_posts; simpl; lia].
Qed.

Lemma at_most_send_unit (chatId : value) (text : string) (env : Env) :
  at_most 1 (bind (sendMessage chatId text env) (fun _ => ret tt)).
Proof.
  apply (at_most_bind 1 0); [apply at_most_sendMessage | intros; apply at_most_ret].
Qed.

Lemma at_most_settle {A} (n : nat) (m : M A) : at_most n m -> at_most n (settle m).
Proof.
  intros H w. destruct (H w) as [new [Hw Hc]]. exists new. unfold settle.
  destruct (m w) as [[a | e] w1]; simpl in *; split; assumption.
Qed.

Lemma at_most_waitUntil {A} (n : nat) (m : M A) : at_most n m -> at_most n (waitUntil m).
Proof.
  intros H w. destruct (H w) as [new [Hw Hc]]. exists new. unfold waitUntil.
  simpl. split; assumption.
Qed.

(** *** Exact numbers of sends on a platform that accepts them *)

Lemma counts_ret {A} (a : A) (ob : option nat) : counts (Some 0%nat) ob (ret a).
Proof. intros w _. exists (Ok a), []. rewrite extend_nil. split; reflexivity. Qed.

Lemma counts_throw {A} (e : error) (oa : option nat) : counts oa (Some 0%nat) (@throw A e).
Proof. intros w _. exists (Throw e), []. rewrite extend_nil. split; reflexivity. Qed.

Lemma counts_lift {A} (r : result A) : counts (Some 0%nat) (Some 0%nat) (lift r).
Proof.
  intros w _. exists r, []. rewrite extend_nil. split; [reflexivity |].
  destruct r; reflexivity.
Qed.

Lemma counts_never_throws {A} (oa ob : option nat) (m : M A) :
  counts oa None m -> counts oa ob m.
Proof.
  intros H w Hacc. destruct (H w Hacc) as [r [new [Hrun Hr]]].
  exists r, new. split; [exact Hrun |]. destruct r; [exact Hr | discriminate].
Qed.

Lemma counts_fetch_get (url : string) :
  counts (Some 0%nat) (Some 0%nat) (fetch (HttpGet url)).
Proof.
  intros w _. unfold fetch.
  destruct (network w (calls w) (HttpGet url)) as [| st body].
  - exists (Throw NetworkError), [HttpGet url]. split; reflexivity.
  - exists (Ok {| status := st; json_body := body |}), [HttpGet url]. split; reflexivity.
Qed.

Lemma counts_json (r : response) : counts (Some 0%nat) (Some 0%nat) (json r).
Proof. unfold json. destruct (json_body r); [apply counts_ret | apply counts_throw]. Qed.

Lemma counts_settle_pulse (s : section) (ob : option nat) :
  counts (Some 0%nat) ob (settle (fetchAxiomPulseData s)).
Proof.
  intros w _. unfold settle. rewrite fetchAxiomPulseData_run.
  eexists (Ok _), [HttpGet (endpoints s)]. split; reflexivity.
Qed.

Lemma counts_bind_quiet {A B} (oa ob : option nat) (m : M A) (k : A -> M B) :
  counts (Some 0%nat) ob m -> (forall a, counts oa ob (k a)) -> counts oa ob (bind m k).
Proof.
  intros Hm Hk w Hacc. unfold bind.
  destruct (Hm w Hacc) as [r [new1 [Hrun1 Hr1]]]. rewrite Hrun1.
  destruct r as [a | e].
  - injection Hr1 as H0.
    destruct (Hk a (extend w new1) Hacc) as [r2 [new2 [Hrun2 Hr2]]].
    exists r2, (new1 ++ new2)%list. rewrite Hrun2, extend_extend. split; [reflexivity |].
    rewrite count_posts_app, <- H0. exact Hr2.
  - exists (Throw e), new1. split; [reflexivity | exact Hr1].
Qed.

Lemma counts_bind_send {A} (a b : nat) (chatId : value) (text : string) (env : Env)
    (k : value -> M A) :
  (forall x, counts (Some a) (Some b) (k x)) ->
  counts (Some (S a)) (Some (S b)) (bind (sendMessage chatId text env) k).
Proof.
  intros Hk w Hacc. unfold bind.
  destruct (sendMessage_accepted chatId text env w Hacc) as [data Hsend]. rewrite Hsend.
  destruct (Hk data (extend w [send_request chatId text env]) Hacc) as [r [new [Hrun Hr]]].
  exists r, ([send_request chatId text env] ++ new)%list.
  rewrite Hrun, extend_extend. split; [reflexivity |].
  rewrite count_posts_app. unfold count_posts at 1. simpl.
  destruct r; injection Hr as ->; reflexivity.
Qed.

Lemma counts_send_unit (chatId : value) (text : string) (env : Env) (ob : option nat) :
  counts (Some 1%nat) ob (bind (sendMessage chatId text env) (fun _ => ret tt)).
Proof.
  apply counts_never_throws. intros w Hacc. unfold bind.
  destruct (sendMessage_accepted chatId text env w Hacc) as [data Hsend]. rewrite Hsend.
  exists (Ok tt), [send_request chatId text env]. split; reflexivity.
Qed.

Lemma counts_try_catch {A} (a b a2 : nat) (ob : option nat) (body : M A)
    (handler : error -> M A) :
  counts (Some a) (Some b) body ->
  (forall e, counts (Some a2) None (handler e)) ->
  a = (b + a2)%nat ->
  counts (Some a) ob (try_catch body handler).
Proof.
  intros Hb Hh Heq. apply counts_never_throws. intros w Hacc. unfold try_catch.
  destruct (Hb w Hacc) as [r [new1 [Hrun1 Hr1]]]. rewrite Hrun1.
  destruct r as [x | e].
  - exists (Ok x), new1. split; [reflexivity | exact Hr1].
  - injection Hr1 as Hb1.
    destruct (Hh e (extend w new1) Hacc) as [r2 [new2 [Hrun2 Hr2]]].
    exists r2, (new1 ++ new2)%list. rewrite Hrun2, extend_extend. split; [reflexivity |].
    destruct r2; [| discriminate]. injection Hr2 as Ha2.
    rewrite count_posts_app. f_equal. lia.
Qed.

Lemma counts_try_catch_quiet {A} (a : nat) (ob : option nat) (body : M A)
    (handler : error -> M A) :
  counts (Some a) (Some 0%nat) body ->
  (forall e, counts (Some a) ob (handler e)) ->
  counts (Some a) ob (try_catch body handler).
Proof.
  intros Hb Hh w Hacc. unfold try_catch.
  destruct (Hb w Hacc) as [r [new1 [Hrun1 Hr1]]]. rewrite Hrun1.
  destruct r as [x | e].
  - exists (Ok x), new1. split; [reflexivity | exact Hr1].
  - injection Hr1 as Hb1.
    destruct (Hh e (extend w new1) Hacc) as [r2 [new2 [Hrun2 Hr2]]].
    exists r2, (new1 ++ new2)%list. rewrite Hrun2, extend_extend. split; [reflexivity |].
    rewrite count_posts_app, <- Hb1. exact Hr2.
Qed.

Lemma counts_try_catch_never {A} (oa ob : option nat) (body : M A)
    (handler : error -> M A) :
  counts oa None body -> counts oa ob (try_catch body handler).
Proof.
  intros Hb. apply counts_never_throws. intros w Hacc. unfold try_catch.
  destruct (Hb w Hacc) as [r [new1 [Hrun1 Hr1]]]. rewrite Hrun1.
  destruct r as [x | e]; [| discriminate].
  exists (Ok x), new1. split; [reflexivity | exact Hr1].
Qed.

(** *** The handlers *)

Ltac quiet_step :=
  first [ apply counts_fetch_get | apply counts_json | apply counts_lift
        | apply counts_settle_pulse ].

(** Walks through a [try] body whose sends are its last step. *)
Ltac count_body :=
  lazymatch goal with
  | |- counts _ _ (bind (sendMessage _ _ _) (fun _ => ret tt)) => apply counts_send_unit
  | |- counts _ _ (bind (sendMessage _ _ _) _) =>
      apply counts_bind_send; intros; count_body
  | |- counts _ _ (bind _ _) =>
      apply counts_bind_quiet; [quiet_step | intros; count_body]
  | |- counts _ _ (throw _) => apply counts_throw
  | |- counts _ _ (ret _) => apply counts_ret
  | |- counts _ _ (if ?c then _ else _) => destruct c; count_body
  end.

Ltac bound_step :=
  first [ apply at_most_fetch_get | apply at_most_json | apply at_most_lift ].

Ltac bound_body :=
  lazymatch goal with
  | |- at_most (S ?n) (bind (sendMessage _ _ _) _) =>
      apply (at_most_bind 1 n);
      [apply at_most_sendMessage | intros; bound_body]
  | |- at_most ?n (bind _ _) =>
      apply (at_most_bind 0 n); [bound_step | intros; bound_body]
  | |- at_most ?n (throw _) => apply (at_most_weaken 0); [lia | apply at_most_throw]
  | |- at_most ?n (ret _) => apply (at_most_weaken 0); [lia | apply at_most_ret]
  | |- at_most _ (if ?c then _ else _) => destruct c; bound_body
  end.

Section Handlers.

Context (host : Host) (chatId : value) (env : Env).

Lemma counts_handleGlobalCommand (ob : option nat) :
  counts (Some 1%nat) ob (handleGlobalCommand host chatId env).
Proof.
  unfold handleGlobalCommand.
  apply counts_try_catch_quiet; [count_body | intros; apply counts_send_unit].
Qed.

Lemma counts_handleTrendingCommand (ob : option nat) :
  counts (Some 1%nat) ob (handleTrendingCommand host chatId env).
Proof.
  unfold handleTrendingCommand.
  apply counts_try_catch_quiet; [count_body | intros; apply counts_send_unit].
Qed.

Lemma counts_handleTop10Command (ob : option nat) :
  counts (Some 1%nat) ob (handleTop10Command host chatId env).
Proof.
  unfold handleTop10Command.
  apply counts_try_catch_quiet; [count_body | intros; apply counts_send_unit].
Qed.

Lemma counts_handlePriceCommand (coin : value) :
  counts (Some 1%nat) (Some 0%nat) (handlePriceCommand host chatId coin env).
Proof.
  unfold handlePriceCommand.
  apply counts_try_catch_quiet; [count_body | intros; count_body].
Qed.

Lemma counts_handlePulseCommand (ob : option nat) :
  counts (Some 2%nat) ob (handlePulseCommand host chatId env).
Proof.
  unfold handlePulseCommand.
  apply (counts_try_catch 2 1 1);
    [count_body | intros; apply counts_send_unit | reflexivity].
Qed.

Lemma at_most_handleGlobalCommand : at_most 2 (handleGlobalCommand host chatId env).
Proof.
  unfold handleGlobalCommand.
  apply (at_most_try_catch 1 1); [bound_body | intros; apply at_most_send_unit].
Qed.

Lemma at_most_handleTrendingCommand : at_most 2 (handleTrendingCommand host chatId env).
Proof.
  unfold handleTrendingCommand.
  apply (at_most_try_catch 1 1); [bound_body | intros; apply at_most_send_unit].
Qed.

Lemma at_most_handleTop10Command : at_most 2 (handleTop10Command host chatId env).
Proof.
  unfold handleTop10Command.
  apply (at_most_try_catch 1 1); [bound_body | intros; apply at_most_send_unit].
Qed.

Lemma at_most_handlePriceCommand (coin : value) :
  at_most 2 (handlePriceCommand host chatId coin env).
Proof.
  unfold handlePriceCommand.
  apply (at_most_try_catch 1 1); [bound_body | intros; bound_body].
Qed.

Lemma at_most_fetchAxiomPulseData (s : section) : at_most 0 (fetchAxiomPulseData s).
Proof.
  intros w. exists [HttpGet (endpoints s)]. rewrite fetchAxiomPulseData_run.
  split; [reflexivity | unfold count_posts; simpl; lia].
Qed.

Lemma at_most_handlePulseCommand : at_most 3 (handlePulseCommand host chatId env).
Proof.
  unfold handlePulseCommand.
  apply (at_most_try_catch 2 1); [| intros; apply at_most_send_unit].
  apply (at_most_bind 1 1); [apply at_most_sendMessage | intros _].
  do 3 (apply (at_most_bind 0 1);
        [apply at_most_settle, at_most_fetchAxiomPulseData | intros ?]).
  bound_body.
Qed.

End Handlers.

(** ** Command dispatcher *)

Lemma prefix_split (p s : string) :
  String.prefix p s = true -> s = p ++ skip (String.length p) s.
Proof.
  revert s. induction p as [| c p IH]; intros s H.
  - destruct s; reflexivity.
  - destruct s as [| d s]; simpl in H; [discriminate |].
    destruct (Ascii.ascii_dec c d) as [-> | Hne]; [| discriminate].
    simpl. f_equal. apply IH. exact H.
Qed.

Lemma prefix_append (p rest : string) : String.prefix p (p ++ rest) = true.
Proof.
  induction p as [| c p IH]; simpl.
  - destruct rest; reflexivity.
  - destruct (Ascii.ascii_dec c c) as [_ | N]; [exact IH | contradiction].
Qed.

Lemma split_on_space_head (s : string) :
  exists rest, split_on " " s = until_space s :: rest.
Proof.
  induction s as [| c r [rest IH]]; simpl.
  - exists []. reflexivity.
  - destruct (Ascii.eqb c " ").
    + eexists. reflexivity.
    + rewrite IH. eexists. reflexivity.
Qed.

Lemma second_piece_argument (text : string) :
  String.prefix "/price " text = true ->
  second_piece text = JStr (until_space (skip 7 text)).
Proof.
  intros H. pose proof (prefix_split _ _ H) as Hs.
  change (String.length "/price ") with 7 in Hs.
  remember (skip 7 text) as rest eqn:Hrest. clear Hrest. subst text.
  unfold second_piece. simpl.
  destruct (split_on_space_head rest) as [pieces ->]. reflexivity.
Qed.

Section DispatchFacts.

Context (host : Host).

Lemma route_classify (chatId : value) (text : string) (env : Env) :
  route host chatId text env = execute host chatId (classify text) env.
Proof.
  unfold route, classify, startsWith. simpl.
  destruct (String.eqb text "/start"); [reflexivity |].
  destruct (String.eqb text "/help"); [reflexivity |].
  destruct (String.eqb text "/top10"); [reflexivity |].
  destruct (String.eqb text "/trending"); [reflexivity |].
  destruct (String.eqb text "/pulse"); [reflexivity |].
  destruct (String.eqb text "/global"); [reflexivity |].
  simpl.
  destruct (String.prefix "/price " text) eqn:Hp; [| reflexivity].
  simpl. rewrite (second_piece_argument _ Hp). reflexivity.
Qed.

Lemma handleTelegramUpdate_routed (update : value) (env : Env) (chatId : value)
    (command : Command) (w : World) :
  routed host update = Some (chatId, command) ->
  handleTelegramUpdate host update env w =
  try_catch (execute host chatId command env)
            (fun _ => bind (sendMessage chatId dispatch_failed env) (fun _ => ret tt)) w.
Proof.
  unfold routed, handleTelegramUpdate. intros H.
  destruct update as [| | | | | | fields]; try discriminate. simpl.
  destruct (assoc "message" fields) as [[| | | | | | message] |]; try discriminate.
  unfold lift, bind at 1. simpl.
  destruct (assoc "text" message) as [[| | | | text | |] |]; try discriminate.
  destruct (assoc "chat" message) as [chat |]; try discriminate.
  unfold bind at 1. simpl.
  destruct (String.eqb text EmptyString); [discriminate |]. simpl.
  destruct (getProp chat "id") as [c | e]; [| discriminate].
  injection H as <- <-.
  rewrite <- route_classify. reflexivity.
Qed.

End DispatchFacts.

Section Unrouted.

Context (host : Host).

Lemma handleTelegramUpdate_unrouted (update : value) (env : Env) (w : World) :
  routed host update = None ->
  snd (handleTelegramUpdate host update env w) = w.
Proof.
  unfold routed, handleTelegramUpdate. intros H.
  destruct update as [| | b | x | s | items | fields]; try reflexivity.
  simpl. unfold lift, bind at 1. simpl.
  destruct (assoc "message" fields) as [[| | b | x | s | items | message] |];
    simpl; try reflexivity.
  - destruct b; reflexivity.
  - destruct (num_falsy x); reflexivity.
  - destruct (String.eqb s EmptyString); reflexivity.
  - unfold bind at 1. simpl.
    destruct (assoc "text" message) as [[| | b | x | text | items | obj] |];
      simpl; try reflexivity.
    + destruct b; simpl; [| reflexivity].
      unfold bind. simpl.
      destruct (assoc "chat" message) as [chat |]; simpl; [| reflexivity].
      destruct (getProp chat "id"); reflexivity.
    + destruct (num_falsy x); simpl; [reflexivity |].
      unfold bind. simpl.
      destruct (assoc "chat" message) as [chat |]; simpl; [| reflexivity].
      destruct (getProp chat "id"); reflexivity.
    + destruct (String.eqb text EmptyString); simpl; [reflexivity |].
      unfold bind at 1. simpl.
      destruct (assoc "chat" message) as [chat |]; simpl; [| reflexivity].
      destruct (getProp chat "id"); [discriminate | reflexivity].
    + unfold bind. simpl.
      destruct (assoc "chat" message) as [chat |]; simpl; [| reflexivity].
      destruct (getProp chat "id"); reflexivity.
    + unfold bind. simpl.
      destruct (assoc "chat" message) as [chat |]; simpl; [| reflexivity].
      destruct (getProp chat "id"); reflexivity.
Qed.

End Unrouted.

(** ** Claims about the single-section fetch *)

Lemma section_listing_failed (s : section) (o : outcome) :
  provider_fails o = true -> section_listing s o = getMockPulseData s.
Proof.
  destruct o as [| st body]; simpl; [reflexivity |].
  unfold ok_status. intros H. apply negb_true_iff in H. rewrite H. reflexivity.
Qed.

(** C3, as the code has it: a single-section fetch never raises; it issues
    one request and returns a listing that depends on the answer alone.  On
    a successful JSON response: a bare array as it is; else the [data]
    array of a record; else its [tokens] array; the empty sequence for
    every other value except [null].  The section's fallback fixture on
    transport failure, on a non-success status, on a body that is not JSON
    and on [null]. *)
Theorem fetchAxiomPulseData_normalizes_or_falls_back (s : section) (w : World) :
  let answer := network w (calls w) (HttpGet (endpoints s)) in
  fetchAxiomPulseData s w
  = (Ok (section_listing s answer), after_call w (HttpGet (endpoints s)))
  /\ (forall st data,
        answer = Response st (Some data) -> ok_status st = true ->
        (forall items, data = JArr items -> section_listing s answer = items)
        /\ (forall fields items,
              data = JObj fields -> assoc "data" fields = Some (JArr items) ->
              section_listing s answer = items)
        /\ (forall fields items,
              data = JObj fields ->
              (forall other, assoc "data" fields <> Some (JArr other)) ->
              assoc "tokens" fields = Some (JArr items) ->
              section_listing s answer = items)
        /\ (shape_of data = OtherShape -> section_listing s answer = [])
        /\ (data = JNull -> section_listing s answer = getMockPulseData s))
  /\ (provider_fails answer = true -> section_listing s answer = getMockPulseData s)
  /\ (forall st, answer = Response st None ->
        section_listing s answer = getMockPulseData s).
Proof.
  intros answer. split; [apply fetchAxiomPulseData_run |]. split; [| split].
  - intros st data Hanswer Hok. rewrite Hanswer. unfold section_listing.
    fold (ok_status st). rewrite Hok.
    split; [intros items ->; reflexivity |].
    split; [intros fields items -> Hdata; simpl; rewrite Hdata; reflexivity |].
    split.
    + intros fields items -> Hdata Htokens. simpl.
      destruct (assoc "data" fields) as [[| | | | | other |] |];
        try (rewrite Htokens; reflexivity).
      exfalso. exact (Hdata other eq_refl).
    + split; [intros ->; reflexivity | intros ->; reflexivity].
  - apply section_listing_failed.
  - intros st ->. simpl. destruct ((200 <=? st)%Z && (st <=? 299)%Z); reflexivity.
Qed.

(** C3 fails as stated: a successful response whose JSON value is [null]
    is none of the three shapes, and the fetch returns the fallback
    fixture, not the empty sequence; and a record with both a [data] and a
    [tokens] array yields the [data] array, not the [tokens] array. *)
Lemma null_payload_yields_fixture :
  fst (fetchAxiomPulseData NewPairs (start_of net_null_payload))
    = Ok (getMockPulseData NewPairs)
  /\ getMockPulseData NewPairs <> []
  /\ fst (fetchAxiomPulseData NewPairs (start_of net_both_fields))
    = Ok [JStr "d"].
Proof.
  split; [reflexivity |]. split; [discriminate | reflexivity].
Qed.

(** ** The /pulse flow *)

Lemma append_assoc (a b c : string) : (a ++ b) ++ c = a ++ (b ++ c).
Proof. induction a as [| x a IH]; simpl; [reflexivity | rewrite IH; reflexivity]. Qed.

Lemma append_nil_r (a : string) : a ++ EmptyString = a.
Proof. induction a as [| x a IH]; simpl; [reflexivity | rewrite IH; reflexivity]. Qed.

Lemma send_unit_run (chatId : value) (text : string) (env : Env) (w : World) :
  bind (sendMessage chatId text env) (fun _ => ret tt) w =
  (match send_result (network w (calls w) (send_request chatId text env)) with
   | Ok _ => Ok tt
   | Throw e => Throw e
   end,
   extend w [send_request chatId text env]).
Proof.
  unfold bind. rewrite sendMessage_run.
  destruct (send_result _); reflexivity.
Qed.

Lemma settle_pulse_run (s : section) (w : World) :
  settle (fetchAxiomPulseData s) w =
  (Ok (Fulfilled (section_listing s (network w (calls w) (HttpGet (endpoints s))))),
   extend w [HttpGet (endpoints s)]).
Proof. unfold settle. rewrite fetchAxiomPulseData_run. reflexivity. Qed.

Section PulseFacts.

Context (host : Host).

Lemma pulseMessage_fulfilled (a b c : list value) :
  pulseMessage host (Fulfilled a) (Fulfilled b) (Fulfilled c) =
  (sections <- pulse_sections host (Fulfilled a) (Fulfilled b) (Fulfilled c) ;;
   Ok (sections ++ (if all_empty a b c then pulse_none else EmptyString) ++ help_footer))%res.
Proof.
  unfold pulseMessage, pulse_sections, pulse_header, rbind.
  destruct (appendSection host _ "🆕 *New Pairs*" (Fulfilled a)) as [m1 | e]; [| reflexivity].
  destruct (appendSection host m1 _ (Fulfilled b)) as [m2 | e]; [| reflexivity].
  destruct (appendSection host m2 _ (Fulfilled c)) as [m3 | e]; [| reflexivity].
  simpl. destruct a, b, c; simpl; rewrite ?append_assoc; reflexivity.
Qed.

Lemma pulseMessage_all_rejected (e1 e2 e3 : error) :
  pulseMessage host (Rejected e1) (Rejected e2) (Rejected e3) =
  Ok (pulse_header ++ pulse_unable ++ help_footer).
Proof. reflexivity. Qed.

(** What [handlePulseCommand] does, by the answers to its sends. *)
Lemma handlePulseCommand_run (chatId : value) (env : Env) (w : World) :
  let post := send_request chatId in
  let gets := [HttpGet (endpoints NewPairs); HttpGet (endpoints FinalStretch);
               HttpGet (endpoints Migrated)] in
  exists a b c,
    (snd (handlePulseCommand host chatId env w) =
       extend w [post pulse_fetching env; post pulse_failed env]
     \/ snd (handlePulseCommand host chatId env w) =
       extend w (post pulse_fetching env :: gets ++ [post pulse_failed env])
     \/ exists text,
          pulseMessage host (Fulfilled a) (Fulfilled b) (Fulfilled c) = Ok text
          /\ (snd (handlePulseCommand host chatId env w) =
                extend w (post pulse_fetching env :: gets ++ [post text env])
              \/ snd (handlePulseCommand host chatId env w) =
                extend w (post pulse_fetching env :: gets
                          ++ [post text env; post pulse_failed env]))).
Proof.
  intros post gets.
  remember (handlePulseCommand host chatId env w) as run eqn:Hrun.
  unfold handlePulseCommand, try_catch in Hrun.
  unfold bind at 1 in Hrun. rewrite sendMessage_run in Hrun.
  destruct (send_result _) as [d | e].
  - unfold bind at 1 in Hrun. rewrite settle_pulse_run in Hrun.
    unfold bind at 1 in Hrun. rewrite settle_pulse_run in Hrun.
    unfold bind at 1 in Hrun. rewrite settle_pulse_run in Hrun.
    rewrite !extend_extend in Hrun. simpl app in Hrun.
    match type of Hrun with
    | context [pulseMessage host (Fulfilled ?a) (Fulfilled ?b) (Fulfilled ?c)] =>
        exists a, b, c; destruct (pulseMessage host (Fulfilled a) (Fulfilled b) (Fulfilled c))
          as [text | e] eqn:Hm
    end.
    + right. right. exists text. split; [reflexivity |].
      unfold lift, bind at 1 in Hrun. rewrite send_unit_run in Hrun.
      destruct (send_result _) as [d' | e'].
      * left. rewrite extend_extend in Hrun. subst run. reflexivity.
      * right. rewrite send_unit_run, !extend_extend in Hrun. subst run. reflexivity.
    + right. left. unfold lift, bind at 1 in Hrun.
      rewrite send_unit_run, !extend_extend in Hrun. subst run. reflexivity.
  - exists [], [], []. left. rewrite send_unit_run, extend_extend in Hrun.
    subst run. reflexivity.
Qed.

End PulseFacts.

Section PulseReply.

Context (host : Host).

Lemma appendCoins_rendered (coins : list value) (message : string) (index : nat) :
  Forall (renders host) coins ->
  appendCoins host message coins index =
  Ok (message ++ rendered_from host coins (S index)).
Proof.
  intros H. revert message index.
  induction H as [| coin rest Hcoin _ IH]; intros message index; simpl.
  - rewrite append_nil_r. reflexivity.
  - destruct (Hcoin (S index)) as [text Htext].
    unfold rendered. replace (index + 1)%nat with (S index) by lia.
    rewrite Htext. simpl. rewrite IH, append_assoc. reflexivity.
Qed.

Lemma appendSection_rendered (message heading : string) (coins : list value) :
  Forall (renders host) coins -> coins <> [] -> firstn 5 coins = coins ->
  appendSection host message heading (Fulfilled coins) =
  Ok (message ++ heading ++ nl ++ rendered_from host coins 1 ++ nl).
Proof.
  intros Hr Hne Hall. unfold appendSection.
  assert (Hlen : (0 <? length coins)%nat = true)
    by (destruct coins; [contradiction | reflexivity]).
  rewrite Hlen, Hall, (appendCoins_rendered _ _ _ Hr). simpl rbind.
  rewrite !append_assoc. reflexivity.
Qed.

Lemma fixtures_render (s : section) : Forall (renders host) (getMockPulseData s).
Proof.
  destruct s; repeat constructor; intros index; eexists; reflexivity.
Qed.

End PulseReply.

Section PulseClaims.

Context (host : Host).

Lemma pulseMessage_fixtures :
  pulseMessage host (Fulfilled (getMockPulseData NewPairs))
    (Fulfilled (getMockPulseData FinalStretch)) (Fulfilled (getMockPulseData Migrated))
  = Ok (fixtures_reply host).
Proof.
  rewrite pulseMessage_fulfilled. unfold pulse_sections, fixtures_reply.
  rewrite (appendSection_rendered host _ _ _ (fixtures_render host NewPairs));
    [| discriminate | reflexivity].
  cbn [rbind].
  rewrite (appendSection_rendered host _ _ _ (fixtures_render host FinalStretch));
    [| discriminate | reflexivity].
  cbn [rbind].
  rewrite (appendSection_rendered host _ _ _ (fixtures_render host Migrated));
    [| discriminate | reflexivity].
  cbn [rbind].
  change (all_empty _ _ _) with false. cbv iota.
  rewrite !append_assoc. reflexivity.
Qed.

Lemma handlePulseCommand_sent (chatId : value) (env : Env) (w : World) :
  exists new,
    snd (handlePulseCommand host chatId env w) = extend w new
    /\ forall text, In text (sent_texts new) ->
         text = pulse_fetching \/ text = pulse_failed
         \/ exists a b c,
              pulseMessage host (Fulfilled a) (Fulfilled b) (Fulfilled c) = Ok text.
Proof.
  destruct (handlePulseCommand_run host chatId env w)
    as [a [b [c [H | [H | [text [Hm [H | H]]]]]]]];
    eexists; (split; [exact H |]); unfold send_request; simpl; intros t Hin;
    repeat (destruct Hin as [<- | Hin]; [eauto 8 |]); contradiction.
Qed.

End PulseClaims.

(** C10, as the code has it: the three promises of the /pulse flow are
    always fulfilled, so the branch that appends the "Unable to fetch pulse
    data" notice is never taken and the handler never adds the notice to a
    reply: each settled section fetch is [Fulfilled]; on three fulfilled
    results the message is the sections, the "no new coins" notice when all
    three are empty, and the footer; only three rejected results would add
    the notice; and every text the handler sends is the progress notice,
    the failure notice of its [catch], or a message built from three
    fulfilled results. *)
Theorem pulse_unable_branch_unreachable (host : Host) (chatId : value) (env : Env)
    (w : World) :
  (forall s w', exists items,
      settle (fetchAxiomPulseData s) w'
      = (Ok (Fulfilled items), extend w' [HttpGet (endpoints s)]))
  /\ (forall a b c,
        pulseMessage host (Fulfilled a) (Fulfilled b) (Fulfilled c)
        = (sections <- pulse_sections host (Fulfilled a) (Fulfilled b) (Fulfilled c) ;;
           Ok (sections ++ (if all_empty a b c then pulse_none else EmptyString)
                        ++ help_footer))%res)
  /\ (forall e1 e2 e3,
        pulseMessage host (Rejected e1) (Rejected e2) (Rejected e3)
        = Ok (pulse_header ++ pulse_unable ++ help_footer))
  /\ exists new,
       snd (handlePulseCommand host chatId env w) = extend w new
       /\ forall text, In text (sent_texts new) ->
            text = pulse_fetching \/ text = pulse_failed
            \/ exists a b c,
                 pulseMessage host (Fulfilled a) (Fulfilled b) (Fulfilled c) = Ok text.
Proof.
  split; [| split; [| split]].
  - intros s w'. eexists. apply settle_pulse_run.
  - apply pulseMessage_fulfilled.
  - apply pulseMessage_all_rejected.
  - apply handlePulseCommand_sent.
Qed.

(** C10 fails as stated for the text of the notice: the reply names each
    listing as the provider names it, so a listing named as the notice
    puts its text, escaped as the notice is written, in a reply built from
    three fulfilled results. *)
Lemma notice_text_from_listing_name :
  let named :=
    [JObj [("name",
            JStr "❌ Unable to fetch pulse data from Axiom Trade. Please try again later.")]] in
  let texts :=
    sent_texts (calls (snd (handlePulseCommand Reference.host (JNum 42) demo_env
                              (start_of net_named_as_notice)))) in
  exists reply,
    texts = [pulse_fetching; reply]
    /\ pulseMessage Reference.host (Fulfilled named) (Fulfilled named) (Fulfilled named)
       = Ok reply
    /\ contains "Unable to fetch pulse data" reply = true
    /\ contains "❌ Unable to fetch pulse data from Axiom Trade\. Please try again later\."
         reply = true.
Proof.
  eexists. split; [vm_compute; reflexivity |].
  repeat split; vm_compute; reflexivity.
Qed.

(** C4, as the code has it: when the platform accepts the sends and all
    three section fetches fail, the /pulse flow sends the progress notice
    and then one reply that holds, under each heading, every listing of
    that section's fallback fixture (two, one and one; each fixture has
    fewer than five); the formatter succeeds on every fixture listing; and
    on three fulfilled results the "no new coins" notice is added exactly
    when all three results are empty, which the fixtures are not. *)
Theorem pulse_reply_when_sections_fail (host : Host) (chatId : value) (env : Env)
    (w : World) :
  accepts_sends (network w) ->
  pulse_down (network w) ->
  handlePulseCommand host chatId env w
  = (Ok tt,
     extend w (send_request chatId pulse_fetching env :: pulse_gets
               ++ [send_request chatId (fixtures_reply host) env]))
  /\ (forall s, Forall (renders host) (getMockPulseData s)
                /\ firstn 5 (getMockPulseData s) = getMockPulseData s)
  /\ map (fun s => length (getMockPulseData s)) [NewPairs; FinalStretch; Migrated]
     = [2; 1; 1]%nat
  /\ (forall a b c,
        pulseMessage host (Fulfilled a) (Fulfilled b) (Fulfilled c)
        = (sections <- pulse_sections host (Fulfilled a) (Fulfilled b) (Fulfilled c) ;;
           Ok (sections ++ (if all_empty a b c then pulse_none else EmptyString)
                        ++ help_footer))%res).
Proof.
  intros Hacc Hdown. split; [| split; [| split]].
  - unfold handlePulseCommand, try_catch.
    unfold bind at 1.
    destruct (sendMessage_accepted chatId pulse_fetching env w Hacc) as [d ->].
    unfold bind at 1. rewrite settle_pulse_run.
    unfold bind at 1. rewrite settle_pulse_run.
    unfold bind at 1. rewrite settle_pulse_run.
    cbn [network extend calls].
    rewrite !(section_listing_failed _ _ (Hdown _ _)).
    rewrite pulseMessage_fixtures. unfold lift.
    unfold bind at 1.
    match goal with
    | |- context [bind (sendMessage ?c ?t ?e) _ ?w1] =>
        destruct (sendMessage_accepted c t e w1 Hacc) as [d' Hsend]
    end.
    unfold bind. rewrite Hsend. unfold ret, extend. cbn [network calls fst snd].
    rewrite <- !app_assoc. reflexivity.
  - intros s. split; [apply fixtures_render | destruct s; reflexivity].
  - reflexivity.
  - apply pulseMessage_fulfilled.
Qed.

(** A run of C4: the platform accepts every send, the providers are
    unreachable. *)
Lemma pulse_reply_when_sections_fail_witness :
  accepts_sends net_providers_down
  /\ pulse_down net_providers_down
  /\ handlePulseCommand Reference.host (JNum 42) demo_env (start_of net_providers_down)
     = (Ok tt,
        extend (start_of net_providers_down)
          (send_request (JNum 42) pulse_fetching demo_env :: pulse_gets
           ++ [send_request (JNum 42) (fixtures_reply Reference.host) demo_env])).
Proof.
  assert (Hacc : accepts_sends net_providers_down)
    by (intros history url c t mode; eexists _, _; split; reflexivity).
  assert (Hdown : pulse_down net_providers_down)
    by (intros history s; reflexivity).
  split; [exact Hacc |]. split; [exact Hdown |].
  exact (proj1 (pulse_reply_when_sections_fail Reference.host (JNum 42) demo_env
                  (start_of net_providers_down) Hacc Hdown)).
Defined.

(** C4 fails as stated: with the providers unreachable the reply renders
    two, one and one listings, the whole of each fallback fixture, not five
    per section. *)
Lemma fallback_reply_has_four_listings :
  pulse_down net_providers_down
  /\ sent_texts (calls (snd (handlePulseCommand Reference.host (JNum 42) demo_env
                               (start_of net_providers_down))))
     = [pulse_fetching; fixtures_reply Reference.host]
  /\ map (fun s => length (firstn 5 (getMockPulseData s)))
       [NewPairs; FinalStretch; Migrated] = [2; 1; 1]%nat.
Proof.
  split; [intros history s; reflexivity |]. split; vm_compute; reflexivity.
Qed.

(** ** Pulse listing formatter *)

Section ListingFacts.

Context (host : Host).

Lemma append_if_truthy_line (info label : string) (render : value -> result string)
    (suffix : string) (v : value) :
  append_if_truthy host info v label render suffix =
  (line <- optional_line host label render suffix v ;; Ok (info ++ line))%res.
Proof.
  unfold append_if_truthy, optional_line.
  destruct (truthy v); simpl; [| rewrite append_nil_r; reflexivity].
  destruct (render v) as [shown | e]; simpl; reflexivity.
Qed.

Lemma escapeMarkdown_string (s : string) :
  escapeMarkdown host (JStr s) = Ok (replace_class escape_class (fun m => bs ++ m) s).
Proof. reflexivity. Qed.

Ltac line_step :=
  rewrite append_if_truthy_line;
  match goal with
  | |- context [optional_line host ?l ?r ?s ?v] =>
      destruct (optional_line host l r s v) as [? | ?]; cbn [rbind]; [| reflexivity]
  end.

Lemma formatCoinInfo_listing (fields : list (string * value)) (index : nat) :
  formatCoinInfo host (JObj fields) index = listing host fields index.
Proof.
  unfold formatCoinInfo, listing. cbn [getProp rbind]. fold (field fields "change24h").
  fold (field fields "name"). fold (field fields "symbol"). fold (field fields "price").
  fold (field fields "marketCap"). fold (field fields "volume24h").
  fold (field fields "holders"). fold (field fields "age").
  fold (field fields "progress"). fold (field fields "migrationTime").
  unfold change_line, title_line.
  destruct (truthy (field fields "change24h")) eqn:Hc.
  - destruct (field fields "change24h") as [| | b | x | s | items | obj];
      try discriminate; try reflexivity.
    + unfold js_or at 1. rewrite Hc. reflexivity.
    + unfold js_or at 1. rewrite Hc. cbn [toFixedMethod rbind].
      rewrite ?escapeMarkdown_string. cbn [rbind].
      destruct (escapeMarkdown host (js_or (field fields "name") (JStr "Unknown")))
        as [escName | e]; cbn [rbind]; [| reflexivity].
      destruct (toUpperCaseMethod host (js_or (field fields "symbol") (JStr "N/A")))
        as [upper | e]; cbn [rbind]; [| reflexivity].
      rewrite ?escapeMarkdown_string. cbn [rbind].
      line_step. rewrite ?escapeMarkdown_string. cbn [rbind].
      do 6 line_step.
      rewrite !append_assoc. reflexivity.
    + unfold js_or at 1. rewrite Hc. reflexivity.
  - unfold js_or at 1. rewrite Hc. cbn [rbind].
    destruct (escapeMarkdown host (js_or (field fields "name") (JStr "Unknown")))
      as [escName | e]; cbn [rbind]; [| reflexivity].
    destruct (toUpperCaseMethod host (js_or (field fields "symbol") (JStr "N/A")))
      as [upper | e]; cbn [rbind]; [| reflexivity].
    rewrite ?escapeMarkdown_string. cbn [rbind].
    line_step. rewrite ?escapeMarkdown_string. cbn [rbind].
    do 6 line_step.
    rewrite !append_assoc. reflexivity.
Qed.

End ListingFacts.

Lemma assoc_without (key other : string) (fields : list (string * value)) :
  assoc other (without key fields) =
  if String.eqb key other then None else assoc other fields.
Proof.
  induction fields as [| [k v] rest IH]; simpl.
  - destruct (String.eqb key other); reflexivity.
  - destruct (String.eqb key k) eqn:Hk; simpl.
    + apply String.eqb_eq in Hk. subst k. rewrite IH.
      rewrite (String.eqb_sym other key).
      destruct (String.eqb key other); reflexivity.
    + rewrite IH. destruct (String.eqb other k) eqn:Ho; [| reflexivity].
      apply String.eqb_eq in Ho. subst k. rewrite Hk. reflexivity.
Qed.

Lemma field_without (key other : string) (fields : list (string * value)) :
  field (without key fields) other =
  if String.eqb key other then JUndefined else field fields other.
Proof.
  unfold field. rewrite assoc_without. destruct (String.eqb key other); reflexivity.
Qed.

Section ListingClaims.

Context (host : Host).

Lemma falsy_field_like_missing (fields : list (string * value)) (index : nat)
    (key : string) (v : value) :
  In key optional_keys ->
  assoc key fields = Some v -> truthy v = false ->
  formatCoinInfo host (JObj fields) index
  = formatCoinInfo host (JObj (without key fields)) index.
Proof.
  intros Hin Hv Hfalsy.
  assert (Hfield : field fields key = v) by (unfold field; rewrite Hv; reflexivity).
  rewrite !formatCoinInfo_listing. unfold listing. rewrite !field_without.
  unfold optional_keys in Hin. simpl in Hin.
  repeat (destruct Hin as [<- | Hin];
          [cbn [String.eqb Ascii.eqb Bool.eqb]; rewrite Hfield;
           unfold optional_line, change_line; rewrite Hfalsy; reflexivity |]).
  contradiction.
Qed.

End ListingClaims.

(** C5, as the code has it: a listing is its title line, the price line,
    the 24h line and the lines of the other optional fields, in that order;
    the line of price, marketCap, volume24h, holders, age, progress and
    migrationTime is empty when the field is absent, zero or otherwise
    falsy; the 24h line is always there and reads 0.00 with the positive
    glyph when change24h is absent or zero; and for each of the eight
    optional fields a falsy value, numeric zero in particular, gives the
    same text as the record without the field. *)
Theorem formatCoinInfo_optional_lines (host : Host) (fields : list (string * value))
    (index : nat) :
  formatCoinInfo host (JObj fields) index = listing host fields index
  /\ (forall label render suffix v,
        truthy v = false -> optional_line host label render suffix v = Ok EmptyString)
  /\ (forall v, truthy v = false -> change_line host v = Ok ("🟢 24h: 0\.00\%" ++ nl))
  /\ truthy JUndefined = false /\ truthy (JNum 0) = false
  /\ (forall key v,
        In key optional_keys -> assoc key fields = Some v -> truthy v = false ->
        formatCoinInfo host (JObj fields) index
        = formatCoinInfo host (JObj (without key fields)) index).
Proof.
  split; [apply formatCoinInfo_listing |].
  split; [intros label render suffix v H; unfold optional_line; rewrite H; reflexivity |].
  split; [intros v H; unfold change_line; rewrite H; reflexivity |].
  split; [reflexivity |]. split; [reflexivity |].
  intros key v. apply falsy_field_like_missing.
Qed.

(** A listing whose progress is zero has no progress line: it reads as the
    listing without the field. *)
Example progress_zero_has_no_line :
  formatCoinInfo Reference.host
    (JObj [("name", JStr "Moon"); ("symbol", JStr "moon"); ("progress", JNum 0)]) 3
  = Ok ("3\. Moon \(MOON\)" ++ nl ++ "🟢 24h: 0\.00\%" ++ nl ++ nl).
Proof. reflexivity. Qed.

(** C5 fails as stated for change24h: a record that has no change24h field
    still gets a 24h line. *)
Lemma absent_change_still_rendered :
  assoc "change24h" [("name", JStr "Moon"); ("symbol", JStr "moon")] = None
  /\ formatCoinInfo Reference.host
       (JObj [("name", JStr "Moon"); ("symbol", JStr "moon")]) 1
     = Ok ("1\. Moon \(MOON\)" ++ nl ++ "🟢 24h: 0\.00\%" ++ nl ++ nl).
Proof. split; reflexivity. Qed.

(** ** Claims about the dispatcher *)

Lemma classify_cases (t : string) :
  (classify t = Help <-> t = "/start" \/ t = "/help")
  /\ (classify t = Top10 <-> t = "/top10")
  /\ (classify t = Trending <-> t = "/trending")
  /\ (classify t = Pulse <-> t = "/pulse")
  /\ (classify t = Global <-> t = "/global")
  /\ (forall a, classify t = Price a <->
                exists rest, t = "/price " ++ rest /\ a = until_space rest).
Proof.
  unfold classify. cbn [find exact_commands fst].
  destruct (String.eqb_spec t "/start") as [-> | N1];
    [repeat split; intros; try discriminate; try reflexivity; auto;
     try (destruct H as [rest [H _]]; discriminate) |].
  destruct (String.eqb_spec t "/help") as [-> | N2];
    [repeat split; intros; try discriminate; try reflexivity; auto;
     try (destruct H as [rest [H _]]; discriminate) |].
  destruct (String.eqb_spec t "/top10") as [-> | N3];
    [repeat split; intros; try discriminate; try reflexivity; auto;
     try (destruct H as [H | H]; discriminate);
     try (destruct H as [rest [H _]]; discriminate) |].
  destruct (String.eqb_spec t "/trending") as [-> | N4];
    [repeat split; intros; try discriminate; try reflexivity; auto;
     try (destruct H as [H | H]; discriminate);
     try (destruct H as [rest [H _]]; discriminate) |].
  destruct (String.eqb_spec t "/pulse") as [-> | N5];
    [repeat split; intros; try discriminate; try reflexivity; auto;
     try (destruct H as [H | H]; discriminate);
     try (destruct H as [rest [H _]]; discriminate) |].
  destruct (String.eqb_spec t "/global") as [-> | N6];
    [repeat split; intros; try discriminate; try reflexivity; auto;
     try (destruct H as [H | H]; discriminate);
     try (destruct H as [rest [H _]]; discriminate) |].
  destruct (String.prefix "/price " t) eqn:Hp.
  - repeat split; intros; try discriminate; try contradiction;
      try (destruct H as [H | H]; contradiction).
    + injection H as <-. exists (skip 7 t). split; [| reflexivity].
      apply (prefix_split "/price " t Hp).
    + destruct H as [rest [-> ->]]. reflexivity.
  - repeat split; intros; try discriminate; try contradiction;
      try (destruct H as [H | H]; contradiction).
    destruct H as [rest [-> _]]. rewrite prefix_append in Hp. discriminate.
Qed.

(** C6, as the code has it: for an update whose message has a chat and a
    non-empty text, the dispatcher runs the flow of the command of the
    lower-cased text, taken as it is, without trimming: /start and /help,
    /top10, /trending, /pulse and /global match the whole text; a text that
    starts with "/price " gives the /price flow for what stands between
    that prefix and the next space character (or the end), the rest being
    ignored; every other text makes no call and returns. *)
Theorem dispatch_matches_lowercased_text (host : Host)
    (fields message : list (string * value)) (text : string) (chat chatId : value)
    (env : Env) (w : World) :
  assoc "message" fields = Some (JObj message) ->
  assoc "text" message = Some (JStr text) ->
  text <> EmptyString ->
  assoc "chat" message = Some chat ->
  getProp chat "id" = Ok chatId ->
  let lowered := toLowerCase host text in
  handleTelegramUpdate host (JObj fields) env w
  = try_catch (execute host chatId (classify lowered) env)
      (fun _ => bind (sendMessage chatId dispatch_failed env) (fun _ => ret tt)) w
  /\ (classify lowered = Help <-> lowered = "/start" \/ lowered = "/help")
  /\ (classify lowered = Top10 <-> lowered = "/top10")
  /\ (classify lowered = Trending <-> lowered = "/trending")
  /\ (classify lowered = Pulse <-> lowered = "/pulse")
  /\ (classify lowered = Global <-> lowered = "/global")
  /\ (forall a, classify lowered = Price a <->
                exists rest, lowered = "/price " ++ rest /\ a = until_space rest)
  /\ (classify lowered = Unrecognized ->
      handleTelegramUpdate host (JObj fields) env w = (Ok tt, w)).
Proof.
  intros Hm Ht Hne Hc Hid lowered.
  assert (Hrouted : routed host (JObj fields) = Some (chatId, classify lowered)).
  { unfold routed. rewrite Hm, Ht, Hc, Hid.
    destruct (String.eqb_spec text EmptyString); [contradiction | reflexivity]. }
  split; [apply handleTelegramUpdate_routed; exact Hrouted |].
  destruct (classify_cases lowered) as [H1 [H2 [H3 [H4 [H5 H6]]]]].
  repeat (split; [assumption |]).
  intros Hu. rewrite (handleTelegramUpdate_routed host _ env _ _ w Hrouted), Hu.
  reflexivity.
Qed.

(** A run of C6: "/HELP" in a chat. *)
Lemma dispatch_matches_lowercased_text_witness :
  handleTelegramUpdate Reference.host (update_with (JNum 42) "/HELP") demo_env
    (start_of net_providers_down)
  = (Ok tt,
     extend (start_of net_providers_down) [send_request (JNum 42) help_text demo_env]).
Proof.
  destruct (dispatch_matches_lowercased_text Reference.host
              [("update_id", JNum 1);
               ("message", JObj [("message_id", JNum 1);
                                 ("chat", JObj [("id", JNum 42)]);
                                 ("text", JStr "/HELP")])]
              [("message_id", JNum 1); ("chat", JObj [("id", JNum 42)]);
               ("text", JStr "/HELP")]
              "/HELP" (JObj [("id", JNum 42)]) (JNum 42) demo_env
              (start_of net_providers_down)) as [Hrun _].
  - reflexivity.
  - reflexivity.
  - discriminate.
  - reflexivity.
  - reflexivity.
  - exact Hrun.
Defined.

(** C6 fails as stated: the text is not trimmed, and the argument of /price
    is cut at space characters only.  "/start " trims to "/start" and gets
    no reply; "/price  btc", with two spaces, looks up the empty string,
    not "btc". *)
Lemma untrimmed_text_gets_no_reply :
  trim "/start " = "/start"
  /\ handleTelegramUpdate Reference.host (update_with (JNum 42) "/start ") demo_env
       (start_of net_providers_down)
     = (Ok tt, start_of net_providers_down)
  /\ sent_texts (calls (snd (handleTelegramUpdate Reference.host
                               (update_with (JNum 42) "/start") demo_env
                               (start_of net_providers_down))))
     = [help_text]
  /\ classify "/price  btc" = Price EmptyString
  /\ calls (snd (handleTelegramUpdate Reference.host
                   (update_with (JNum 42) "/price  btc") demo_env
                   (start_of net_providers_down)))
     = [HttpGet (COINGECKO_API ++ "/search?query=");
        send_request (JNum 42)
          "❌ Failed to fetch price for \. Please try again later\." demo_env].
Proof.
  repeat split; vm_compute; reflexivity.
Qed.

(** ** Claims about /price *)





(** The same query through the dispatcher. *)
Example price_miss_through_dispatcher :
  sent_texts (calls (snd (handleTelegramUpdate Reference.host
                            (update_with (JNum 42) "/price doesnotexist123") demo_env
                            (start_of net_no_hits))))
  = ["❌ Could not find cryptocurrency: doesnotexist123"].
Proof. vm_compute. reflexivity. Qed.

(** ** Claims about malformed updates *)

(** C8, as the code has it: a payload that has no message (or a falsy
    one), or whose message has no text (or an empty one), causes no call:
    the dispatcher returns at once and without an error, except on the
    payloads [null] and [undefined], on which the test of line 93 itself
    raises a [TypeError].  The chat is not looked at before the text
    is. *)
Theorem update_without_text_dropped (host : Host) (update : value) (env : Env)
    (w : World) :
  has_text update = false ->
  handleTelegramUpdate host update env w
  = (if is_nullish update then Throw TypeError else Ok tt, w).
Proof.
  unfold has_text, member, handleTelegramUpdate. intros Hdrop.
  destruct update as [| | b | x | s | items | fields]; try reflexivity.
  cbn [getProp is_nullish] in *. unfold bind at 1, lift at 1.
  destruct (truthy (match assoc "message" fields with
                    | Some x => x
                    | None => JUndefined
                    end)) eqn:Hmessage; [| reflexivity].
  cbn [negb andb] in *. unfold bind at 1, lift at 1.
  destruct (match assoc "message" fields with
            | Some x => x
            | None => JUndefined
            end) as [| | b | x | s | items | message]; try discriminate Hmessage;
    cbn [getProp] in *; rewrite Hdrop; reflexivity.
Qed.

(** A run of C8: a message with a photo and no text. *)
Lemma update_without_text_dropped_witness :
  handleTelegramUpdate Reference.host
    (JObj [("update_id", JNum 1);
           ("message", JObj [("chat", JObj [("id", JNum 42)]);
                             ("photo", JArr [])])])
    demo_env (start_of net_providers_down)
  = (Ok tt, start_of net_providers_down).
Proof.
  apply (update_without_text_dropped Reference.host
           (JObj [("update_id", JNum 1);
                  ("message", JObj [("chat", JObj [("id", JNum 42)]);
                                    ("photo", JArr [])])])
           demo_env (start_of net_providers_down)).
  reflexivity.
Defined.

(** The payload [null], which a JSON body may hold, makes no call and
    raises the error. *)
Example null_update_raises :
  has_text JNull = false
  /\ handleTelegramUpdate Reference.host JNull demo_env (start_of net_providers_down)
     = (Throw TypeError, start_of net_providers_down).
Proof. split; reflexivity. Qed.

(** C8 fails as stated for the chat identifier: an update whose chat has
    no identifier is answered, with a send addressed to [undefined]; and
    one whose message has a text and no chat makes the dispatcher throw a
    [TypeError] before its [try] block. *)
Lemma update_without_chat_id_is_answered :
  handleTelegramUpdate Reference.host update_without_chat_id demo_env
    (start_of net_providers_down)
  = (Ok tt,
     extend (start_of net_providers_down)
       [send_request JUndefined help_text demo_env])
  /\ handleTelegramUpdate Reference.host update_without_chat demo_env
       (start_of net_providers_down)
     = (Throw TypeError, start_of net_providers_down).
Proof. split; vm_compute; reflexivity. Qed.

(** ** Claims about delivery and the number of sends *)

Section DispatchBounds.

Context (host : Host).

Lemma at_most_route (chatId : value) (text : string) (env : Env) :
  at_most 3 (route host chatId text env).
Proof.
  unfold route.
  destruct (_ || _); [apply (at_most_weaken 1); [lia | apply at_most_send_unit] |].
  destruct (String.eqb text "/top10");
    [apply (at_most_weaken 2); [lia | apply at_most_handleTop10Command] |].
  destruct (String.eqb text "/trending");
    [apply (at_most_weaken 2); [lia | apply at_most_handleTrendingCommand] |].
  destruct (String.eqb text "/pulse"); [apply at_most_handlePulseCommand |].
  destruct (String.eqb text "/global");
    [apply (at_most_weaken 2); [lia | apply at_most_handleGlobalCommand] |].
  destruct (startsWith text "/price ");
    [apply (at_most_weaken 2); [lia | apply at_most_handlePriceCommand] |].
  apply (at_most_weaken 0); [lia | apply at_most_ret].
Qed.

Lemma at_most_handleTelegramUpdate (update : value) (env : Env) :
  at_most 4 (handleTelegramUpdate host update env).
Proof.
  unfold handleTelegramUpdate.
  apply (at_most_bind 0 4); [apply at_most_lift | intros message].
  destruct (negb (truthy message)); [apply (at_most_weaken 0); [lia | apply at_most_ret] |].
  apply (at_most_bind 0 4); [apply at_most_lift | intros rawText].
  destruct (negb (truthy rawText)); [apply (at_most_weaken 0); [lia | apply at_most_ret] |].
  apply (at_most_bind 0 4); [apply at_most_lift | intros chatId].
  apply (at_most_bind 0 4); [apply at_most_lift | intros text].
  apply (at_most_try_catch 3 1); [apply at_most_route | intros; apply at_most_send_unit].
Qed.

Lemma worker_fetch_webhook (scheme authority : string) (update : value)
    (c : ascii) (token : string) (w : World) :
  let env := {| TELEGRAM_BOT_TOKEN := Some (String c token) |} in
  worker_fetch host (webhook_request scheme authority update) env w
  = (Ok {| resp_body := "OK"; resp_status := 200 |},
     snd (handleTelegramUpdate host update env w)).
Proof. reflexivity. Qed.

Lemma counts_dispatch (chatId : value) (command : Command) (env : Env) :
  counts (Some (sends_of command)) None
    (try_catch (execute host chatId command env)
       (fun _ => bind (sendMessage chatId dispatch_failed env) (fun _ => ret tt))).
Proof.
  destruct command; simpl execute; simpl sends_of.
  - apply counts_try_catch_never, counts_send_unit.
  - apply counts_try_catch_never, counts_handleTop10Command.
  - apply counts_try_catch_never, counts_handleTrendingCommand.
  - apply counts_try_catch_never, counts_handlePulseCommand.
  - apply counts_try_catch_never, counts_handleGlobalCommand.
  - apply (counts_try_catch 1 0 1);
      [apply counts_handlePriceCommand | intros; apply counts_send_unit | reflexivity].
  - apply counts_try_catch_never, counts_ret.
Qed.

End DispatchBounds.

(** What [routed] is on an update with a chat identifier and a text. *)
Lemma routed_update_with (host : Host) (chatId : value) (text : string) :
  routed host (update_with chatId text)
  = if String.eqb text EmptyString then None
    else Some (chatId, classify (toLowerCase host text)).
Proof. reflexivity. Qed.

(** C1, as the code has it: on a platform that accepts the sends, an
    update costs exactly the sends of its command: none when it has no
    message, no text or no chat, or when its text is no command; two for
    /pulse, the progress notice and the reply; one for every other
    command. *)
Theorem dispatch_send_count (host : Host) (update : value) (env : Env) (w : World) :
  accepts_sends (network w) ->
  exists r new,
    handleTelegramUpdate host update env w = (r, extend w new)
    /\ count_posts new
       = match routed host update with
         | Some (_, command) => sends_of command
         | None => 0%nat
         end.
Proof.
  intros Hacc. destruct (routed host update) as [[chatId command] |] eqn:Hrouted.
  - rewrite (handleTelegramUpdate_routed host update env chatId command w Hrouted).
    destruct (counts_dispatch host chatId command env w Hacc) as [r [new [Hrun Hr]]].
    exists r, new. split; [exact Hrun |].
    destruct r; [injection Hr as ->; reflexivity | discriminate].
  - exists (fst (handleTelegramUpdate host update env w)), [].
    rewrite extend_nil. split; [| reflexivity].
    rewrite <- (handleTelegramUpdate_unrouted host update env w Hrouted) at 3.
    apply surjective_pairing.
Qed.

(** A run of C1: "/top10" with the providers unreachable costs one send. *)
Lemma dispatch_send_count_witness :
  accepts_sends net_providers_down
  /\ exists r new,
       handleTelegramUpdate Reference.host (update_with (JNum 42) "/top10") demo_env
         (start_of net_providers_down)
       = (r, extend (start_of net_providers_down) new)
       /\ count_posts new = 1%nat.
Proof.
  assert (Hacc : accepts_sends net_providers_down)
    by (intros history url c t mode; eexists _, _; split; reflexivity).
  split; [exact Hacc |].
  exact (dispatch_send_count Reference.host (update_with (JNum 42) "/top10") demo_env
           (start_of net_providers_down) Hacc).
Defined.

(** C1 fails as stated for /pulse: with every send accepted the flow makes
    two send calls, the progress notice and then the reply. *)
Lemma pulse_sends_two_messages :
  accepts_sends net_providers_down
  /\ sent_texts (calls (snd (handleTelegramUpdate Reference.host
                               (update_with (JNum 42) "/pulse") demo_env
                               (start_of net_providers_down))))
     = [pulse_fetching; fixtures_reply Reference.host]
  /\ count_posts (calls (snd (handleTelegramUpdate Reference.host
                                (update_with (JNum 42) "/pulse") demo_env
                                (start_of net_providers_down)))) = 2%nat.
Proof.
  split; [intros history url c t mode; eexists _, _; split; reflexivity |].
  split; vm_compute; reflexivity.
Qed.

(** ** No text is sent twice *)

Lemma subsequence_nil {A} (L : list A) : subsequence [] L.
Proof. induction L; constructor; assumption. Qed.

Lemma subsequence_refl {A} (L : list A) : subsequence L L.
Proof. induction L; constructor; assumption. Qed.

Lemma subsequence_app {A} (l1 l2 L1 L2 : list A) :
  subsequence l1 L1 -> subsequence l2 L2 -> subsequence (l1 ++ l2) (L1 ++ L2).
Proof.
  intros H1 H2. induction H1; simpl; [exact H2 | |]; constructor; assumption.
Qed.

Lemma subsequence_trans {A} (l m L : list A) :
  subsequence l m -> subsequence m L -> subsequence l L.
Proof.
  intros H1 H2. revert l H1.
  induction H2 as [| x m L _ IH | x m L _ IH]; intros l H1.
  - exact H1.
  - constructor. apply IH. exact H1.
  - inversion H1; subst; constructor; apply IH; assumption.
Qed.

Lemma subsequence_In {A} (l L : list A) (x : A) :
  subsequence l L -> In x l -> In x L.
Proof.
  intros H. induction H; simpl; intros Hin; [exact Hin | right; auto |].
  destruct Hin as [-> | Hin]; [left; reflexivity | right; auto].
Qed.

Lemma subsequence_NoDup {A} (l L : list A) :
  subsequence l L -> NoDup L -> NoDup l.
Proof.
  intros H. induction H as [| x l L H IH | x l L H IH]; intros HL.
  - constructor.
  - inversion HL; subst. auto.
  - inversion HL; subst. constructor; [| auto].
    intros Hin. apply (subsequence_In _ _ _ H) in Hin. contradiction.
Qed.

Lemma within_weaken {A} (L L' : list string) (m : M A) :
  subsequence L L' -> within L m -> within L' m.
Proof.
  intros HL H w. destruct (H w) as [new [Hw Hs]]. exists new.
  split; [exact Hw | exact (subsequence_trans _ _ _ Hs HL)].
Qed.

Lemma within_silent {A} (L : list string) (m : M A) : at_most 0 m -> within L m.
Proof.
  intros H w. destruct (H w) as [new [Hw Hc]]. exists new. split; [exact Hw |].
  assert (Hnone : sent_texts new = []).
  { clear Hw. induction new as [| [url | url c t mode] rest IH]; [reflexivity | |].
    - apply IH. exact Hc.
    - unfold count_posts in Hc. simpl in Hc. lia. }
  rewrite Hnone. apply subsequence_nil.
Qed.

Lemma within_bind {A B} (L1 L2 : list string) (m : M A) (k : A -> M B) :
  within L1 m -> (forall a, fst_ok m a -> within L2 (k a)) ->
  within (L1 ++ L2) (bind m k).
Proof.
  intros Hm Hk w. unfold bind.
  destruct (Hm w) as [new1 [Hw1 Hs1]].
  destruct (m w) as [[a | e] w1] eqn:Hrun; simpl in *.
  - assert (Hok : fst_ok m a) by (exists w; rewrite Hrun; reflexivity).
    destruct (Hk a Hok w1) as [new2 [Hw2 Hs2]].
    exists (new1 ++ new2)%list. rewrite Hw2, Hw1, extend_extend.
    split; [reflexivity |]. rewrite sent_texts_app, map_app.
    apply subsequence_app; assumption.
  - exists new1. split; [exact Hw1 |].
    rewrite <- (app_nil_r (map tag (sent_texts new1))).
    apply subsequence_app; [exact Hs1 | apply subsequence_nil].
Qed.

Lemma within_try_catch {A} (L1 L2 : list string) (body : M A) (handler : error -> M A) :
  within L1 body -> (forall e, within L2 (handler e)) ->
  within (L1 ++ L2) (try_catch body handler).
Proof.
  intros Hm Hk w. unfold try_catch.
  destruct (Hm w) as [new1 [Hw1 Hs1]].
  destruct (body w) as [[a | e] w1]; simpl in *.
  - exists new1. split; [exact Hw1 |].
    rewrite <- (app_nil_r (map tag (sent_texts new1))).
    apply subsequence_app; [exact Hs1 | apply subsequence_nil].
  - destruct (Hk e w1) as [new2 [Hw2 Hs2]].
    exists (new1 ++ new2)%list. rewrite Hw2, Hw1, extend_extend.
    split; [reflexivity |]. rewrite sent_texts_app, map_app.
    apply subsequence_app; assumption.
Qed.

Lemma within_sendMessage (chatId : value) (text : string) (env : Env) :
  within [tag text] (sendMessage chatId text env).
Proof.
  intros w. exists [send_request chatId text env]. rewrite sendMessage_run.
  split; [reflexivity | apply subsequence_refl].
Qed.

Lemma within_send_unit (chatId : value) (text : string) (env : Env) :
  within [tag text] (bind (sendMessage chatId text env) (fun _ => ret tt)).
Proof.
  intros w. exists [send_request chatId text env]. rewrite send_unit_run.
  split; [reflexivity | apply subsequence_refl].
Qed.

Lemma rbind_ok {A B} (r : result A) (k : A -> result B) (b : B) :
  rbind r k = Ok b -> exists a, r = Ok a /\ k a = Ok b.
Proof. destruct r as [a | e]; simpl; [eauto | discriminate]. Qed.

(** Peels the binds off a successful pure computation. *)
Ltac peel H :=
  repeat (let a := fresh "a" in
          let Ha := fresh "Ha" in
          apply rbind_ok in H; destruct H as [a [Ha H]]).

Lemma fst_ok_lift {A} (r : result A) (a : A) : fst_ok (lift r) a -> r = Ok a.
Proof. intros [w H]. exact H. Qed.

Lemma tag_extends (p rest : string) :
  (5 <= String.length p)%nat -> tag (p ++ rest) = tag p.
Proof.
  unfold tag. revert p. generalize 5%nat as n.
  induction n as [| n IH]; intros p Hlen; [reflexivity |].
  destruct p as [| c p]; simpl in Hlen; [lia |].
  simpl. f_equal. apply IH. lia.
Qed.

Section Openings.

Context (host : Host).

Lemma forEachIndexed_extends (f : string -> value -> nat -> result string) :
  (forall message x index m, f message x index = Ok m -> exists rest, m = message ++ rest) ->
  forall items message index m,
    forEachIndexed f message items index = Ok m -> exists rest, m = message ++ rest.
Proof.
  intros Hf items. induction items as [| x items IH]; intros message index m H; simpl in H.
  - injection H as <-. exists EmptyString. rewrite append_nil_r. reflexivity.
  - apply rbind_ok in H. destruct H as [m1 [H1 H]].
    destruct (Hf _ _ _ _ H1) as [r1 ->].
    destruct (IH _ _ _ H) as [r2 ->].
    exists (r1 ++ r2). apply append_assoc.
Qed.

Lemma top10Item_extends (message : string) (coin : value) (index : nat) (m : string) :
  top10Item host message coin index = Ok m -> exists rest, m = message ++ rest.
Proof.
  unfold top10Item. intros H. peel H. injection H as <-. eexists. reflexivity.
Qed.

Lemma trendingItem_extends (message : string) (item : value) (index : nat) (m : string) :
  trendingItem host message item index = Ok m -> exists rest, m = message ++ rest.
Proof.
  unfold trendingItem. intros H. peel H. injection H as <-. eexists. reflexivity.
Qed.

Lemma appendCoins_extends (coins : list value) (message : string) (index : nat)
    (m : string) :
  appendCoins host message coins index = Ok m -> exists rest, m = message ++ rest.
Proof.
  revert message index m.
  induction coins as [| coin coins IH]; intros message index m H; simpl in H.
  - injection H as <-. exists EmptyString. rewrite append_nil_r. reflexivity.
  - apply rbind_ok in H. destruct H as [info [_ H]].
    destruct (IH _ _ _ H) as [r ->]. exists (info ++ r). apply append_assoc.
Qed.

Lemma appendSection_extends (message heading : string) (x : settled (list value))
    (m : string) :
  appendSection host message heading x = Ok m -> exists rest, m = message ++ rest.
Proof.
  unfold appendSection. intros H.
  destruct x as [v | e]; [| injection H as <-; exists EmptyString;
                            rewrite append_nil_r; reflexivity].
  destruct (0 <? length v)%nat;
    [| injection H as <-; exists EmptyString; rewrite append_nil_r; reflexivity].
  apply rbind_ok in H. destruct H as [m1 [H1 H]]. injection H as <-.
  destruct (appendCoins_extends _ _ _ _ H1) as [r ->].
  eexists. rewrite !append_assoc. reflexivity.
Qed.

Lemma tag_globalMessage (data : value) (m : string) :
  globalMessage host data = Ok m -> tag m = "🌍 ".
Proof.
  unfold globalMessage. intros H. peel H. injection H as <-. reflexivity.
Qed.

Lemma tag_priceMessage (data : value) (m : string) :
  priceMessage host data = Ok m -> tag m = "💰 ".
Proof.
  unfold priceMessage. intros H. peel H. injection H as <-. reflexivity.
Qed.

Lemma tag_price_not_found (coin : value) (m : string) :
  price_not_found host coin = Ok m -> tag m = "❌ C".
Proof.
  unfold price_not_found. intros H. peel H. injection H as <-. reflexivity.
Qed.

Lemma tag_price_failed (coin : value) (m : string) :
  price_failed host coin = Ok m -> tag m = "❌ F".
Proof.
  unfold price_failed. intros H. peel H. injection H as <-. reflexivity.
Qed.

Lemma tag_top10Message (data : value) (m : string) :
  top10Message host data = Ok m -> tag m = "📊 ".
Proof.
  unfold top10Message, forEachMethod. intros H. peel H. injection H as <-.
  destruct data as [| | | | | items |]; try discriminate.
  destruct (forEachIndexed_extends _ (top10Item_extends) _ _ _ _ Ha) as [r ->].
  rewrite !append_assoc. apply tag_extends. simpl. lia.
Qed.

Lemma tag_trendingMessage (data : value) (m : string) :
  trendingMessage host data = Ok m -> tag m = "🔥 ".
Proof.
  unfold trendingMessage, forEachMethod. intros H. peel H. injection H as <-.
  destruct a as [| | | | | items |]; try discriminate.
  destruct (forEachIndexed_extends _ (trendingItem_extends) _ _ _ _ Ha0) as [r ->].
  rewrite !append_assoc. apply tag_extends. simpl. lia.
Qed.

Lemma tag_pulseMessage (x y z : settled (list value)) (m : string) :
  pulseMessage host x y z = Ok m -> tag m = "🚀 ".
Proof.
  unfold pulseMessage. intros H. peel H.
  destruct (appendSection_extends _ _ _ _ Ha) as [r1 ->].
  destruct (appendSection_extends _ _ _ _ Ha0) as [r2 ->].
  destruct (appendSection_extends _ _ _ _ Ha1) as [r3 ->].
  injection H as <-.
  destruct (_ && _); [| destruct (_ && _)]; rewrite !append_assoc;
    apply tag_extends; simpl; lia.
Qed.

End Openings.

Ltac silent :=
  apply within_silent;
  first [ apply at_most_fetch_get | apply at_most_json | apply at_most_lift
        | apply at_most_throw | apply at_most_ret
        | apply at_most_settle, at_most_fetchAxiomPulseData ].

(** Walks through the calls of a [try] body that send nothing; stops at
    the pure computations, whose results matter. *)
Ltac quiet L :=
  lazymatch goal with
  | |- within _ (bind (lift _) _) => idtac
  | |- within _ (bind (sendMessage _ _ _) _) => idtac
  | |- within _ (bind _ _) =>
      apply (within_bind [] L); [silent | intros ? _; quiet L]
  | |- within _ (throw _) => silent
  | |- within _ (ret _) => silent
  | |- within _ (if ?c then _ else _) => destruct c; quiet L
  | _ => idtac
  end.

(** Enters the continuation of a lifted pure computation. *)
Ltac pure L a H :=
  apply (within_bind [] L); [silent | intros a H; apply fst_ok_lift in H].

Ltac pick := auto 12 using @subsequence_done, @subsequence_drop, @subsequence_keep.

Section NoRepeat.

Context (host : Host) (chatId : value) (env : Env).

Lemma within_send_tagged (text opening : string) (L : list string) :
  tag text = opening -> subsequence [opening] L ->
  within L (bind (sendMessage chatId text env) (fun _ => ret tt)).
Proof.
  intros <- HL. apply (within_weaken [tag text]); [exact HL | apply within_send_unit].
Qed.

Lemma within_handleGlobalCommand :
  within ["🌍 "; "❌ F"] (handleGlobalCommand host chatId env).
Proof.
  unfold handleGlobalCommand.
  apply (within_try_catch ["🌍 "] ["❌ F"]);
    [| intros; apply (within_send_tagged global_failed "❌ F"); [reflexivity | pick]].
  quiet ["🌍 "]. pure ["🌍 "] m Hm.
  apply (within_send_tagged m "🌍 "); [exact (tag_globalMessage host _ _ Hm) | pick].
Qed.

Lemma within_handleTrendingCommand :
  within ["🔥 "; "❌ F"] (handleTrendingCommand host chatId env).
Proof.
  unfold handleTrendingCommand.
  apply (within_try_catch ["🔥 "] ["❌ F"]);
    [| intros; apply (within_send_tagged trending_failed "❌ F"); [reflexivity | pick]].
  quiet ["🔥 "]. pure ["🔥 "] m Hm.
  apply (within_send_tagged m "🔥 "); [exact (tag_trendingMessage host _ _ Hm) | pick].
Qed.

Lemma within_handleTop10Command :
  within ["📊 "; "❌ F"] (handleTop10Command host chatId env).
Proof.
  unfold handleTop10Command.
  apply (within_try_catch ["📊 "] ["❌ F"]);
    [| intros; apply (within_send_tagged top10_failed "❌ F"); [reflexivity | pick]].
  quiet ["📊 "]. pure ["📊 "] m Hm.
  apply (within_send_tagged m "📊 "); [exact (tag_top10Message host _ _ Hm) | pick].
Qed.

Lemma within_handlePriceCommand (coin : value) :
  within ["❌ C"; "💰 "; "❌ F"] (handlePriceCommand host chatId coin env).
Proof.
  unfold handlePriceCommand.
  apply (within_try_catch ["❌ C"; "💰 "] ["❌ F"]).
  - pure ["❌ C"; "💰 "] query Hq. quiet ["❌ C"; "💰 "].
    pure ["❌ C"; "💰 "] coins Hc.
    destruct (_ || _).
    + pure ["❌ C"; "💰 "] m Hm.
      apply (within_send_tagged m "❌ C"); [exact (tag_price_not_found host _ _ Hm) | pick].
    + pure ["❌ C"; "💰 "] coinId Hid. pure ["❌ C"; "💰 "] idText Ht.
      quiet ["❌ C"; "💰 "]. pure ["❌ C"; "💰 "] m Hm.
      apply (within_send_tagged m "💰 "); [exact (tag_priceMessage host _ _ Hm) | pick].
  - intros e. pure ["❌ F"] m Hm.
    apply (within_send_tagged m "❌ F"); [exact (tag_price_failed host _ _ Hm) | pick].
Qed.

Lemma within_handlePulseCommand :
  within [tag pulse_fetching; "🚀 "; "❌ F"] (handlePulseCommand host chatId env).
Proof.
  unfold handlePulseCommand.
  apply (within_try_catch [tag pulse_fetching; "🚀 "] ["❌ F"]);
    [| intros; apply (within_send_tagged pulse_failed "❌ F"); [reflexivity | pick]].
  apply (within_bind [tag pulse_fetching] ["🚀 "]); [apply within_sendMessage | intros _ _].
  quiet ["🚀 "]. pure ["🚀 "] m Hm.
  apply (within_send_tagged m "🚀 "); [exact (tag_pulseMessage host _ _ _ _ Hm) | pick].
Qed.

Lemma within_route (text : string) :
  within [tag help_text; "📊 "; "🔥 "; tag pulse_fetching; "🚀 "; "🌍 ";
          "❌ C"; "💰 "; "❌ F"]
    (route host chatId text env).
Proof.
  unfold route.
  destruct (_ || _); [apply (within_send_tagged help_text (tag help_text));
                      [reflexivity | pick] |].
  destruct (String.eqb text "/top10");
    [eapply within_weaken; [| apply within_handleTop10Command]; pick |].
  destruct (String.eqb text "/trending");
    [eapply within_weaken; [| apply within_handleTrendingCommand]; pick |].
  destruct (String.eqb text "/pulse");
    [eapply within_weaken; [| apply within_handlePulseCommand]; pick |].
  destruct (String.eqb text "/global");
    [eapply within_weaken; [| apply within_handleGlobalCommand]; pick |].
  destruct (startsWith text "/price ");
    [eapply within_weaken; [| apply within_handlePriceCommand]; pick |].
  silent.
Qed.

End NoRepeat.

Lemma within_handleTelegramUpdate (host : Host) (update : value) (env : Env) :
  within dispatch_tags (handleTelegramUpdate host update env).
Proof.
  unfold handleTelegramUpdate.
  pure dispatch_tags message Hm.
  destruct (negb (truthy message)); [silent |].
  pure dispatch_tags rawText Ht.
  destruct (negb (truthy rawText)); [silent |].
  pure dispatch_tags chatId Hc. pure dispatch_tags text Hl.
  apply (within_try_catch
           [tag help_text; "📊 "; "🔥 "; tag pulse_fetching; "🚀 "; "🌍 ";
            "❌ C"; "💰 "; "❌ F"] [tag dispatch_failed]).
  - apply within_route.
  - intros e. apply within_send_unit.
Qed.

Lemma dispatch_tags_distinct : NoDup dispatch_tags.
Proof.
  unfold dispatch_tags.
  repeat (constructor; [simpl; intuition discriminate |]). constructor.
Qed.

Lemma handleTelegramUpdate_no_repeat (host : Host) (update : value) (env : Env)
    (w : World) :
  exists new,
    snd (handleTelegramUpdate host update env w) = extend w new
    /\ NoDup (sent_texts new).
Proof.
  destruct (within_handleTelegramUpdate host update env w) as [new [Hw Hs]].
  exists new. split; [exact Hw |].
  apply (NoDup_map_inv tag).
  exact (subsequence_NoDup _ _ Hs dispatch_tags_distinct).
Qed.

Lemma extend_inj (w : World) (a b : list request) : extend w a = extend w b -> a = b.
Proof.
  unfold extend. intros H. injection H as H. exact (app_inv_head _ _ _ H).
Qed.

Lemma handleTelegramUpdate_sends (host : Host) (update : value) (env : Env) (w : World) :
  exists new,
    snd (handleTelegramUpdate host update env w) = extend w new
    /\ NoDup (sent_texts new)
    /\ (count_posts new <= 4)%nat.
Proof.
  destruct (handleTelegramUpdate_no_repeat host update env w) as [new [Hw Hnd]].
  destruct (at_most_handleTelegramUpdate host update env w) as [new' [Hw' Hc]].
  rewrite Hw in Hw'. apply extend_inj in Hw'. subst new'.
  exists new. auto.
Qed.

(** *** What follows a rejected send *)

Lemma split_app {A} (l1 l2 pre : list A) (x : A) (post : list A) :
  (l1 ++ l2 = pre ++ x :: post)%list ->
  (exists post1, l1 = (pre ++ x :: post1)%list /\ post = (post1 ++ l2)%list)
  \/ (exists pre2, pre = (l1 ++ pre2)%list /\ l2 = (pre2 ++ x :: post)%list).
Proof.
  revert pre. induction l1 as [| a l1 IH]; intros pre H; simpl in H.
  - right. exists pre. split; [reflexivity | exact H].
  - destruct pre as [| b pre]; simpl in H; injection H as <- H.
    + left. exists l1. split; [reflexivity | symmetry; exact H].
    + destruct (IH pre H) as [[post1 [-> ->]] | [pre2 [-> ->]]].
      * left. exists post1. split; reflexivity.
      * right. exists pre2. split; reflexivity.
Qed.

Lemma split_single {A} (a : A) (pre : list A) (x : A) (post : list A) :
  [a] = (pre ++ x :: post)%list -> pre = [] /\ x = a /\ post = [].
Proof.
  destruct pre as [| b pre]; simpl; intros H; injection H as <- H.
  - subst post. auto.
  - destruct pre; discriminate H.
Qed.

Lemma split_nil {A} (pre : list A) (x : A) (post : list A) :
  [] = (pre ++ x :: post)%list -> False.
Proof. destruct pre; discriminate. Qed.

Lemma rejected_send_throws (chatId : value) (text : string) (env : Env) (w : World) :
  rejected (network w) (calls w) (send_request chatId text env) = true ->
  exists e, send_result (network w (calls w) (send_request chatId text env)) = Throw e.
Proof.
  unfold rejected, send_request.
  destruct (send_result _) as [d | e]; [discriminate | exists e; reflexivity].
Qed.

Lemma raises_silent {A} (m : M A) :
  (forall w, snd (m w) = w) -> raises m.
Proof.
  intros H w. exists []. rewrite extend_nil. split; [apply H |].
  intros pre rq post Heq. destruct (split_nil _ _ _ Heq).
Qed.

Lemma raises_ret {A} (a : A) : raises (ret a).
Proof. apply raises_silent. reflexivity. Qed.

Lemma raises_throw {A} (e : error) : raises (@throw A e).
Proof. apply raises_silent. reflexivity. Qed.

Lemma raises_lift {A} (r : result A) : raises (lift r).
Proof. apply raises_silent. reflexivity. Qed.

Lemma raises_json (r : response) : raises (json r).
Proof. unfold json. destruct (json_body r); [apply raises_ret | apply raises_throw]. Qed.

Lemma raises_fetch_get (url : string) : raises (fetch (HttpGet url)).
Proof.
  intros w. exists [HttpGet url]. split.
  - unfold fetch. destruct (network w (calls w) (HttpGet url)); reflexivity.
  - intros pre rq post Heq Hrej. apply split_single in Heq as [-> [-> ->]].
    discriminate Hrej.
Qed.

Lemma raises_settle_pulse (s : section) : raises (settle (fetchAxiomPulseData s)).
Proof.
  intros w. exists [HttpGet (endpoints s)]. split.
  - unfold settle. rewrite fetchAxiomPulseData_run. reflexivity.
  - intros pre rq post Heq Hrej. apply split_single in Heq as [-> [-> ->]].
    discriminate Hrej.
Qed.

Lemma raises_sendMessage (chatId : value) (text : string) (env : Env) :
  raises (sendMessage chatId text env).
Proof.
  intros w. exists [send_request chatId text env]. rewrite sendMessage_run.
  split; [reflexivity |].
  intros pre rq post Heq Hrej. apply split_single in Heq as [-> [-> ->]].
  rewrite app_nil_r in Hrej. split; [reflexivity |].
  exact (rejected_send_throws chatId text env w Hrej).
Qed.

Lemma raises_send_unit (chatId : value) (text : string) (env : Env) :
  raises (bind (sendMessage chatId text env) (fun _ => ret tt)).
Proof.
  intros w. exists [send_request chatId text env]. rewrite send_unit_run.
  split; [reflexivity |].
  intros pre rq post Heq Hrej. apply split_single in Heq as [-> [-> ->]].
  rewrite app_nil_r in Hrej. split; [reflexivity |].
  destruct (rejected_send_throws chatId text env w Hrej) as [e He].
  exists e. cbn [fst]. rewrite He. reflexivity.
Qed.

Lemma raises_bind {A B} (m : M A) (k : A -> M B) :
  raises m -> (forall a, raises (k a)) -> raises (bind m k).
Proof.
  intros Hm Hk w. unfold bind.
  destruct (Hm w) as [new1 [Hw1 H1]].
  destruct (m w) as [[a | e] w1]; cbn [fst snd] in *.
  - subst w1. destruct (Hk a (extend w new1)) as [new2 [Hw2 H2]].
    exists (new1 ++ new2)%list. rewrite Hw2, extend_extend. split; [reflexivity |].
    intros pre rq post Heq Hrej.
    apply split_app in Heq as [[post1 [-> ->]] | [pre2 [-> ->]]].
    + destruct (H1 pre rq post1 eq_refl Hrej) as [_ [e He]]. discriminate He.
    + apply (H2 pre2 rq post eq_refl). cbn [extend network calls].
      rewrite <- app_assoc. exact Hrej.
  - exists new1. split; [exact Hw1 |].
    intros pre rq post Heq Hrej.
    destruct (H1 pre rq post Heq Hrej) as [Hpost _].
    split; [exact Hpost | exists e; reflexivity].
Qed.

(** A [try] block whose [catch] sends a notice. *)
Lemma escalates_try_catch (chatId : value) (notice : string) (env : Env)
    (body : M unit) (handler : error -> M unit) :
  (forall e w, handler e w = bind (sendMessage chatId notice env) (fun _ => ret tt) w) ->
  raises body ->
  escalates (send_request chatId notice env) (try_catch body handler).
Proof.
  intros Hh Hb w. unfold try_catch.
  destruct (Hb w) as [new1 [Hw1 H1]].
  destruct (body w) as [[a | e] w1]; cbn [fst snd] in *.
  - exists new1. split; [exact Hw1 |].
    intros pre rq post Heq Hrej.
    destruct (H1 pre rq post Heq Hrej) as [_ [e He]]. discriminate He.
  - subst w1. rewrite Hh, send_unit_run.
    exists (new1 ++ [send_request chatId notice env])%list.
    rewrite extend_extend. split; [reflexivity |].
    intros pre rq post Heq Hrej.
    apply split_app in Heq as [[post1 [-> ->]] | [pre2 [-> Heq]]].
    + destruct (H1 pre rq post1 eq_refl Hrej) as [-> _]. left. reflexivity.
    + apply split_single in Heq as [-> [-> ->]]. right.
      split; [reflexivity |]. split; [reflexivity |].
      rewrite app_nil_r in Hrej.
      destruct (rejected_send_throws chatId notice env (extend w new1) Hrej) as [e' He'].
      exists e'. cbn [fst]. rewrite He'. reflexivity.
Qed.

(** The dispatcher's [try] block around a flow that has a notice of its
    own, and around one that has none. *)
Lemma answers_rejections_flow (chatId : value) (notice : string) (env : Env)
    (flow : M unit) :
  failure_notice notice ->
  escalates (send_request chatId notice env) flow ->
  answers_rejections env
    (try_catch flow (fun _ => bind (sendMessage chatId dispatch_failed env)
                                   (fun _ => ret tt))).
Proof.
  intros Hnotice Hflow w. unfold try_catch.
  destruct (Hflow w) as [new1 [Hw1 H1]].
  destruct (flow w) as [[a | e] w1]; cbn [fst snd] in *.
  - exists new1. split; [exact Hw1 |].
    intros pre rq post Heq Hrej.
    destruct (H1 pre rq post Heq Hrej) as [-> | [_ [_ [e He]]]]; [| discriminate He].
    left. exists chatId, notice, []. split; [reflexivity | exact Hnotice].
  - subst w1. rewrite send_unit_run.
    exists (new1 ++ [send_request chatId dispatch_failed env])%list.
    rewrite extend_extend. split; [reflexivity |].
    intros pre rq post Heq Hrej.
    apply split_app in Heq as [[post1 [-> ->]] | [pre2 [-> Heq]]].
    + left. destruct (H1 pre rq post1 eq_refl Hrej) as [-> | [-> _]].
      * exists chatId, notice, [send_request chatId dispatch_failed env].
        split; [reflexivity | exact Hnotice].
      * exists chatId, dispatch_failed, []. split; [reflexivity | constructor].
    + apply split_single in Heq as [-> [-> ->]]. right.
      split; [reflexivity |]. split; [exists chatId; reflexivity |].
      rewrite app_nil_r in Hrej.
      destruct (rejected_send_throws chatId dispatch_failed env (extend w new1) Hrej)
        as [e' He'].
      exists e'. cbn [fst]. rewrite He'. reflexivity.
Qed.

Lemma answers_rejections_plain (chatId : value) (env : Env) (flow : M unit) :
  raises flow ->
  answers_rejections env
    (try_catch flow (fun _ => bind (sendMessage chatId dispatch_failed env)
                                   (fun _ => ret tt))).
Proof.
  intros Hflow w. unfold try_catch.
  destruct (Hflow w) as [new1 [Hw1 H1]].
  destruct (flow w) as [[a | e] w1]; cbn [fst snd] in *.
  - exists new1. split; [exact Hw1 |].
    intros pre rq post Heq Hrej.
    destruct (H1 pre rq post Heq Hrej) as [_ [e He]]. discriminate He.
  - subst w1. rewrite send_unit_run.
    exists (new1 ++ [send_request chatId dispatch_failed env])%list.
    rewrite extend_extend. split; [reflexivity |].
    intros pre rq post Heq Hrej.
    apply split_app in Heq as [[post1 [-> ->]] | [pre2 [-> Heq]]].
    + left. destruct (H1 pre rq post1 eq_refl Hrej) as [-> _].
      exists chatId, dispatch_failed, []. split; [reflexivity | constructor].
    + apply split_single in Heq as [-> [-> ->]]. right.
      split; [reflexivity |]. split; [exists chatId; reflexivity |].
      rewrite app_nil_r in Hrej.
      destruct (rejected_send_throws chatId dispatch_failed env (extend w new1) Hrej)
        as [e' He'].
      exists e'. cbn [fst]. rewrite He'. reflexivity.
Qed.

(** Walks through a [try] block: a rejected send ends it. *)
Ltac rise :=
  lazymatch goal with
  | |- raises (bind (sendMessage _ _ _) (fun _ => ret tt)) => apply raises_send_unit
  | |- raises (bind _ _) =>
      apply raises_bind;
      [first [ apply raises_fetch_get | apply raises_json | apply raises_lift
             | apply raises_settle_pulse | apply raises_sendMessage ]
      | intros ?; rise]
  | |- raises (throw _) => apply raises_throw
  | |- raises (ret _) => apply raises_ret
  | |- raises (if ?c then _ else _) => destruct c; rise
  end.

Section Escalation.

Context (host : Host) (chatId : value) (env : Env).

Lemma escalates_handleGlobalCommand :
  escalates (send_request chatId global_failed env) (handleGlobalCommand host chatId env).
Proof.
  unfold handleGlobalCommand. apply escalates_try_catch; [reflexivity | rise].
Qed.

Lemma escalates_handleTrendingCommand :
  escalates (send_request chatId trending_failed env)
    (handleTrendingCommand host chatId env).
Proof.
  unfold handleTrendingCommand. apply escalates_try_catch; [reflexivity | rise].
Qed.

Lemma escalates_handleTop10Command :
  escalates (send_request chatId top10_failed env) (handleTop10Command host chatId env).
Proof.
  unfold handleTop10Command. apply escalates_try_catch; [reflexivity | rise].
Qed.

Lemma escalates_handlePulseCommand :
  escalates (send_request chatId pulse_failed env) (handlePulseCommand host chatId env).
Proof.
  unfold handlePulseCommand. apply escalates_try_catch; [reflexivity | rise].
Qed.

Lemma escalates_handlePriceCommand (term shown : string) :
  escaped term shown ->
  escalates
    (send_request chatId
       ("❌ Failed to fetch price for " ++ shown ++ "\. Please try again later\.") env)
    (handlePriceCommand host chatId (JStr term) env).
Proof.
  intros Hshown.
  rewrite (escaped_functional term shown _ Hshown (replace_class_escaped term)).
  unfold handlePriceCommand. apply escalates_try_catch; [| rise].
  intros e w. unfold price_failed. rewrite escapeMarkdown_string. reflexivity.
Qed.

Lemma answers_rejections_execute (command : Command) :
  answers_rejections env
    (try_catch (execute host chatId command env)
       (fun _ => bind (sendMessage chatId dispatch_failed env) (fun _ => ret tt))).
Proof.
  destruct command as [| | | | | term |]; cbn [execute].
  - apply answers_rejections_plain, raises_send_unit.
  - apply (answers_rejections_flow chatId top10_failed);
      [constructor | apply escalates_handleTop10Command].
  - apply (answers_rejections_flow chatId trending_failed);
      [constructor | apply escalates_handleTrendingCommand].
  - apply (answers_rejections_flow chatId pulse_failed);
      [constructor | apply escalates_handlePulseCommand].
  - apply (answers_rejections_flow chatId global_failed);
      [constructor | apply escalates_handleGlobalCommand].
  - apply (answers_rejections_flow chatId
             ("❌ Failed to fetch price for "
              ++ replace_class escape_class (fun m => bs ++ m) term
              ++ "\. Please try again later\."));
      [constructor | apply escalates_handlePriceCommand, replace_class_escaped].
  - apply answers_rejections_plain, raises_ret.
Qed.

End Escalation.

Lemma answers_rejections_handleTelegramUpdate (host : Host) (update : value) (env : Env) :
  answers_rejections env (handleTelegramUpdate host update env).
Proof.
  intros w. destruct (routed host update) as [[chatId command] |] eqn:Hrouted.
  - rewrite (handleTelegramUpdate_routed host update env chatId command w Hrouted).
    apply answers_rejections_execute.
  - exists []. rewrite extend_nil.
    split; [apply handleTelegramUpdate_unrouted; exact Hrouted |].
    intros pre rq post Heq. destruct (split_nil _ _ _ Heq).
Qed.

(** C9, as the code has it: [sendMessage] makes one call per invocation;
    when the platform is unreachable, answers with a non-success status or
    with a body that is not JSON, it rethrows the error to its caller and
    does not retry.  The error is answered with a failure notice: in each
    of the five flows a rejected send is followed by the send of the flow's
    own notice and nothing else, unless it is that notice, whose error
    leaves the flow; in a dispatch every rejected send is followed by the
    send of a failure notice, unless it is the dispatcher's notice, which
    is then the last call and whose error leaves the dispatcher.  One
    update costs at most four sends and no text is sent twice.  The webhook
    request is answered "OK" with status 200 whatever the outcome of the
    dispatch, which runs in the background. *)
Theorem delivery_failure_is_rethrown (host : Host) :
  (forall chatId text env w,
      sendMessage chatId text env w
      = (send_result (network w (calls w) (send_request chatId text env)),
         extend w [send_request chatId text env]))
  /\ send_result Unreachable = Throw NetworkError
  /\ (forall st body, ok_status st = false ->
        exists e, send_result (Response st body) = Throw e)
  /\ (forall update env w,
        exists new,
          snd (handleTelegramUpdate host update env w) = extend w new
          /\ NoDup (sent_texts new)
          /\ (count_posts new <= 4)%nat)
  /\ (forall scheme authority update c token w,
        let env := {| TELEGRAM_BOT_TOKEN := Some (String c token) |} in
        worker_fetch host (webhook_request scheme authority update) env w
        = (Ok {| resp_body := "OK"; resp_status := 200 |},
           snd (handleTelegramUpdate host update env w)))
  /\ (forall chatId env,
        escalates (send_request chatId global_failed env)
          (handleGlobalCommand host chatId env)
        /\ escalates (send_request chatId trending_failed env)
             (handleTrendingCommand host chatId env)
        /\ escalates (send_request chatId top10_failed env)
             (handleTop10Command host chatId env)
        /\ escalates (send_request chatId pulse_failed env)
             (handlePulseCommand host chatId env)
        /\ (forall term shown,
              escaped term shown ->
              escalates
                (send_request chatId
                   ("❌ Failed to fetch price for " ++ shown
                    ++ "\. Please try again later\.") env)
                (handlePriceCommand host chatId (JStr term) env)))
  /\ (forall update env w,
        exists new,
          snd (handleTelegramUpdate host update env w) = extend w new
          /\ forall pre rq post,
               new = (pre ++ rq :: post)%list ->
               rejected (network w) (calls w ++ pre) rq = true ->
               (exists chatId text rest,
                   post = send_request chatId text env :: rest /\ failure_notice text)
               \/ (post = []
                   /\ (exists chatId, rq = send_request chatId dispatch_failed env)
                   /\ exists e, fst (handleTelegramUpdate host update env w) = Throw e)).
Proof.
  split; [apply sendMessage_run |]. split; [reflexivity |].
  split.
  { intros st body Hst. simpl. destruct body as [data |].
    - rewrite Hst. eexists. reflexivity.
    - eexists. reflexivity. }
  split; [apply handleTelegramUpdate_sends |].
  split; [apply worker_fetch_webhook |].
  split.
  - intros chatId env.
    split; [apply escalates_handleGlobalCommand |].
    split; [apply escalates_handleTrendingCommand |].
    split; [apply escalates_handleTop10Command |].
    split; [apply escalates_handlePulseCommand |].
    intros term shown. apply escalates_handlePriceCommand.
  - intros update env. apply answers_rejections_handleTelegramUpdate.
Qed.

(** C9 fails as stated: when the platform rejects the help text of /start,
    a further send is attempted, the dispatcher's apology; it is rejected
    too and its error leaves the dispatcher. *)
Lemma rejected_send_is_followed_by_another :
  rejects_sends net_all_rejected
  /\ handleTelegramUpdate Reference.host (update_with (JNum 42) "/start") demo_env
       (start_of net_all_rejected)
     = (Throw (ApiError 400),
        extend (start_of net_all_rejected)
          [send_request (JNum 42) help_text demo_env;
           send_request (JNum 42) dispatch_failed demo_env]).
Proof.
  split; [intros history url c t mode; eexists _, _; split; reflexivity |].
  vm_compute. reflexivity.
Qed.

(** The bound of four is reached: /pulse when only the progress notice is
    accepted. *)
Example four_sends_for_pulse :
  sent_texts (calls (snd (handleTelegramUpdate Reference.host
                            (update_with (JNum 42) "/pulse") demo_env
                            (start_of net_first_send_only))))
  = [pulse_fetching; fixtures_reply Reference.host; pulse_failed; dispatch_failed].
Proof. vm_compute. reflexivity. Qed.

(** * Further properties of the code *)

(** ** The escaper on texts *)

Lemma replace_class_cons (c : ascii) (r : string) :
  replace_class escape_class (fun m => bs ++ m) (String c r)
  = if existsb (Ascii.eqb c) reserved
    then String "\" (String c (replace_class escape_class (fun m => bs ++ m) r))
    else String c (replace_class escape_class (fun m => bs ++ m) r).
Proof. reflexivity. Qed.

Lemma replace_class_app (a b : string) :
  replace_class escape_class (fun m => bs ++ m) (a ++ b)
  = replace_class escape_class (fun m => bs ++ m) a
    ++ replace_class escape_class (fun m => bs ++ m) b.
Proof.
  induction a as [| c a IH]; [reflexivity |].
  cbn [append]. rewrite !replace_class_cons, IH.
  destruct (existsb (Ascii.eqb c) reserved); reflexivity.
Qed.

Lemma replace_class_length (s : string) :
  String.length (replace_class escape_class (fun m => bs ++ m) s)
  = (String.length s + reserved_count s)%nat.
Proof.
  induction s as [| c s IH]; [reflexivity |].
  rewrite replace_class_cons. cbn [reserved_count].
  destruct (existsb (Ascii.eqb c) reserved); cbn [String.length]; rewrite IH; lia.
Qed.

Lemma replace_class_reserved_count (s : string) :
  reserved_count (replace_class escape_class (fun m => bs ++ m) s) = reserved_count s.
Proof.
  induction s as [| c s IH]; [reflexivity |].
  rewrite replace_class_cons. cbn [reserved_count].
  destruct (existsb (Ascii.eqb c) reserved) eqn:Hc; cbn [reserved_count];
    rewrite ?Hc, IH; reflexivity.
Qed.

Lemma replace_class_unreserved (s : string) :
  reserved_count s = 0%nat ->
  replace_class escape_class (fun m => bs ++ m) s = s.
Proof.
  induction s as [| c s IH]; [reflexivity |].
  rewrite replace_class_cons. cbn [reserved_count].
  destruct (existsb (Ascii.eqb c) reserved); intros H; [discriminate |].
  rewrite IH; [reflexivity | exact H].
Qed.

(** X1: in the text the escaper returns, every reserved character stands
    right after a backslash. *)
Theorem escapeMarkdown_guards_reserved (host : Host) (s : string) :
  exists t, escapeMarkdown host (JStr s) = Ok t /\ reserved_guarded t.
Proof.
  exists (replace_class escape_class (fun m => bs ++ m) s). split; [reflexivity |].
  induction s as [| a r IH]; intros before c after Ht Hc.
  - destruct before; discriminate.
  - rewrite replace_class_cons in Ht.
    destruct (existsb (Ascii.eqb a) reserved) eqn:Ha.
    + destruct before as [| b0 before]; cbn [append] in Ht.
      * injection Ht as <- _. exfalso. revert Hc. vm_compute. intuition discriminate.
      * injection Ht as <- Ht.
        destruct before as [| b1 before]; cbn [append] in Ht.
        -- exists EmptyString. reflexivity.
        -- injection Ht as <- Ht.
           destruct (IH before c after Ht Hc) as [start ->].
           exists (String "\" (String a start)). reflexivity.
    + destruct before as [| b0 before]; cbn [append] in Ht.
      * injection Ht as <- _. exfalso. apply in_class_reserved in Hc.
        change (in_class escape_class a) with (existsb (Ascii.eqb a) reserved) in Hc.
        congruence.
      * injection Ht as <- Ht.
        destruct (IH before c after Ht Hc) as [start ->].
        exists (String a start). reflexivity.
Qed.

(** X2: escaping a concatenation gives the concatenation of the escaped
    parts, so a caller may escape the pieces of a text one by one. *)
Theorem escapeMarkdown_append (host : Host) (a b : string) :
  exists ea eb,
    escapeMarkdown host (JStr a) = Ok ea
    /\ escapeMarkdown host (JStr b) = Ok eb
    /\ escapeMarkdown host (JStr (a ++ b)) = Ok (ea ++ eb).
Proof.
  eexists _, _. split; [reflexivity |]. split; [reflexivity |].
  simpl. rewrite replace_class_app. reflexivity.
Qed.

(** X3: the escaper adds one character for each reserved character, and
    adds as many again when applied to its own result: it is idempotent
    exactly on the texts without reserved character, which it returns
    unchanged. *)
Theorem escapeMarkdown_twice (host : Host) (s : string) :
  exists once twice,
    escapeMarkdown host (JStr s) = Ok once
    /\ escapeMarkdown host (JStr once) = Ok twice
    /\ String.length once = (String.length s + reserved_count s)%nat
    /\ String.length twice = (String.length s + 2 * reserved_count s)%nat
    /\ (twice = once <-> reserved_count s = 0%nat)
    /\ (once = s <-> reserved_count s = 0%nat).
Proof.
  eexists _, _. split; [reflexivity |]. split; [reflexivity |].
  split; [apply replace_class_length |].
  split; [rewrite !replace_class_length, replace_class_reserved_count; lia |].
  split; split; intros H.
  - apply (f_equal String.length) in H.
    rewrite !replace_class_length, replace_class_reserved_count in H. lia.
  - rewrite (replace_class_unreserved s H). apply replace_class_unreserved. exact H.
  - apply (f_equal String.length) in H. rewrite replace_class_length in H. lia.
  - apply replace_class_unreserved. exact H.
Qed.

(** ** The flows on a platform that accepts the sends *)

Lemma send_unit_accepted (chatId : value) (text : string) (env : Env) (w : World) :
  accepts_sends (network w) ->
  bind (sendMessage chatId text env) (fun _ => ret tt) w
  = (Ok tt, extend w [send_request chatId text env]).
Proof.
  intros Hacc. unfold bind.
  destruct (sendMessage_accepted chatId text env w Hacc) as [data ->]. reflexivity.
Qed.

(** The shape shared by the /global, /trending and /top10 handlers. *)
Lemma one_request_flow (url : string) (build : value -> result string)
    (failed : string) (chatId : value) (env : Env) (w : World) :
  accepts_sends (network w) ->
  try_catch
    (bind (fetch (HttpGet url)) (fun response =>
       if negb (ok response) then throw (ApiError (status response))
       else
         bind (json response) (fun data =>
           bind (lift (build data)) (fun message =>
             bind (sendMessage chatId message env) (fun _ => ret tt)))))
    (fun _ => bind (sendMessage chatId failed env) (fun _ => ret tt)) w
  = (Ok tt,
     extend w [HttpGet url;
               send_request chatId
                 (reply_of build failed (network w (calls w) (HttpGet url))) env]).
Proof.
  intros Hacc. unfold try_catch, bind at 1, fetch, reply_of.
  change {| network := network w; calls := (calls w ++ [HttpGet url])%list |}
    with (extend w [HttpGet url]).
  assert (Hacc' : accepts_sends (network (extend w [HttpGet url]))) by exact Hacc.
  destruct (network w (calls w) (HttpGet url)) as [| st body].
  - rewrite (send_unit_accepted _ _ _ _ Hacc'), extend_extend. reflexivity.
  - unfold ok. cbn [status]. fold (ok_status st).
    destruct (ok_status st); cbn [negb]; unfold throw;
      [| rewrite (send_unit_accepted _ _ _ _ Hacc'), extend_extend; reflexivity].
    unfold bind at 1, json. cbn [json_body].
    destruct body as [data |]; unfold ret, throw;
      [| rewrite (send_unit_accepted _ _ _ _ Hacc'), extend_extend; reflexivity].
    unfold bind at 1, lift.
    destruct (build data) as [message | e];
      rewrite !(send_unit_accepted _ _ _ _ Hacc'), extend_extend; reflexivity.
Qed.

(** X4: on a platform that accepts the sends, /global, /trending and
    /top10 each make one provider request and one send and return
    normally; the text sent is the message built from the answer when the
    answer is a success with a JSON body from which the message can be
    built, and the flow's apology in every other case (provider
    unreachable, non-success status, body that is not JSON, payload with a
    missing or ill-typed field). *)
Theorem one_request_flows_reply_or_apologize (host : Host) (chatId : value) (env : Env)
    (w : World) :
  accepts_sends (network w) ->
  let answer url := network w (calls w) (HttpGet url) in
  handleGlobalCommand host chatId env w
  = (Ok tt,
     extend w [HttpGet (COINGECKO_API ++ "/global");
               send_request chatId
                 (reply_of (globalMessage host) global_failed
                    (answer (COINGECKO_API ++ "/global"))) env])
  /\ handleTrendingCommand host chatId env w
     = (Ok tt,
        extend w [HttpGet (COINGECKO_API ++ "/search/trending");
                  send_request chatId
                    (reply_of (trendingMessage host) trending_failed
                       (answer (COINGECKO_API ++ "/search/trending"))) env])
  /\ handleTop10Command host chatId env w
     = (Ok tt,
        extend w [HttpGet markets_url;
                  send_request chatId
                    (reply_of (top10Message host) top10_failed (answer markets_url)) env]).
Proof.
  intros Hacc answer. split; [| split]; apply one_request_flow; exact Hacc.
Qed.

(** A run of X4: the providers are unreachable. *)
Lemma one_request_flows_reply_or_apologize_witness :
  accepts_sends net_providers_down
  /\ handleTop10Command Reference.host (JNum 42) demo_env (start_of net_providers_down)
     = (Ok tt,
        extend (start_of net_providers_down)
          [HttpGet markets_url; send_request (JNum 42) top10_failed demo_env]).
Proof.
  assert (Hacc : accepts_sends net_providers_down)
    by (intros history url c t mode; eexists _, _; split; reflexivity).
  split; [exact Hacc |].
  exact (proj2 (proj2 (one_request_flows_reply_or_apologize Reference.host (JNum 42)
                         demo_env (start_of net_providers_down) Hacc))).
Defined.



(** ** The /pulse flow in full *)

(** X6: on a platform that accepts the sends, /pulse sends the progress
    notice, asks for the three sections in the order new-pairs,
    final-stretch, migrated, and sends one reply: the message built from
    the three listings, or its apology when a listing that would be shown
    cannot be formatted; it returns normally. *)
Theorem pulse_flow_on_accepting_platform (host : Host) (chatId : value) (env : Env)
    (w : World) :
  accepts_sends (network w) ->
  let started := (calls w ++ [send_request chatId pulse_fetching env])%list in
  let newPairs :=
    section_listing NewPairs (network w started (HttpGet (endpoints NewPairs))) in
  let finalStretch :=
    section_listing FinalStretch
      (network w (started ++ [HttpGet (endpoints NewPairs)])%list
         (HttpGet (endpoints FinalStretch))) in
  let migrated :=
    section_listing Migrated
      (network w (started ++ [HttpGet (endpoints NewPairs);
                              HttpGet (endpoints FinalStretch)])%list
         (HttpGet (endpoints Migrated))) in
  let reply :=
    match pulseMessage host (Fulfilled newPairs) (Fulfilled finalStretch)
            (Fulfilled migrated) with
    | Ok message => message
    | Throw _ => pulse_failed
    end in
  handlePulseCommand host chatId env w
  = (Ok tt,
     extend w (send_request chatId pulse_fetching env :: pulse_gets
               ++ [send_request chatId reply env])).
Proof.
  intros Hacc started newPairs finalStretch migrated reply.
  unfold handlePulseCommand, try_catch.
  unfold bind at 1.
  destruct (sendMessage_accepted chatId pulse_fetching env w Hacc) as [d ->].
  unfold bind at 1. rewrite settle_pulse_run.
  unfold bind at 1. rewrite settle_pulse_run.
  unfold bind at 1. rewrite settle_pulse_run.
  cbn [network extend calls].
  rewrite <- !app_assoc. cbn [app].
  fold started. fold newPairs.
  change (calls w ++ [send_request chatId pulse_fetching env; HttpGet (endpoints NewPairs)])%list
    with (calls w ++ [send_request chatId pulse_fetching env] ++ [HttpGet (endpoints NewPairs)])%list.
  rewrite app_assoc. fold started. fold finalStretch.
  change (calls w ++ [send_request chatId pulse_fetching env; HttpGet (endpoints NewPairs);
                      HttpGet (endpoints FinalStretch)])%list
    with (calls w ++ [send_request chatId pulse_fetching env]
            ++ [HttpGet (endpoints NewPairs); HttpGet (endpoints FinalStretch)])%list.
  rewrite app_assoc. fold started. fold migrated.
  rewrite !extend_extend. cbn [app].
  assert (Hacc3 : accepts_sends
                    (network (extend w [send_request chatId pulse_fetching env;
                                        HttpGet (endpoints NewPairs);
                                        HttpGet (endpoints FinalStretch);
                                        HttpGet (endpoints Migrated)])))
    by exact Hacc.
  unfold lift, bind at 1. subst reply.
  destruct (pulseMessage host (Fulfilled newPairs) (Fulfilled finalStretch)
              (Fulfilled migrated)) as [message | e];
    rewrite !(send_unit_accepted _ _ _ _ Hacc3), extend_extend; reflexivity.
Qed.

(** A run of X6: the providers are unreachable. *)
Lemma pulse_flow_on_accepting_platform_witness :
  accepts_sends net_providers_down
  /\ handlePulseCommand Reference.host (JNum 42) demo_env (start_of net_providers_down)
     = (Ok tt,
        extend (start_of net_providers_down)
          (send_request (JNum 42) pulse_fetching demo_env :: pulse_gets
           ++ [send_request (JNum 42) (fixtures_reply Reference.host) demo_env])).
Proof.
  assert (Hacc : accepts_sends net_providers_down)
    by (intros history url c t mode; eexists _, _; split; reflexivity).
  split; [exact Hacc |].
  rewrite (pulse_flow_on_accepting_platform Reference.host (JNum 42) demo_env
             (start_of net_providers_down) Hacc).
  vm_compute. reflexivity.
Defined.

(** X7: when the platform rejects the progress notice of /pulse, no
    section is requested: the only other call is the send of the
    apology. *)
Theorem pulse_stops_when_notice_rejected (host : Host) (chatId : value) (env : Env)
    (w : World) (e : error) :
  send_result (network w (calls w) (send_request chatId pulse_fetching env)) = Throw e ->
  snd (handlePulseCommand host chatId env w)
  = extend w [send_request chatId pulse_fetching env;
              send_request chatId pulse_failed env].
Proof.
  intros Hrejected. unfold handlePulseCommand, try_catch.
  unfold bind at 1. rewrite sendMessage_run, Hrejected.
  rewrite send_unit_run, extend_extend. reflexivity.
Qed.

(** A run of X7: the platform rejects every send. *)
Lemma pulse_stops_when_notice_rejected_witness :
  snd (handlePulseCommand Reference.host (JNum 42) demo_env (start_of net_all_rejected))
  = extend (start_of net_all_rejected)
      [send_request (JNum 42) pulse_fetching demo_env;
       send_request (JNum 42) pulse_failed demo_env].
Proof.
  apply (pulse_stops_when_notice_rejected Reference.host (JNum 42) demo_env
           (start_of net_all_rejected) (ApiError 400)).
  reflexivity.
Defined.

(** ** The cap of five listings *)

Lemma firstn_firstn_same {A} (n : nat) (l : list A) : firstn n (firstn n l) = firstn n l.
Proof.
  revert l. induction n as [| n IH]; intros l; [reflexivity |].
  destruct l as [| x l]; simpl; [reflexivity | rewrite IH; reflexivity].
Qed.

Lemma appendSection_first_five (host : Host) (message heading : string)
    (v : list value) :
  appendSection host message heading (Fulfilled v)
  = appendSection host message heading (Fulfilled (firstn 5 v)).
Proof.
  unfold appendSection. rewrite firstn_firstn_same.
  destruct v as [| x v]; reflexivity.
Qed.

(** X8: the reply of /pulse depends on the first five listings of each
    section only: what a provider lists beyond the fifth is neither shown
    nor looked at, so it cannot make the reply fail. *)
Theorem pulseMessage_first_five (host : Host) (a b c : list value) :
  pulseMessage host (Fulfilled a) (Fulfilled b) (Fulfilled c)
  = pulseMessage host (Fulfilled (firstn 5 a)) (Fulfilled (firstn 5 b))
      (Fulfilled (firstn 5 c)).
Proof.
  rewrite !pulseMessage_fulfilled. unfold pulse_sections.
  rewrite (appendSection_first_five host _ _ a).
  destruct (appendSection host _ _ (Fulfilled (firstn 5 a))) as [m1 | e]; [| reflexivity].
  cbn [rbind]. rewrite (appendSection_first_five host _ _ b).
  destruct (appendSection host _ _ (Fulfilled (firstn 5 b))) as [m2 | e]; [| reflexivity].
  cbn [rbind]. rewrite (appendSection_first_five host _ _ c).
  destruct (appendSection host _ _ (Fulfilled (firstn 5 c))) as [m3 | e]; [| reflexivity].
  cbn [rbind]. destruct a, b, c; reflexivity.
Qed.

(** A sixth listing that is [null] does no harm, a first one does. *)
Example sixth_listing_is_not_formatted :
  (exists text, pulseMessage Reference.host (Fulfilled six_pairs) (Fulfilled []) (Fulfilled [])
                = Ok text)
  /\ pulseMessage Reference.host (Fulfilled [JNull]) (Fulfilled []) (Fulfilled [])
     = Throw TypeError.
Proof. split; [eexists; vm_compute; reflexivity | vm_compute; reflexivity]. Qed.

(** ** The dispatcher on a platform that accepts the sends *)

(** X9: on a platform that accepts the sends, the dispatch of an update
    that has a chat identifier and a text returns normally, whatever the
    providers answer: no error of a flow leaves the dispatcher. *)
Theorem dispatch_completes_on_accepting_platform (host : Host) (update : value)
    (env : Env) (w : World) (chatId : value) (command : Command) :
  accepts_sends (network w) ->
  routed host update = Some (chatId, command) ->
  fst (handleTelegramUpdate host update env w) = Ok tt.
Proof.
  intros Hacc Hrouted.
  rewrite (handleTelegramUpdate_routed host update env chatId command w Hrouted).
  destruct (counts_dispatch host chatId command env w Hacc) as [r [new [Hrun Hr]]].
  rewrite Hrun. destruct r as [[] | e]; [reflexivity | discriminate].
Qed.

(** A run of X9: "/price bit" when the detail answer has no market data. *)
Lemma dispatch_completes_on_accepting_platform_witness :
  fst (handleTelegramUpdate Reference.host (update_with (JNum 42) "/price bit") demo_env
         (start_of net_two_hits)) = Ok tt.
Proof.
  apply (dispatch_completes_on_accepting_platform Reference.host
           (update_with (JNum 42) "/price bit") demo_env (start_of net_two_hits)
           (JNum 42) (Price "bit")).
  - intros history url c t mode. eexists _, _. split; reflexivity.
  - reflexivity.
Defined.

(** ** What a dispatch may call *)

Lemma only_calls_none {A} (P : request -> Prop) (m : M A) :
  (forall w, snd (m w) = w) -> only_calls P m.
Proof.
  intros H w. exists []. rewrite extend_nil. split; [apply H | constructor].
Qed.

Lemma only_calls_bind {A B} (P : request -> Prop) (m : M A) (k : A -> M B) :
  only_calls P m -> (forall a, fst_ok m a -> only_calls P (k a)) ->
  only_calls P (bind m k).
Proof.
  intros Hm Hk w. unfold bind.
  destruct (Hm w) as [new1 [Hw1 Hp1]].
  destruct (m w) as [[a | e] w1] eqn:Hrun; simpl in *.
  - assert (Hok : fst_ok m a) by (exists w; rewrite Hrun; reflexivity).
    destruct (Hk a Hok w1) as [new2 [Hw2 Hp2]].
    exists (new1 ++ new2)%list. rewrite Hw2, Hw1, extend_extend.
    split; [reflexivity | apply Forall_app; split; assumption].
  - exists new1. split; assumption.
Qed.

Lemma only_calls_try_catch {A} (P : request -> Prop) (body : M A)
    (handler : error -> M A) :
  only_calls P body -> (forall e, only_calls P (handler e)) ->
  only_calls P (try_catch body handler).
Proof.
  intros Hm Hk w. unfold try_catch.
  destruct (Hm w) as [new1 [Hw1 Hp1]].
  destruct (body w) as [[a | e] w1]; simpl in *.
  - exists new1. split; assumption.
  - destruct (Hk e w1) as [new2 [Hw2 Hp2]].
    exists (new1 ++ new2)%list. rewrite Hw2, Hw1, extend_extend.
    split; [reflexivity | apply Forall_app; split; assumption].
Qed.

Lemma only_calls_fetch (P : request -> Prop) (rq : request) :
  P rq -> only_calls P (fetch rq).
Proof.
  intros H w. exists [rq]. unfold fetch.
  destruct (network w (calls w) rq); simpl; (split; [reflexivity | repeat constructor; exact H]).
Qed.

Lemma only_calls_json (P : request -> Prop) (r : response) : only_calls P (json r).
Proof. apply only_calls_none. intros w. unfold json. destruct (json_body r); reflexivity. Qed.

Lemma only_calls_sendMessage (P : request -> Prop) (chatId : value) (text : string)
    (env : Env) :
  P (send_request chatId text env) -> only_calls P (sendMessage chatId text env).
Proof.
  intros H w. exists [send_request chatId text env]. rewrite sendMessage_run.
  split; [reflexivity | repeat constructor; exact H].
Qed.

Lemma only_calls_send_unit (P : request -> Prop) (chatId : value) (text : string)
    (env : Env) :
  P (send_request chatId text env) ->
  only_calls P (bind (sendMessage chatId text env) (fun _ => ret tt)).
Proof.
  intros H w. exists [send_request chatId text env]. rewrite send_unit_run.
  split; [reflexivity | repeat constructor; exact H].
Qed.

Lemma only_calls_settle_pulse (P : request -> Prop) (s : section) :
  P (HttpGet (endpoints s)) -> only_calls P (settle (fetchAxiomPulseData s)).
Proof.
  intros H w. exists [HttpGet (endpoints s)]. rewrite settle_pulse_run.
  split; [reflexivity | repeat constructor; exact H].
Qed.

(** Walks through a handler; leaves the facts about its requests. *)
Ltac confine :=
  lazymatch goal with
  | |- only_calls _ (try_catch _ _) =>
      apply only_calls_try_catch; [confine | intros ?; confine]
  | |- only_calls _ (bind (sendMessage _ _ _) (fun _ => ret tt)) =>
      apply only_calls_send_unit
  | |- only_calls _ (bind (sendMessage _ _ _) _) =>
      apply only_calls_bind; [apply only_calls_sendMessage | intros ? _; confine]
  | |- only_calls _ (bind (fetch _) _) =>
      apply only_calls_bind; [apply only_calls_fetch | intros ? _; confine]
  | |- only_calls _ (bind (json _) _) =>
      apply only_calls_bind; [apply only_calls_json | intros ? _; confine]
  | |- only_calls _ (bind (lift _) _) =>
      apply only_calls_bind;
      [apply only_calls_none; reflexivity | intros ? _; confine]
  | |- only_calls _ (bind (settle (fetchAxiomPulseData _)) _) =>
      apply only_calls_bind; [apply only_calls_settle_pulse | intros ? _; confine]
  | |- only_calls _ (throw _) => apply only_calls_none; reflexivity
  | |- only_calls _ (ret _) => apply only_calls_none; reflexivity
  | |- only_calls _ (if ?c then _ else _) => destruct c; confine
  | _ => idtac
  end.

Section Confinement.

Context (host : Host) (update : value) (env : Env) (chatId : value).
Context (Hchat : path update ["message"; "chat"; "id"] = Ok chatId).

Lemma permitted_send (text : string) :
  permitted update env (send_request chatId text env).
Proof. unfold send_request. simpl. auto. Qed.

Lemma permitted_coingecko (rest : string) :
  permitted update env (HttpGet (COINGECKO_API ++ rest)).
Proof. left. exists rest. reflexivity. Qed.

Lemma permitted_axiom (s : section) : permitted update env (HttpGet (endpoints s)).
Proof. right. exists ("/pulse/" ++ section_name s). reflexivity. Qed.

Lemma only_calls_route (text : string) :
  only_calls (permitted update env) (route host chatId text env).
Proof.
  unfold route, handleTop10Command, handleTrendingCommand, handlePulseCommand,
    handleGlobalCommand, handlePriceCommand.
  repeat match goal with
         | |- only_calls _ (if ?c then _ else _) => destruct c
         end;
    confine;
    first [ apply permitted_send | apply permitted_axiom
          | apply permitted_coingecko
          | rewrite <- append_assoc; apply permitted_coingecko ].
Qed.

End Confinement.

(** X10: whatever the update and whatever the network answers, every call
    of a dispatch is a request to one of the two providers or a send
    through the bot's [sendMessage] method, addressed to the chat of the
    update and declared as MarkdownV2. *)
Theorem dispatch_calls_are_permitted (host : Host) (update : value) (env : Env)
    (w : World) :
  exists new,
    snd (handleTelegramUpdate host update env w) = extend w new
    /\ Forall (permitted update env) new.
Proof.
  revert w. change (only_calls (permitted update env) (handleTelegramUpdate host update env)).
  unfold handleTelegramUpdate.
  apply only_calls_bind; [apply only_calls_none; reflexivity | intros message Hm].
  apply fst_ok_lift in Hm.
  destruct (negb (truthy message)); [apply only_calls_none; reflexivity |].
  apply only_calls_bind; [apply only_calls_none; reflexivity | intros rawText _].
  destruct (negb (truthy rawText)); [apply only_calls_none; reflexivity |].
  apply only_calls_bind; [apply only_calls_none; reflexivity | intros chatId Hc].
  apply fst_ok_lift in Hc.
  assert (Hchat : path update ["message"; "chat"; "id"] = Ok chatId).
  { cbn [path]. rewrite Hm. exact Hc. }
  apply only_calls_bind; [apply only_calls_none; reflexivity | intros text _].
  apply only_calls_try_catch.
  - apply only_calls_route. exact Hchat.
  - intros e. apply only_calls_send_unit. apply permitted_send. exact Hchat.
Qed.

(** ** The entry point *)

Lemma setWebhook_returns (host : Host) (url : string) (env : Env) (w : World) :
  exists response,
    setWebhook host url env w = (Ok response, extend w [setup_request env url])
    /\ (response = {| resp_body := "Webhook set successfully!"; resp_status := 200 |}
        <-> exists st result,
              network w (calls w) (setup_request env url) = Response st (Some result)
              /\ ok_status st = true)
    /\ (network w (calls w) (setup_request env url) = Unreachable
        \/ (exists st, network w (calls w) (setup_request env url) = Response st None) ->
        response = {| resp_body := "Failed to set webhook"; resp_status := 500 |}).
Proof.
  unfold setWebhook, try_catch, bind at 1, fetch. fold (setup_request env url).
  change {| network := network w; calls := (calls w ++ [setup_request env url])%list |}
    with (extend w [setup_request env url]).
  destruct (network w (calls w) (setup_request env url)) as [| st body].
  - eexists. split; [reflexivity |]. split; [| reflexivity].
    split; [discriminate | intros [st [result [H _]]]; discriminate].
  - unfold bind at 1, json. cbn [json_body].
    destruct body as [result |]; unfold ret, throw.
    + unfold ok. cbn [status]. fold (ok_status st).
      destruct (ok_status st) eqn:Hok.
      * eexists. split; [reflexivity |]. split.
        -- split; [intros _; exists st, result; auto | reflexivity].
        -- intros [H | [st' H]]; discriminate.
      * unfold bind, lift.
        destruct (rbind (getProp result "description") (fun d => toStringOp host d))
          as [description | e]; [unfold newResponse, throw, ret |];
          repeat match goal with
                 | |- context [if ?c then _ else _] => destruct c
                 end;
          (eexists; split; [reflexivity |]; split;
           [split; [intros H; injection H as _ H; try discriminate H;
                    rewrite H in Hok; discriminate
                   | intros [st' [r' [H Hok']]]; injection H as <- _; congruence]
           | intros [H | [st' H]]; discriminate]).
    + eexists. split; [reflexivity |]. split; [| reflexivity].
      split; [discriminate | intros [st' [r' [H _]]]; discriminate].
Qed.

(** X11: the entry point always answers: whatever the request, the
    environment and the network do, it returns a response and raises no
    error. *)
Theorem worker_fetch_always_answers (host : Host) (request : Request) (env : Env)
    (w : World) :
  exists response, fst (worker_fetch host request env w) = Ok response.
Proof.
  unfold worker_fetch.
  destruct (negb (token_configured env)); [eexists; reflexivity |].
  unfold try_catch.
  match goal with
  | |- context [let (r, w') := ?body w in _] => destruct (body w) as [[response | e] w1]
  end; eexists; reflexivity.
Qed.

(** X12: a request that is not served makes no call and dispatches
    nothing: without a configured token every request is answered 500;
    with one, a webhook request whose body is not JSON is answered 500 and
    a request for any other method and path than the webhook's and the
    registration's is answered 404. *)
Theorem unserved_request_makes_no_call (host : Host) (request : Request) (env : Env)
    (w : World) :
  served request env = false ->
  worker_fetch host request env w = (Ok (refusal request env), w).
Proof.
  unfold served, refusal, worker_fetch, is_webhook, is_setup.
  destruct (token_configured env); cbn [negb andb]; [| reflexivity].
  unfold try_catch.
  destruct (String.eqb (method request) "POST" && String.eqb (pathname request) WEBHOOK_ENDPOINT).
  - destruct (body request); [discriminate | reflexivity].
  - cbn [andb orb negb].
    destruct (String.eqb (method request) "GET" && String.eqb (pathname request) "/setwebhook");
      [discriminate | reflexivity].
Qed.

(** A run of X12: a GET of the webhook's path. *)
Lemma unserved_request_makes_no_call_witness :
  worker_fetch Reference.host
    {| method := "GET"; protocol := "https:"; host_port := "bot.example.workers.dev";
       pathname := "/webhook"; body := None |}
    demo_env (start_of net_providers_down)
  = (Ok {| resp_body := "Not Found"; resp_status := 404 |}, start_of net_providers_down).
Proof.
  apply (unserved_request_makes_no_call Reference.host
           {| method := "GET"; protocol := "https:"; host_port := "bot.example.workers.dev";
              pathname := "/webhook"; body := None |}
           demo_env (start_of net_providers_down)).
  reflexivity.
Defined.

(** X13: a GET of /setwebhook, with a configured token, asks the platform
    once to register the worker's own address followed by /webhook,
    URI-encoded, and makes no other call.  It reports success exactly when
    the platform answers with a success status and a JSON body, and
    "Failed to set webhook" with status 500 when the platform is
    unreachable or its body is not JSON; it never raises. *)
Theorem setup_registers_own_address (host : Host) (request : Request) (env : Env)
    (w : World) (encoded : string) :
  token_configured env = true ->
  method request = "GET" ->
  pathname request = "/setwebhook" ->
  encodeURIComponent host ((protocol request ++ "//" ++ host_port request) ++ WEBHOOK_ENDPOINT)
    = Some encoded ->
  let answer := network w (calls w) (setup_request env encoded) in
  exists response,
    worker_fetch host request env w = (Ok response, extend w [setup_request env encoded])
    /\ (response = {| resp_body := "Webhook set successfully!"; resp_status := 200 |}
        <-> exists st result, answer = Response st (Some result) /\ ok_status st = true)
    /\ (answer = Unreachable \/ (exists st, answer = Response st None) ->
        response = {| resp_body := "Failed to set webhook"; resp_status := 500 |}).
Proof.
  intros Htoken Hmethod Hpath Hencoded answer.
  destruct (setWebhook_returns host encoded env w) as [response [Hrun Hfacts]].
  exists response. split; [| exact Hfacts].
  unfold worker_fetch. rewrite Htoken, Hmethod, Hpath. cbn [negb String.eqb Ascii.eqb Bool.eqb andb].
  unfold try_catch, bind at 1, lift, encodeURIComponentOf. cbn [toStringOp rbind].
  rewrite Hencoded, Hrun. reflexivity.
Qed.

(** A run of X13: the platform accepts the registration. *)
Lemma setup_registers_own_address_witness :
  exists response,
    worker_fetch Reference.host
      {| method := "GET"; protocol := "https:"; host_port := "bot.example.workers.dev";
         pathname := "/setwebhook"; body := None |}
      demo_env (start_of net_setup_accepted)
    = (Ok response,
       extend (start_of net_setup_accepted)
         [setup_request demo_env "https%3A%2F%2Fbot.example.workers.dev%2Fwebhook"])
    /\ response = {| resp_body := "Webhook set successfully!"; resp_status := 200 |}.
Proof.
  destruct (setup_registers_own_address Reference.host
              {| method := "GET"; protocol := "https:";
                 host_port := "bot.example.workers.dev";
                 pathname := "/setwebhook"; body := None |}
              demo_env (start_of net_setup_accepted)
              "https%3A%2F%2Fbot.example.workers.dev%2Fwebhook"
              eq_refl eq_refl eq_refl eq_refl)
    as [response [Hrun [Hsuccess _]]].
  exists response. split; [exact Hrun |].
  apply Hsuccess. eexists _, _. split; reflexivity.
Defined.

(** ** Listings the formatter accepts and rejects *)

Section WellTyped.

Context (host : Host).

Lemma escapeMarkdown_scalar (v : value) :
  scalar v = true -> exists text, escapeMarkdown host v = Ok text.
Proof.
  destruct v as [| | [] | x | s | items | fields]; intros H; try discriminate;
    eexists; reflexivity.
Qed.

Lemma toLocaleString_scalar (v : value) :
  scalar v = true -> truthy v = true ->
  exists text, toLocaleStringMethod host v = Ok text.
Proof.
  destruct v as [| | [] | x | s | items | fields]; intros H Ht; try discriminate;
    eexists; reflexivity.
Qed.

Lemma toString_scalar (v : value) :
  scalar v = true -> truthy v = true ->
  exists text, toStringMethod host v = Ok text.
Proof.
  destruct v as [| | [] | x | s | items | fields]; intros H Ht; try discriminate;
    eexists; reflexivity.
Qed.

Lemma optional_line_total (label suffix : string) (render : value -> result string)
    (v : value) :
  (truthy v = true -> exists text, render v = Ok text) ->
  exists line, optional_line host label render suffix v = Ok line.
Proof.
  intros H. unfold optional_line.
  destruct (truthy v); [| eexists; reflexivity].
  destruct (H eq_refl) as [text ->]. eexists. reflexivity.
Qed.

End WellTyped.

(** X14: the pulse formatter succeeds on every record whose fields are
    well typed: each of the ten fields it reads is absent or a scalar,
    change24h is a number when it is truthy and symbol is a string when it
    is truthy. *)
Theorem formatCoinInfo_accepts_well_typed (host : Host) (fields : list (string * value))
    (index : nat) :
  (forall key, In key listing_keys -> scalar (field fields key) = true) ->
  (truthy (field fields "change24h") = true ->
   exists x, field fields "change24h" = JNum x) ->
  (truthy (field fields "symbol") = true ->
   exists s, field fields "symbol" = JStr s) ->
  exists text, formatCoinInfo host (JObj fields) index = Ok text.
Proof.
  intros Hscalar Hchange Hsymbol.
  assert (Hs : forall key, In key listing_keys -> scalar (field fields key) = true)
    by exact Hscalar.
  rewrite formatCoinInfo_listing. unfold listing, change_line, title_line.
  assert (Hc : exists line,
    (if truthy (field fields "change24h")
     then match field fields "change24h" with
          | JNum x =>
              (esc <- escapeMarkdown host (JStr (numberToFixed host 2 x)) ;;
               Ok ((if ge_zero x then "🟢" else "🔴") ++ " 24h: " ++ esc ++ "\%" ++ nl))%res
          | _ => Throw TypeError
          end
     else Ok ("🟢 24h: 0\.00\%" ++ nl)) = Ok line).
  { destruct (truthy (field fields "change24h")); [| eexists; reflexivity].
    destruct (Hchange eq_refl) as [x ->]. eexists. reflexivity. }
  destruct Hc as [change ->]. cbn [rbind].
  assert (Hn : exists text,
    escapeMarkdown host (js_or (field fields "name") (JStr "Unknown")) = Ok text).
  { apply escapeMarkdown_scalar. unfold js_or.
    destruct (truthy (field fields "name")); [| reflexivity].
    apply Hs. simpl. auto. }
  destruct Hn as [escName ->]. cbn [rbind].
  assert (Hu : exists text,
    toUpperCaseMethod host (js_or (field fields "symbol") (JStr "N/A")) = Ok text).
  { unfold js_or. destruct (truthy (field fields "symbol")); [| eexists; reflexivity].
    destruct (Hsymbol eq_refl) as [s ->]. eexists. reflexivity. }
  destruct Hu as [upper ->]. cbn [rbind]. rewrite escapeMarkdown_string. cbn [rbind].
  repeat match goal with
         | |- context [optional_line host ?l ?r ?s (field fields ?k)] =>
             let line := fresh "line" in
             let H := fresh "H" in
             assert (H : exists line, optional_line host l r s (field fields k) = Ok line)
               by (apply optional_line_total; intros Ht;
                   first [ apply toLocaleString_scalar | apply toString_scalar ];
                   [apply Hs; simpl; tauto | exact Ht]);
             destruct H as [line ->]; cbn [rbind]
         end.
  eexists. reflexivity.
Qed.

(** A run of X14: a listing with a name and a price only. *)
Lemma formatCoinInfo_accepts_well_typed_witness :
  exists text,
    formatCoinInfo Reference.host (JObj [("name", JStr "Moon"); ("price", JNum 2)]) 1
    = Ok text.
Proof.
  apply (formatCoinInfo_accepts_well_typed Reference.host
           [("name", JStr "Moon"); ("price", JNum 2)] 1).
  - intros key Hin. simpl in Hin.
    repeat (destruct Hin as [<- | Hin]; [reflexivity |]). contradiction.
  - intros H. discriminate.
  - intros H. discriminate.
Defined.

(** X15: the pulse formatter raises a [TypeError] on a listing that is
    [null], and on a record whose change24h is truthy and not a number, a
    numeric string for one. *)
Theorem formatCoinInfo_rejects_ill_typed (host : Host) (fields : list (string * value))
    (index : nat) :
  formatCoinInfo host JNull index = Throw TypeError
  /\ (truthy (field fields "change24h") = true ->
      (forall x, field fields "change24h" <> JNum x) ->
      formatCoinInfo host (JObj fields) index = Throw TypeError).
Proof.
  split; [reflexivity |].
  intros Htruthy Hnot. rewrite formatCoinInfo_listing. unfold listing, change_line.
  rewrite Htruthy.
  destruct (field fields "change24h") as [| | b | x | s | items | obj]; try reflexivity.
  exfalso. exact (Hnot x eq_refl).
Qed.

(** A use of X15: a listing whose 24h change is the text "45.67". *)
Lemma formatCoinInfo_rejects_ill_typed_witness :
  formatCoinInfo Reference.host
    (JObj [("name", JStr "Moon"); ("change24h", JStr "45.67")]) 1
  = Throw TypeError.
Proof.
  apply (proj2 (formatCoinInfo_rejects_ill_typed Reference.host
                  [("name", JStr "Moon"); ("change24h", JStr "45.67")] 1)).
  - reflexivity.
  - intros x. discriminate.
Defined.

(** ** The rows of /top10 *)

Section Rows.

Context (host : Host).

Lemma top10Item_row (message : string) (coin : value) (index : nat) :
  top10Item host message coin index
  = (row <- top10Item host EmptyString coin index ;; Ok (message ++ row))%res.
Proof.
  unfold top10Item.
  repeat match goal with
         | |- context [rbind ?r _] =>
             lazymatch r with
             | rbind _ _ => fail
             | _ => destruct r as [? | ?]; cbn [rbind]; [| reflexivity]
             end
         end.
  reflexivity.
Qed.

Lemma forEachIndexed_top10_rows (items : list value) :
  forall message index m,
    forEachIndexed (top10Item host) message items index = Ok m ->
    exists rows,
      length rows = length items
      /\ (forall i coin, nth_error items i = Some coin ->
            exists row, nth_error rows i = Some row
                        /\ top10Item host EmptyString coin (index + i) = Ok row)
      /\ m = message ++ join_rows rows.
Proof.
  induction items as [| coin items IH]; intros message index m H; simpl in H.
  - injection H as <-. exists []. split; [reflexivity |]. split.
    + intros [| i] c Hc; discriminate.
    + simpl. rewrite append_nil_r. reflexivity.
  - apply rbind_ok in H. destruct H as [m1 [H1 H]].
    rewrite top10Item_row in H1. apply rbind_ok in H1. destruct H1 as [row [Hrow H1]].
    injection H1 as <-.
    destruct (IH _ _ _ H) as [rows [Hlen [Hrows ->]]].
    exists (row :: rows). split; [simpl; rewrite Hlen; reflexivity |]. split.
    + intros [| i] c Hc; simpl in Hc.
      * injection Hc as <-. exists row. rewrite Nat.add_0_r. split; [reflexivity | exact Hrow].
      * destruct (Hrows i c Hc) as [r [Hr Hok]]. exists r.
        split; [exact Hr |]. rewrite <- Hok. f_equal. lia.
    + simpl. rewrite append_assoc. reflexivity.
Qed.

End Rows.

(** X16: a /top10 message is built only from an array, and then holds one
    row for each element of the array, in the array's order and numbered
    by position, whatever their number; a single element that cannot be
    formatted leaves no message. *)
Theorem top10Message_one_row_each (host : Host) (data : value) (m : string) :
  top10Message host data = Ok m ->
  exists items rows,
    data = JArr items
    /\ length rows = length items
    /\ (forall i coin, nth_error items i = Some coin ->
          exists row, nth_error rows i = Some row
                      /\ top10Item host EmptyString coin i = Ok row)
    /\ m = "📊 *Top 10 Cryptocurrencies*" ++ nl ++ nl ++ join_rows rows ++ nl ++ help_footer.
Proof.
  unfold top10Message, forEachMethod. intros H.
  apply rbind_ok in H. destruct H as [message [Hrows H]]. injection H as <-.
  destruct data as [| | | | | items |]; try discriminate.
  destruct (forEachIndexed_top10_rows host items _ _ _ Hrows) as [rows [Hlen [Hall ->]]].
  exists items, rows. split; [reflexivity |]. split; [exact Hlen |]. split.
  - intros i coin Hc. destruct (Hall i coin Hc) as [row [Hr Hok]].
    exists row. split; assumption.
  - rewrite !append_assoc. reflexivity.
Qed.

(** A run of X16: two rows, the second without a 24h change. *)
Lemma top10Message_one_row_each_witness :
  exists items rows,
    two_rows = JArr items
    /\ length rows = length items
    /\ (forall i coin, nth_error items i = Some coin ->
          exists row, nth_error rows i = Some row
                      /\ top10Item Reference.host EmptyString coin i = Ok row)
    /\ ("📊 *Top 10 Cryptocurrencies*" ++ nl ++ nl ++
        "1\. Bitcoin \(BTC\)" ++ nl ++ "💵 Price: $50,000" ++ nl ++
        "🔴 24h: \-2\.00\%" ++ nl ++ "💎 Market Cap: $1,000,000" ++ nl ++
        "📊 Volume: $2,000" ++ nl ++ nl ++
        "2\. Ether \(ETH\)" ++ nl ++ "💵 Price: $3,000" ++ nl ++
        "🟢 24h: 0\.00\%" ++ nl ++ "💎 Market Cap: $500,000" ++ nl ++
        "📊 Volume: $1,000" ++ nl ++ nl ++ nl ++ help_footer)
       = "📊 *Top 10 Cryptocurrencies*" ++ nl ++ nl ++ join_rows rows ++ nl ++ help_footer.
Proof.
  apply (top10Message_one_row_each Reference.host two_rows). vm_compute. reflexivity.
Defined.

(** ** Every command is answered *)

Lemma always_sends_sendMessage (chatId : value) (text : string) (env : Env) :
  always_sends (sendMessage chatId text env).
Proof.
  intros w. exists [send_request chatId text env]. rewrite sendMessage_run.
  split; [reflexivity | unfold count_posts; simpl; lia].
Qed.

Lemma always_sends_send_unit (chatId : value) (text : string) (env : Env) :
  always_sends (bind (sendMessage chatId text env) (fun _ => ret tt)).
Proof.
  intros w. exists [send_request chatId text env]. rewrite send_unit_run.
  split; [reflexivity | unfold count_posts; simpl; lia].
Qed.

Lemma sends_before_return_always {A} (m : M A) : always_sends m -> sends_before_return m.
Proof.
  intros H w. destruct (H w) as [new [Hw Hc]]. exists new. split; [exact Hw | auto].
Qed.

Lemma sends_before_return_throw {A} (e : error) : sends_before_return (@throw A e).
Proof.
  intros w. exists []. rewrite extend_nil. split; [reflexivity | discriminate].
Qed.

Lemma sends_before_return_bind {A B} (m : M A) (k : A -> M B) :
  at_most 0 m -> (forall a, sends_before_return (k a)) ->
  sends_before_return (bind m k).
Proof.
  intros Hm Hk w. unfold bind.
  destruct (Hm w) as [new1 [Hw1 _]].
  destruct (m w) as [[a | e] w1]; simpl in *.
  - subst w1. destruct (Hk a (extend w new1)) as [new2 [Hw2 Hc2]].
    exists (new1 ++ new2)%list. rewrite Hw2, extend_extend.
    split; [reflexivity |]. intros b Hb. rewrite count_posts_app.
    specialize (Hc2 b Hb). lia.
  - exists new1. split; [exact Hw1 | discriminate].
Qed.

Lemma always_sends_try_catch {A} (body : M A) (handler : error -> M A) :
  sends_before_return body -> (forall e, always_sends (handler e)) ->
  always_sends (try_catch body handler).
Proof.
  intros Hb Hh w. unfold try_catch.
  destruct (Hb w) as [new1 [Hw1 Hc1]].
  destruct (body w) as [[a | e] w1]; simpl in *.
  - exists new1. split; [exact Hw1 | exact (Hc1 a eq_refl)].
  - destruct (Hh e w1) as [new2 [Hw2 Hc2]].
    exists (new1 ++ new2)%list. rewrite Hw2, Hw1, extend_extend.
    split; [reflexivity | rewrite count_posts_app; lia].
Qed.

(** Walks through a [try] body whose last step is a send. *)
Ltac to_the_send :=
  lazymatch goal with
  | |- sends_before_return (bind (sendMessage _ _ _) (fun _ => ret tt)) =>
      apply sends_before_return_always, always_sends_send_unit
  | |- sends_before_return (bind _ _) =>
      apply sends_before_return_bind;
      [first [ apply at_most_fetch_get | apply at_most_json | apply at_most_lift
             | apply at_most_settle, at_most_fetchAxiomPulseData ]
      | intros ?; to_the_send]
  | |- sends_before_return (throw _) => apply sends_before_return_throw
  | |- sends_before_return (if ?c then _ else _) => destruct c; to_the_send
  end.

Section Answered.

Context (host : Host) (chatId : value) (env : Env).

Lemma always_sends_handleGlobalCommand : always_sends (handleGlobalCommand host chatId env).
Proof.
  unfold handleGlobalCommand.
  apply always_sends_try_catch; [to_the_send | intros; apply always_sends_send_unit].
Qed.

Lemma always_sends_handleTrendingCommand :
  always_sends (handleTrendingCommand host chatId env).
Proof.
  unfold handleTrendingCommand.
  apply always_sends_try_catch; [to_the_send | intros; apply always_sends_send_unit].
Qed.

Lemma always_sends_handleTop10Command : always_sends (handleTop10Command host chatId env).
Proof.
  unfold handleTop10Command.
  apply always_sends_try_catch; [to_the_send | intros; apply always_sends_send_unit].
Qed.

Lemma always_sends_handlePulseCommand : always_sends (handlePulseCommand host chatId env).
Proof.
  intros w. destruct (at_most_handlePulseCommand host chatId env w) as [new [Hw _]].
  exists new. split; [exact Hw |].
  unfold handlePulseCommand, try_catch in Hw. unfold bind at 1 in Hw.
  rewrite sendMessage_run in Hw.
  assert (Hfirst : forall (r : result unit) (w1 : World) (rest : list request),
            w1 = extend (extend w [send_request chatId pulse_fetching env]) rest ->
            w1 = extend w new -> (1 <= count_posts new)%nat).
  { intros r w1 rest H1 H2. rewrite H1, extend_extend in H2. apply extend_inj in H2.
    subst new. rewrite count_posts_app. unfold count_posts at 1. simpl. lia. }
  destruct (send_result _) as [d | e].
  - match type of Hw with
    | snd (let (r, w') := ?run in _) = _ =>
        destruct (at_most_bind 0 1 _ _
                    (at_most_settle 0 _ (at_most_fetchAxiomPulseData NewPairs))
                    (fun newPairs =>
                       at_most_bind 0 1 _ _
                         (at_most_settle 0 _ (at_most_fetchAxiomPulseData FinalStretch))
                         (fun finalStretch =>
                            at_most_bind 0 1 _ _
                              (at_most_settle 0 _ (at_most_fetchAxiomPulseData Migrated))
                              (fun migrated =>
                                 at_most_bind 0 1 _ _
                                   (at_most_lift
                                      (pulseMessage host newPairs finalStretch migrated))
                                   (fun message =>
                                      at_most_send_unit chatId message env))))
                    (extend w [send_request chatId pulse_fetching env]))
          as [rest [Hrest _]]
    end.
    destruct (bind _ _ (extend w [send_request chatId pulse_fetching env]))
      as [[[] | e] w1]; simpl in Hrest, Hw.
    + exact (Hfirst (Ok tt) w1 rest Hrest Hw).
    + rewrite send_unit_run, Hrest, !extend_extend in Hw. apply extend_inj in Hw.
      subst new. rewrite count_posts_app. unfold count_posts at 1. simpl. lia.
  - rewrite send_unit_run, extend_extend in Hw. apply extend_inj in Hw.
    subst new. unfold count_posts. simpl. lia.
Qed.

Lemma always_sends_handlePriceCommand (term : string) :
  always_sends (handlePriceCommand host chatId (JStr term) env).
Proof.
  unfold handlePriceCommand.
  apply always_sends_try_catch.
  - to_the_send.
  - intros e. unfold price_failed. rewrite escapeMarkdown_string. cbn [rbind].
    intros w. unfold bind at 1, lift. apply always_sends_send_unit.
Qed.

End Answered.

(** X17: whatever the providers and the platform answer, the dispatch of
    an update whose message has a chat and a text that is a command
    attempts at least one send: the reply, or the apology of the flow or
    of the dispatcher.  (Without a chat the dispatcher throws before any
    send.) *)
Theorem recognised_command_is_answered (host : Host) (update : value) (env : Env)
    (w : World) (chatId : value) (command : Command) :
  routed host update = Some (chatId, command) ->
  command <> Unrecognized ->
  exists new,
    snd (handleTelegramUpdate host update env w) = extend w new
    /\ (1 <= count_posts new)%nat.
Proof.
  intros Hrouted Hcommand.
  rewrite (handleTelegramUpdate_routed host update env chatId command w Hrouted).
  revert w.
  change (always_sends
            (try_catch (execute host chatId command env)
               (fun _ => bind (sendMessage chatId dispatch_failed env) (fun _ => ret tt)))).
  apply always_sends_try_catch; [| intros; apply always_sends_send_unit].
  apply sends_before_return_always.
  destruct command; simpl execute.
  - apply always_sends_send_unit.
  - apply always_sends_handleTop10Command.
  - apply always_sends_handleTrendingCommand.
  - apply always_sends_handlePulseCommand.
  - apply always_sends_handleGlobalCommand.
  - apply always_sends_handlePriceCommand.
  - contradiction.
Qed.

(** A run of X17: "/global" when every call fails. *)
Lemma recognised_command_is_answered_witness :
  exists new,
    snd (handleTelegramUpdate Reference.host (update_with (JNum 42) "/global") demo_env
           (start_of net_all_rejected))
    = extend (start_of net_all_rejected) new
    /\ (1 <= count_posts new)%nat.
Proof.
  apply (recognised_command_is_answered Reference.host (update_with (JNum 42) "/global")
           demo_env (start_of net_all_rejected) (JNum 42) Global).
  - reflexivity.
  - discriminate.
Defined.

(** ** Provider requests of a dispatch *)

Lemma count_gets_app (a b : list request) :
  count_gets (a ++ b) = (count_gets a + count_gets b)%nat.
Proof. unfold count_gets. rewrite filter_app, length_app. reflexivity. Qed.

Lemma gets_at_most_ret {A} (a : A) : gets_at_most 0 (ret a).
Proof. intros w. exists []. rewrite extend_nil. split; [reflexivity | apply Nat.le_refl]. Qed.

Lemma gets_at_most_throw {A} (e : error) : gets_at_most 0 (@throw A e).
Proof. intros w. exists []. rewrite extend_nil. split; [reflexivity | apply Nat.le_refl]. Qed.

Lemma gets_at_most_lift {A} (r : result A) : gets_at_most 0 (lift r).
Proof. intros w. exists []. rewrite extend_nil. split; [reflexivity | apply Nat.le_refl]. Qed.

Lemma gets_at_most_weaken {A} (n n' : nat) (m : M A) :
  (n <= n')%nat -> gets_at_most n m -> gets_at_most n' m.
Proof.
  intros Hle H w. destruct (H w) as [new [Hw Hc]]. exists new. split; [exact Hw | lia].
Qed.

Lemma gets_at_most_bind {A B} (n1 n2 : nat) (m : M A) (k : A -> M B) :
  gets_at_most n1 m -> (forall a, gets_at_most n2 (k a)) ->
  gets_at_most (n1 + n2) (bind m k).
Proof.
  intros Hm Hk w. unfold bind.
  destruct (Hm w) as [new1 [Hw1 Hc1]].
  destruct (m w) as [[a | e] w1]; simpl in *.
  - destruct (Hk a w1) as [new2 [Hw2 Hc2]].
    exists (new1 ++ new2)%list. rewrite Hw2, Hw1, extend_extend, count_gets_app.
    split; [reflexivity | lia].
  - exists new1. split; [exact Hw1 | lia].
Qed.

Lemma gets_at_most_try_catch {A} (n1 n2 : nat) (body : M A) (handler : error -> M A) :
  gets_at_most n1 body -> (forall e, gets_at_most n2 (handler e)) ->
  gets_at_most (n1 + n2) (try_catch body handler).
Proof.
  intros Hm Hk w. unfold try_catch.
  destruct (Hm w) as [new1 [Hw1 Hc1]].
  destruct (body w) as [[a | e] w1]; simpl in *.
  - exists new1. split; [exact Hw1 | lia].
  - destruct (Hk e w1) as [new2 [Hw2 Hc2]].
    exists (new1 ++ new2)%list. rewrite Hw2, Hw1, extend_extend, count_gets_app.
    split; [reflexivity | lia].
Qed.

Lemma gets_at_most_fetch_get (url : string) : gets_at_most 1 (fetch (HttpGet url)).
Proof.
  intros w. exists [HttpGet url]. unfold fetch.
  destruct (network w (calls w) (HttpGet url)); simpl;
    (split; [reflexivity | apply Nat.le_refl]).
Qed.

Lemma gets_at_most_json (r : response) : gets_at_most 0 (json r).
Proof.
  unfold json. destruct (json_body r); [apply gets_at_most_ret | apply gets_at_most_throw].
Qed.

Lemma gets_at_most_sendMessage (chatId : value) (text : string) (env : Env) :
  gets_at_most 0 (sendMessage chatId text env).
Proof.
  intros w. exists [send_request chatId text env]. rewrite sendMessage_run.
  split; [reflexivity | apply Nat.le_refl].
Qed.

Lemma gets_at_most_send_unit (chatId : value) (text : string) (env : Env) :
  gets_at_most 0 (bind (sendMessage chatId text env) (fun _ => ret tt)).
Proof.
  apply (gets_at_most_bind 0 0);
    [apply gets_at_most_sendMessage | intros; apply gets_at_most_ret].
Qed.

Lemma gets_at_most_settle_pulse (s : section) :
  gets_at_most 1 (settle (fetchAxiomPulseData s)).
Proof.
  intros w. exists [HttpGet (endpoints s)]. unfold settle.
  rewrite fetchAxiomPulseData_run. split; [reflexivity | apply Nat.le_refl].
Qed.

(** Walks through a [try] body, charging each provider request. *)
Ltac charge :=
  lazymatch goal with
  | |- gets_at_most (S ?n) (bind (fetch (HttpGet _)) _) =>
      apply (gets_at_most_bind 1 n); [apply gets_at_most_fetch_get | intros; charge]
  | |- gets_at_most (S ?n) (bind (settle (fetchAxiomPulseData _)) _) =>
      apply (gets_at_most_bind 1 n); [apply gets_at_most_settle_pulse | intros; charge]
  | |- gets_at_most ?n (bind _ _) =>
      apply (gets_at_most_bind 0 n);
      [first [ apply gets_at_most_sendMessage | apply gets_at_most_json
             | apply gets_at_most_lift ]
      | intros; charge]
  | |- gets_at_most ?n (throw _) =>
      apply (gets_at_most_weaken 0); [lia | apply gets_at_most_throw]
  | |- gets_at_most ?n (ret _) =>
      apply (gets_at_most_weaken 0); [lia | apply gets_at_most_ret]
  | |- gets_at_most _ (if ?c then _ else _) => destruct c; charge
  end.

Lemma gets_at_most_execute (host : Host) (chatId : value) (command : Command) (env : Env) :
  gets_at_most (provider_budget command) (execute host chatId command env).
Proof.
  destruct command; simpl execute; simpl provider_budget.
  - apply gets_at_most_send_unit.
  - unfold handleTop10Command.
    apply (gets_at_most_try_catch 1 0); [charge | intros; charge].
  - unfold handleTrendingCommand.
    apply (gets_at_most_try_catch 1 0); [charge | intros; charge].
  - unfold handlePulseCommand.
    apply (gets_at_most_try_catch 3 0); [charge | intros; charge].
  - unfold handleGlobalCommand.
    apply (gets_at_most_try_catch 1 0); [charge | intros; charge].
  - unfold handlePriceCommand.
    apply (gets_at_most_try_catch 2 0); [charge | intros; charge].
  - apply gets_at_most_ret.
Qed.

(** X18: whatever the network answers, the dispatch of a command issues
    no more provider requests than the command needs: three for /pulse,
    two for /price, one for /top10, /trending and /global, none for the
    help text; no dispatch issues more than three. *)
Theorem dispatch_provider_budget (host : Host) (update : value) (env : Env) (w : World)
    (chatId : value) (command : Command) :
  routed host update = Some (chatId, command) ->
  exists new,
    snd (handleTelegramUpdate host update env w) = extend w new
    /\ (count_gets new <= provider_budget command)%nat
    /\ (count_gets new <= 3)%nat.
Proof.
  intros Hrouted.
  rewrite (handleTelegramUpdate_routed host update env chatId command w Hrouted).
  destruct (gets_at_most_try_catch (provider_budget command) 0
              (execute host chatId command env)
              (fun _ => bind (sendMessage chatId dispatch_failed env) (fun _ => ret tt))
              (gets_at_most_execute host chatId command env)
              (fun _ => gets_at_most_send_unit chatId dispatch_failed env) w)
    as [new [Hw Hc]].
  exists new. split; [exact Hw |].
  assert (provider_budget command <= 3)%nat by (destruct command; simpl; lia).
  lia.
Qed.

(** A run of X18: "/price btc" when every call fails. *)
Lemma dispatch_provider_budget_witness :
  exists new,
    snd (handleTelegramUpdate Reference.host (update_with (JNum 42) "/price btc") demo_env
           (start_of net_all_rejected))
    = extend (start_of net_all_rejected) new
    /\ (count_gets new <= provider_budget (Price "btc"))%nat
    /\ (count_gets new <= 3)%nat.
Proof.
  apply (dispatch_provider_budget Reference.host (update_with (JNum 42) "/price btc")
           demo_env (start_of net_all_rejected) (JNum 42) (Price "btc")).
  reflexivity.
Defined.

(** ** The escaper loses nothing *)

Lemma replace_class_head (s : string) (a : ascii) (r : string) :
  replace_class escape_class (fun m => bs ++ m) s = String a r ->
  existsb (Ascii.eqb a) reserved = false.
Proof.
  destruct s as [| c s]; [discriminate |].
  rewrite replace_class_cons.
  destruct (existsb (Ascii.eqb c) reserved) eqn:Hc; intros H; injection H as Hhead _.
  - subst a. reflexivity.
  - subst a. exact Hc.
Qed.

Lemma replace_class_injective (s t : string) :
  replace_class escape_class (fun m => bs ++ m) s
  = replace_class escape_class (fun m => bs ++ m) t ->
  s = t.
Proof.
  revert t. induction s as [| a s IH]; intros [| b t].
  - reflexivity.
  - rewrite replace_class_cons.
    destruct (existsb (Ascii.eqb b) reserved); discriminate.
  - rewrite replace_class_cons.
    destruct (existsb (Ascii.eqb a) reserved); discriminate.
  - rewrite !replace_class_cons.
    destruct (existsb (Ascii.eqb a) reserved) eqn:Ha;
      destruct (existsb (Ascii.eqb b) reserved) eqn:Hb; intros H.
    + injection H as Hab Hrest. subst b. f_equal. apply IH. exact Hrest.
    + injection H as _ Hrest. symmetry in Hrest.
      apply replace_class_head in Hrest. congruence.
    + injection H as _ Hrest.
      apply replace_class_head in Hrest. congruence.
    + injection H as Hab Hrest. subst b. f_equal. apply IH. exact Hrest.
Qed.

(** X19: the escaper is injective on texts: two different texts are never
    escaped to the same text, although the backslash itself is not among
    the characters it guards. *)
Theorem escapeMarkdown_injective (host : Host) (s t : string) :
  s <> t -> escapeMarkdown host (JStr s) <> escapeMarkdown host (JStr t).
Proof.
  intros Hne H. apply Hne. rewrite !escapeMarkdown_string in H.
  injection H as H. apply replace_class_injective. exact H.
Qed.

(** A use of X19: a text and its own escaped form. *)
Lemma escapeMarkdown_injective_witness :
  escapeMarkdown Reference.host (JStr "a.b") <> escapeMarkdown Reference.host (JStr "a\.b").
Proof.
  apply (escapeMarkdown_injective Reference.host "a.b" "a\.b"). discriminate.
Defined.
